(** * OpenStarbound: Lua asset bindings and the ImGui end-stack bindings

    A shallow embedding of
    - [source/game/scripting/StarLuaAssetBindings.cpp]: the callbacks that
      let Lua scripts create, read and drop temporary assets, and
    - [source/extern/imgui_iterator.inl]: the table of generated ImGui
      bindings with their end-stack annotations,
    followed by the properties of both that the design document states. *)

From Stdlib Require Import String Ascii List ZArith NArith Lia Bool.
From Stdlib.Strings Require Import Byte.
From stdpp Require Import base option list gmap strings pretty.

Local Open Scope string_scope.

(** ** Star: strings, byte arrays, exceptions, images *)

Module Star.

(** A [Star::String] is kept as its UTF-8 encoding, one [ascii] per byte
    (Rocq's [string]); a [ByteArray] is a list of bytes. *)
Definition ByteArray := list byte.

(** [ByteArray(s.utf8Ptr(), s.utf8Size())] *)
Definition utf8Bytes (s : string) : ByteArray := list_byte_of_string s.

(** [s.utf8Size()] *)
Definition utf8Size (s : string) : nat := String.length s.

(** [String(bytes.ptr(), bytes.size())] *)
Definition String_of_bytes (b : ByteArray) : string := string_of_list_byte b.

(** [s.size()]: the number of code points, i.e. of bytes that are not UTF-8
    continuation bytes [10xxxxxx].  Only used in a log line. *)
Definition isContinuation (c : ascii) : bool :=
  let n := N_of_ascii c in (128 <=? n)%N && (n <? 192)%N.

Fixpoint String_size (s : string) : nat :=
  match s with
  | EmptyString => 0
  | String c rest => (if isContinuation c then 0 else 1) + String_size rest
  end.

(** Modelled from the spec: [path.beginsWith(prefix)] (StarString.hpp is
    not part of the sources at hand), the test of §4.4 that the path
    matches "a fixed namespace prefix". *)
Definition beginsWith (s pre : string) : bool := String.prefix pre s.

(** Modelled from the spec: [strf(fmt, args...)] (StarFormat.hpp is not
    part of the sources at hand), which builds the "descriptive error
    naming the required prefix and the offending path" of §4.4: every [{}]
    of the format is replaced by the next argument, already printed. *)
Fixpoint strf (fmt : string) (args : list string) : string :=
  match fmt with
  | EmptyString => EmptyString
  | String "{" (String "}" rest) =>
      match args with
      | a :: args' => a +:+ strf rest args'
      | [] => strf rest []
      end
  | String c rest => String c (strf rest args)
  end.

(** The exceptions this file can see: [StarException] and its subclasses
    (a failed Lua conversion is one), and any other [std::exception]. *)
Inductive Exception :=
| StarException (what : string)
| LuaConversionException (what : string)
| std_exception (what : string).

Definition what (e : Exception) : string :=
  match e with
  | StarException m | LuaConversionException m | std_exception m => m
  end.

(** Whether [catch (StarException const&)] catches [e]. *)
Definition isStarException (e : Exception) : bool :=
  match e with
  | std_exception _ => false
  | _ => true
  end.

(** Modelled from the spec: the decoded image of §4.5 (StarImage.hpp is
    not part of the sources at hand); only its dimensions are inspected. *)
Record Image := mkImage {
  width : N;
  height : N;
  pixels : list byte
}.

End Star.
Import Star.

(** ** The runtime content store *)

(** Modelled from the spec: [MemoryAssetSource] (StarMemoryAssetSource.hpp
    is not part of the sources at hand), after §3 and §4.5: a path-keyed
    map whose entries are a raw byte sequence or a decoded image, with
    [set], [contains], [erase] (did it exist), [image] (only meaningful for
    image entries) and [read]. *)
Inductive AssetFile :=
| FileBytes (b : ByteArray)
| FileImage (i : Image).

Record MemoryAssetSource := mkSource {
  sourceType : string;
  sourceMetadata : list (string * string);
  files : gmap string AssetFile
}.

Module MemoryAssetSource.

Definition set (path : string) (f : AssetFile) (s : MemoryAssetSource)
  : MemoryAssetSource :=
  mkSource (sourceType s) (sourceMetadata s) (<[path := f]> (files s)).

Definition contains (path : string) (s : MemoryAssetSource) : bool :=
  bool_decide (is_Some (files s !! path)).

Definition erase (path : string) (s : MemoryAssetSource)
  : bool * MemoryAssetSource :=
  (contains path s,
   mkSource (sourceType s) (sourceMetadata s) (delete path (files s))).

Definition image (path : string) (s : MemoryAssetSource) : option Image :=
  match files s !! path with
  | Some (FileImage i) => Some i
  | _ => None
  end.

End MemoryAssetSource.

(** ** Collaborators that live outside these sources

    The scripting runtime's value conversions, the structured-data printer
    and the PNG codec are consumed through their interfaces only. *)

Class Collaborators := {
  LuaValue : Type;
  Json : Type;
  (** [Json::repr()], the canonical text of a structured value *)
  Json_repr : Json -> string;
  (** [Image::readPng(buffer)]: an image, or the exception it throws *)
  Image_readPng : ByteArray -> Exception + Image;
  (** the PNG encoding [MemoryAssetSource::read] gives for an image entry *)
  Image_writePng : Image -> ByteArray
}.

(** [LuaEngine]: the non-throwing probes [engine.luaMaybeTo<T>(v)]. *)
Record LuaEngine `{Collaborators} := mkEngine {
  luaMaybeTo_String : LuaValue -> option string;
  luaMaybeTo_Image : LuaValue -> option Image;
  luaMaybeTo_Json : LuaValue -> option Json
}.

(** ** Process state and the monad of the callbacks *)

(** A [MemoryAssetSourcePtr] is a shared pointer: [None] is the null
    pointer, [Some a] the object at address [a] of the heap. *)
Definition MemoryAssetSourcePtr := option nat.

Record World := mkWorld {
  (** the [MemoryAssetSource] objects alive behind shared pointers *)
  heap : gmap nat MemoryAssetSource;
  nextAddress : nat;
  (** the two function-local statics of [getTemporaryAssetSource] *)
  tempSource : MemoryAssetSourcePtr;
  initialized : bool;
  (** [Assets]: the runtime sources by mount point *)
  runtimeSources : gmap string MemoryAssetSourcePtr;
  (** what [Logger::info] received, latest first *)
  logged : list string
}.

Definition initialWorld : World := mkWorld ∅ 0 None false ∅ [].

(** How a call ends: with a value, with a C++ exception, or in undefined
    behaviour (a null or dangling pointer was dereferenced). *)
Inductive Outcome (A : Type) :=
| Returned (a : A)
| Thrown (e : Exception)
| Undefined.
Arguments Returned {A} a.
Arguments Thrown {A} e.
Arguments Undefined {A}.

Definition M (A : Type) : Type := World -> Outcome A * World.

Definition M_ret {A} (a : A) : M A := fun w => (Returned a, w).

Definition M_bind {A B} (f : A -> M B) (m : M A) : M B := fun w =>
  match m w with
  | (Returned a, w') => f a w'
  | (Thrown e, w') => (Thrown e, w')
  | (Undefined, w') => (Undefined, w')
  end.

#[global] Instance M_mret : MRet M := @M_ret.
#[global] Instance M_mbind : MBind M := @M_bind.

Definition throw {A} (e : Exception) : M A := fun w => (Thrown e, w).

(** [try { body } catch (...) { handler }] *)
Definition try_catch {A} (body : M A) (handler : Exception -> M A) : M A :=
  fun w =>
    match body w with
    | (Thrown e, w') => handler e w'
    | r => r
    end.

Definition modify (f : World -> World) : M unit := fun w => (Returned tt, f w).

(** Reading a static or a member without changing anything. *)
Definition inspect {A} (f : World -> A) : M A := fun w => (Returned (f w), w).

Definition withLog (msg : string) (w : World) : World :=
  mkWorld (heap w) (nextAddress w) (tempSource w) (initialized w)
    (runtimeSources w) (msg :: logged w).

Definition Logger_info (msg : string) : M unit := modify (withLog msg).

(** [make_shared<MemoryAssetSource>(type, metadata)] *)
Definition make_shared (type : string) (metadata : list (string * string))
  : M MemoryAssetSourcePtr := fun w =>
  let a := nextAddress w in
  (Returned (Some a),
   mkWorld (<[a := mkSource type metadata ∅]> (heap w)) (S a) (tempSource w)
     (initialized w) (runtimeSources w) (logged w)).

(** The last shared pointer to an object goes out of scope. *)
Definition release (p : MemoryAssetSourcePtr) : M unit :=
  modify (fun w =>
    match p with
    | Some a => mkWorld (delete a (heap w)) (nextAddress w) (tempSource w)
                  (initialized w) (runtimeSources w) (logged w)
    | None => w
    end).

(** [p->method(...)] for a method that reads the object *)
Definition deref {A} (p : MemoryAssetSourcePtr) (f : MemoryAssetSource -> A)
  : M A := fun w =>
  match p with
  | Some a =>
      match heap w !! a with
      | Some s => (Returned (f s), w)
      | None => (Undefined, w)
      end
  | None => (Undefined, w)
  end.

(** [p->method(...)] for a method that updates the object in place *)
Definition deref_mut {A} (p : MemoryAssetSourcePtr)
    (f : MemoryAssetSource -> A * MemoryAssetSource) : M A := fun w =>
  match p with
  | Some a =>
      match heap w !! a with
      | Some s =>
          (Returned (fst (f s)),
           mkWorld (<[a := snd (f s)]> (heap w)) (nextAddress w)
             (tempSource w) (initialized w) (runtimeSources w) (logged w))
      | None => (Undefined, w)
      end
  | None => (Undefined, w)
  end.

(** Modelled from the spec: [Assets::addRuntimeSource(mountPoint, source)]
    (StarAssets.hpp is not part of the sources at hand), after §6: the
    handle given last for a mount point supersedes the earlier one. *)
Definition withRuntimeSource (mountPoint : string)
    (source : MemoryAssetSourcePtr) (w : World) : World :=
  mkWorld (heap w) (nextAddress w) (tempSource w) (initialized w)
    (<[mountPoint := source]> (runtimeSources w)) (logged w).

Definition addRuntimeSource (mountPoint : string) (source : MemoryAssetSourcePtr)
  : M unit := modify (withRuntimeSource mountPoint source).

(** ** StarLuaAssetBindings.cpp *)

Definition tempMetadata : list (string * string) :=
  [("name", "Temporary Assets");
   ("description", "Runtime-created assets from Lua")].

(** [getTemporaryAssetSource()]; the pointer is returned by value. *)
Definition getTemporaryAssetSource : M MemoryAssetSourcePtr :=
  isInitialized ← inspect initialized;
  (if negb isInitialized then
     p ← make_shared "temp" tempMetadata;
     modify (fun w => mkWorld (heap w) (nextAddress w) p (initialized w)
                        (runtimeSources w) (logged w));;
     addRuntimeSource "/temp" p;;
     modify (fun w => mkWorld (heap w) (nextAddress w) (tempSource w) true
                        (runtimeSources w) (logged w));;
     Logger_info "Initialized temporary asset source"
   else mret tt);;
  inspect tempSource.

Section Callbacks.
Context {rt : Collaborators}.

(** Modelled from the spec: [engine.luaTo<Json>(v)] (StarLua.hpp is not
    part of the sources at hand), the throwing conversion of §4.1,
    "toNative<T>(value) -> T or CoercionFailure": what the probe finds, and
    a conversion error when it finds nothing.  The text of the error is
    not looked at. *)
Definition luaTo_Json (engine : LuaEngine) (v : LuaValue) : M Json :=
  match luaMaybeTo_Json engine v with
  | Some j => mret j
  | None => throw (LuaConversionException "Error converting LuaValue to type 'Json'")
  end.

(** Modelled from the spec: [MemoryAssetSource::read(path)]; the bytes of a
    bytes entry, and the encoded image of an image entry.  The callbacks
    call it only after [contains(path)] held. *)
Definition MemoryAssetSource_read (path : string) (s : MemoryAssetSource)
  : ByteArray :=
  match files s !! path with
  | Some (FileBytes b) => b
  | Some (FileImage i) => Image_writePng i
  | None => []
  end.

Definition makeAsset (engine : LuaEngine) (path : string) (data : LuaValue)
  : M string :=
  if negb (beginsWith path "/temp/") then
    throw (StarException
             (strf "Temporary asset path must start with '/temp/', got: {}" [path]))
  else
    tempSource ← getTemporaryAssetSource;
    match luaMaybeTo_String engine data with
    | Some str =>
        let bytes := utf8Bytes str in
        let byteSize := length bytes in
        deref_mut tempSource
          (fun s => (tt, MemoryAssetSource.set path (FileBytes bytes) s));;
        Logger_info (strf "Created temporary asset (bytes): {} ({} bytes)"
                       [path; pretty byteSize])
    | None =>
        match luaMaybeTo_Image engine data with
        | Some image =>
            Logger_info (strf "Created temporary asset (image): {} ({}x{})"
                           [path; pretty (width image); pretty (height image)]);;
            deref_mut tempSource
              (fun s => (tt, MemoryAssetSource.set path (FileImage image) s))
        | None =>
            j ← luaTo_Json engine data;
            let json := Json_repr j in
            let bytes := utf8Bytes json in
            let byteSize := length bytes in
            deref_mut tempSource
              (fun s => (tt, MemoryAssetSource.set path (FileBytes bytes) s));;
            Logger_info (strf "Created temporary asset (JSON): {} ({} bytes)"
                           [path; pretty byteSize])
        end
    end;;
    addRuntimeSource "/temp" tempSource;;
    mret path.

Definition makeAssetFromBytes (path bytes : string) : M string :=
  if negb (beginsWith path "/temp/") then
    throw (StarException
             (strf "Temporary asset path must start with '/temp/', got: {}" [path]))
  else
    tempSource ← getTemporaryAssetSource;
    let byteArray := utf8Bytes bytes in
    deref_mut tempSource
      (fun s => (tt, MemoryAssetSource.set path (FileBytes byteArray) s));;
    Logger_info (strf "Created temporary asset: {} ({} bytes)"
                   [path; pretty (String_size bytes)]);;
    addRuntimeSource "/temp" tempSource;;
    mret path.

Definition makeImageFromBytes (path bytes : string) : M string :=
  if negb (beginsWith path "/temp/") then
    throw (StarException
             (strf "Temporary image path must start with '/temp/', got: {}" [path]))
  else
    try_catch
      (let byteArray := utf8Bytes bytes in
       image ← match Image_readPng byteArray with
               | inl e => throw e
               | inr i => mret i
               end;
       let width := width image in
       let height := height image in
       if (width =? 0)%N || (height =? 0)%N then
         throw (StarException
                  (strf "Failed to load image: resulted in 0x0 size. Data size: {} bytes"
                     [pretty (length byteArray)]))
       else
         tempSource ← getTemporaryAssetSource;
         deref_mut tempSource
           (fun s => (tt, MemoryAssetSource.set path (FileImage image) s));;
         Logger_info (strf "Created temporary image: {} ({}x{})"
                        [path; pretty width; pretty height]);;
         addRuntimeSource "/temp" tempSource;;
         mret path)
      (fun e =>
         if isStarException e then throw e
         else throw (StarException
                       (strf "Failed to create image from bytes: {}" [what e]))).

Definition getTemporaryAsset (path : string) : M (option string) :=
  tempSource ← getTemporaryAssetSource;
  c ← deref tempSource (MemoryAssetSource.contains path);
  if c : bool then
    bytes ← deref tempSource (MemoryAssetSource_read path);
    mret (Some (String_of_bytes bytes))
  else mret None.

Definition getTemporaryImage (path : string) : M (option Image) :=
  tempSource ← getTemporaryAssetSource;
  image ← deref tempSource (MemoryAssetSource.image path);
  match image with
  | Some i => mret (Some i)
  | None => mret None
  end.

Definition hasTemporaryAsset (path : string) : M bool :=
  tempSource ← getTemporaryAssetSource;
  deref tempSource (MemoryAssetSource.contains path).

Definition removeTemporaryAsset (path : string) : M unit :=
  tempSource ← getTemporaryAssetSource;
  erased ← deref_mut tempSource (MemoryAssetSource.erase path);
  if erased : bool then Logger_info (strf "Removed temporary asset: {}" [path])
  else mret tt.

(** [getTemporaryAssetSource() = newSource;] assigns to the temporary copy
    the call returned; the static of [getTemporaryAssetSource] is not
    involved.  [newSource] then goes out of scope with the callback. *)
Definition clearTemporaryAssets : M unit :=
  newSource ← make_shared "temp" tempMetadata;
  temporary ← getTemporaryAssetSource;
  let temporary := newSource in
  Logger_info "Cleared all temporary assets";;
  release newSource.

(** [makeAssetCallbacks()]: the eight callbacks it registers, as calls a
    script can make, and the world each call leaves behind, however it
    ends. *)
Inductive Callback :=
| call_makeAsset (engine : LuaEngine) (path : string) (data : LuaValue)
| call_makeAssetFromBytes (path bytes : string)
| call_makeImageFromBytes (path bytes : string)
| call_getTemporaryAsset (path : string)
| call_getTemporaryImage (path : string)
| call_hasTemporaryAsset (path : string)
| call_removeTemporaryAsset (path : string)
| call_clearTemporaryAssets.

Definition worldAfter (c : Callback) (w : World) : World :=
  match c with
  | call_makeAsset engine path data => snd (makeAsset engine path data w)
  | call_makeAssetFromBytes path bytes => snd (makeAssetFromBytes path bytes w)
  | call_makeImageFromBytes path bytes => snd (makeImageFromBytes path bytes w)
  | call_getTemporaryAsset path => snd (getTemporaryAsset path w)
  | call_getTemporaryImage path => snd (getTemporaryImage path w)
  | call_hasTemporaryAsset path => snd (hasTemporaryAsset path w)
  | call_removeTemporaryAsset path => snd (removeTemporaryAsset path w)
  | call_clearTemporaryAssets => snd (clearTemporaryAssets w)
  end.

Inductive reachable : World -> Prop :=
| reachable_initial : reachable initialWorld
| reachable_call (c : Callback) (w : World) :
    reachable w -> reachable (worldAfter c w).

End Callbacks.

(** ** Reading the store, and the states the callbacks can be in *)

(** The content of the temporary store: what the static pointer leads to
    once it is initialised, nothing before. *)
Definition contentStore (w : World) : gmap string AssetFile :=
  if initialized w then
    match tempSource w with
    | Some a =>
        match heap w !! a with
        | Some s => files s
        | None => ∅
        end
    | None => ∅
    end
  else ∅.

(** The statics agree with the heap: once initialised, the static pointer
    leads to a live object; addresses are handed out in increasing order. *)
Definition wf (w : World) : Prop :=
  (initialized w = true ->
   exists a, tempSource w = Some a /\ is_Some (heap w !! a)) /\
  (forall a, is_Some (heap w !! a) -> a < nextAddress w).

(** The world [getTemporaryAssetSource] leaves behind. *)
Definition ensured (w : World) : World :=
  if initialized w then w
  else
    let a := nextAddress w in
    mkWorld (<[a := mkSource "temp" tempMetadata ∅]> (heap w)) (S a) (Some a)
      true (<["/temp" := Some a]> (runtimeSources w))
      ("Initialized temporary asset source" :: logged w).

(** The store with one file put at [path]. *)
Definition stored (path : string) (f : AssetFile) (w : World) : World :=
  match tempSource w with
  | Some a =>
      match heap w !! a with
      | Some s =>
          mkWorld (<[a := MemoryAssetSource.set path f s]> (heap w))
            (nextAddress w) (tempSource w) (initialized w)
            (runtimeSources w) (logged w)
      | None => w
      end
  | None => w
  end.

(** The world after a creating callback went through: the file is in the
    store, one line is logged, and the store is mounted again. *)
Definition created (path : string) (f : AssetFile) (msg : string) (w : World)
  : World :=
  withRuntimeSource "/temp" (tempSource (ensured w))
    (withLog msg (stored path f (ensured w))).

(** The world after [removeTemporaryAsset(path)]: the entry is erased from
    the ensured store, and a line is logged when there was one. *)
Definition removed (path : string) (w : World) : World :=
  let w1 := ensured w in
  match tempSource w1 with
  | Some a =>
      match heap w1 !! a with
      | Some s =>
          let w2 := mkWorld (<[a := snd (MemoryAssetSource.erase path s)]> (heap w1))
                      (nextAddress w1) (tempSource w1) (initialized w1)
                      (runtimeSources w1) (logged w1) in
          if MemoryAssetSource.contains path s
          then withLog (strf "Removed temporary asset: {}" [path]) w2
          else w2
      | None => w1
      end
  | None => w1
  end.

(** The world after [clearTemporaryAssets()]: the new source is built, the
    store is ensured, the line is logged and the new source is dropped. *)
Definition cleared (w : World) : World :=
  let w1 := snd (make_shared "temp" tempMetadata w) in
  let w2 := ensured w1 in
  mkWorld (delete (nextAddress w) (heap w2)) (nextAddress w2) (tempSource w2)
    (initialized w2) (runtimeSources w2)
    ("Cleared all temporary assets" :: logged w2).

(** ** imgui_iterator.inl: the generated ImGui bindings *)

Module ImGui.

(** The three end-stack annotations a binding can carry, with the slot id
    written in the source. *)
Inductive EndStackMacro :=
| IF_RET_ADD_END_STACK (slot : nat)
| ADD_END_STACK (slot : nat)
| POP_END_STACK (slot : nat).

Inductive Registration := IMGUI_FUNCTION | IMGUI_FUNCTION_DRAW_LIST.

(** One [IMGUI_FUNCTION(name) ... END_IMGUI_FUNC] block: the script-visible
    name, the native function of its [CALL_FUNCTION] (or
    [CALL_FUNCTION_NO_RET], then without return type), and the end-stack
    annotation that follows the call, if any.  No block has two. *)
Record Binding := mkBinding {
  registration : Registration;
  name : string;
  callee : string;
  returns : option string;
  endStackMacro : option EndStackMacro
}.

Definition fn := mkBinding IMGUI_FUNCTION.
Definition dl := mkBinding IMGUI_FUNCTION_DRAW_LIST.

(** Every block of the file, in file order. *)
Definition bindings : list Binding := [
  fn "EndFrame" "EndFrame" None (Some (POP_END_STACK 0));
  fn "ShowDemoWindow" "ShowDemoWindow" None None;
  fn "ShowMetricsWindow" "ShowMetricsWindow" None None;
  fn "ShowDebugLogWindow" "ShowDebugLogWindow" None None;
  fn "ShowIDStackToolWindow" "ShowIDStackToolWindow" None None;
  fn "ShowAboutWindow" "ShowAboutWindow" None None;
  fn "ShowStyleSelector" "ShowStyleSelector" (Some "bool") None;
  fn "ShowFontSelector" "ShowFontSelector" None None;
  fn "ShowUserGuide" "ShowUserGuide" None None;
  fn "GetVersion" "GetVersion" (Some "const char*") None;
  fn "Begin" "Begin" (Some "bool") (Some (IF_RET_ADD_END_STACK 1));
  fn "End" "End" None (Some (POP_END_STACK 1));
  fn "BeginChild" "BeginChild" (Some "bool") (Some (IF_RET_ADD_END_STACK 2));
  fn "BeginChild_4" "BeginChild" (Some "bool") (Some (IF_RET_ADD_END_STACK 2));
  fn "EndChild" "EndChild" None (Some (POP_END_STACK 2));
  fn "IsWindowAppearing" "IsWindowAppearing" (Some "bool") None;
  fn "IsWindowCollapsed" "IsWindowCollapsed" (Some "bool") None;
  fn "IsWindowFocused" "IsWindowFocused" (Some "bool") None;
  fn "IsWindowHovered" "IsWindowHovered" (Some "bool") None;
  fn "GetWindowPos" "GetWindowPos" (Some "ImVec2") None;
  fn "GetWindowSize" "GetWindowSize" (Some "ImVec2") None;
  fn "GetWindowWidth" "GetWindowWidth" (Some "float") None;
  fn "GetWindowHeight" "GetWindowHeight" (Some "float") None;
  fn "SetNextWindowPos" "SetNextWindowPos" None None;
  fn "SetNextWindowSize" "SetNextWindowSize" None None;
  fn "SetNextWindowContentSize" "SetNextWindowContentSize" None None;
  fn "SetNextWindowCollapsed" "SetNextWindowCollapsed" None None;
  fn "SetNextWindowFocus" "SetNextWindowFocus" None None;
  fn "SetNextWindowScroll" "SetNextWindowScroll" None None;
  fn "SetNextWindowBgAlpha" "SetNextWindowBgAlpha" None None;
  fn "SetWindowPos" "SetWindowPos" None None;
  fn "SetWindowSize" "SetWindowSize" None None;
  fn "SetWindowCollapsed" "SetWindowCollapsed" None None;
  fn "SetWindowFocus" "SetWindowFocus" None None;
  fn "SetWindowFontScale" "SetWindowFontScale" None None;
  fn "SetWindowPos_3" "SetWindowPos" None None;
  fn "SetWindowSize_3" "SetWindowSize" None None;
  fn "SetWindowCollapsed_3" "SetWindowCollapsed" None None;
  fn "SetWindowFocus_1" "SetWindowFocus" None None;
  fn "GetScrollX" "GetScrollX" (Some "float") None;
  fn "GetScrollY" "GetScrollY" (Some "float") None;
  fn "SetScrollX" "SetScrollX" None None;
  fn "SetScrollY" "SetScrollY" None None;
  fn "GetScrollMaxX" "GetScrollMaxX" (Some "float") None;
  fn "GetScrollMaxY" "GetScrollMaxY" (Some "float") None;
  fn "SetScrollHereX" "SetScrollHereX" None None;
  fn "SetScrollHereY" "SetScrollHereY" None None;
  fn "SetScrollFromPosX" "SetScrollFromPosX" None None;
  fn "SetScrollFromPosY" "SetScrollFromPosY" None None;
  fn "PopFont" "PopFont" None None;
  fn "PushStyleColor" "PushStyleColor" None None;
  fn "PushStyleColor_2" "PushStyleColor" None None;
  fn "PopStyleColor" "PopStyleColor" None None;
  fn "PushStyleVar" "PushStyleVar" None (Some (ADD_END_STACK 3));
  fn "PushStyleVar_2" "PushStyleVar" None (Some (ADD_END_STACK 3));
  fn "PushStyleVarX" "PushStyleVarX" None None;
  fn "PushStyleVarY" "PushStyleVarY" None None;
  fn "PopStyleVar" "PopStyleVar" None (Some (POP_END_STACK 3));
  fn "PushItemFlag" "PushItemFlag" None None;
  fn "PopItemFlag" "PopItemFlag" None None;
  fn "PushItemWidth" "PushItemWidth" None None;
  fn "PopItemWidth" "PopItemWidth" None None;
  fn "SetNextItemWidth" "SetNextItemWidth" None None;
  fn "CalcItemWidth" "CalcItemWidth" (Some "float") None;
  fn "PushTextWrapPos" "PushTextWrapPos" None None;
  fn "PopTextWrapPos" "PopTextWrapPos" None None;
  fn "GetFontSize" "GetFontSize" (Some "float") None;
  fn "GetFontTexUvWhitePixel" "GetFontTexUvWhitePixel" (Some "ImVec2") None;
  fn "GetColorU32" "GetColorU32" (Some "unsigned int") None;
  fn "GetColorU32_1" "GetColorU32" (Some "unsigned int") None;
  fn "GetColorU32_2" "GetColorU32" (Some "unsigned int") None;
  fn "GetCursorScreenPos" "GetCursorScreenPos" (Some "ImVec2") None;
  fn "SetCursorScreenPos" "SetCursorScreenPos" None None;
  fn "GetContentRegionAvail" "GetContentRegionAvail" (Some "ImVec2") None;
  fn "GetCursorPos" "GetCursorPos" (Some "ImVec2") None;
  fn "GetCursorPosX" "GetCursorPosX" (Some "float") None;
  fn "GetCursorPosY" "GetCursorPosY" (Some "float") None;
  fn "SetCursorPos" "SetCursorPos" None None;
  fn "SetCursorPosX" "SetCursorPosX" None None;
  fn "SetCursorPosY" "SetCursorPosY" None None;
  fn "GetCursorStartPos" "GetCursorStartPos" (Some "ImVec2") None;
  fn "Separator" "Separator" None None;
  fn "SameLine" "SameLine" None None;
  fn "NewLine" "NewLine" None None;
  fn "Spacing" "Spacing" None None;
  fn "Dummy" "Dummy" None None;
  fn "Indent" "Indent" None None;
  fn "Unindent" "Unindent" None None;
  fn "BeginGroup" "BeginGroup" None (Some (ADD_END_STACK 4));
  fn "EndGroup" "EndGroup" None (Some (POP_END_STACK 4));
  fn "AlignTextToFramePadding" "AlignTextToFramePadding" None None;
  fn "GetTextLineHeight" "GetTextLineHeight" (Some "float") None;
  fn "GetTextLineHeightWithSpacing" "GetTextLineHeightWithSpacing" (Some "float") None;
  fn "GetFrameHeight" "GetFrameHeight" (Some "float") None;
  fn "GetFrameHeightWithSpacing" "GetFrameHeightWithSpacing" (Some "float") None;
  fn "PushID" "PushID" None None;
  fn "PushID_2" "PushID" None None;
  fn "PushID_1" "PushID" None None;
  fn "PopID" "PopID" None None;
  fn "GetID" "GetID" (Some "unsigned int") None;
  fn "GetID_2" "GetID" (Some "unsigned int") None;
  fn "GetID_1" "GetID" (Some "unsigned int") None;
  fn "TextUnformatted" "TextUnformatted" None None;
  fn "Text" "Text" None None;
  fn "TextColored" "TextColored" None None;
  fn "TextDisabled" "TextDisabled" None None;
  fn "TextWrapped" "TextWrapped" None None;
  fn "LabelText" "LabelText" None None;
  fn "BulletText" "BulletText" None None;
  fn "SeparatorText" "SeparatorText" None None;
  fn "Button" "Button" (Some "bool") None;
  fn "SmallButton" "SmallButton" (Some "bool") None;
  fn "InvisibleButton" "InvisibleButton" (Some "bool") None;
  fn "ArrowButton" "ArrowButton" (Some "bool") None;
  fn "Checkbox" "Checkbox" (Some "bool") None;
  fn "CheckboxFlags" "CheckboxFlags" (Some "bool") None;
  fn "CheckboxFlags_3" "CheckboxFlags" (Some "bool") None;
  fn "RadioButton" "RadioButton" (Some "bool") None;
  fn "RadioButton_3" "RadioButton" (Some "bool") None;
  fn "ProgressBar" "ProgressBar" None None;
  fn "Bullet" "Bullet" None None;
  fn "TextLink" "TextLink" (Some "bool") None;
  fn "TextLinkOpenURL" "TextLinkOpenURL" None None;
  fn "Image" "Image" None None;
  fn "ImageWithBg" "ImageWithBg" None None;
  fn "ImageButton" "ImageButton" (Some "bool") None;
  fn "BeginCombo" "BeginCombo" (Some "bool") (Some (IF_RET_ADD_END_STACK 5));
  fn "EndCombo" "EndCombo" None (Some (POP_END_STACK 5));
  fn "Combo" "Combo" (Some "bool") None;
  fn "DragFloat" "DragFloat" (Some "bool") None;
  fn "DragFloatRange2" "DragFloatRange2" (Some "bool") None;
  fn "DragInt" "DragInt" (Some "bool") None;
  fn "DragIntRange2" "DragIntRange2" (Some "bool") None;
  fn "SliderFloat" "SliderFloat" (Some "bool") None;
  fn "SliderAngle" "SliderAngle" (Some "bool") None;
  fn "SliderInt" "SliderInt" (Some "bool") None;
  fn "VSliderFloat" "VSliderFloat" (Some "bool") None;
  fn "VSliderInt" "VSliderInt" (Some "bool") None;
  fn "InputFloat" "InputFloat" (Some "bool") None;
  fn "InputInt" "InputInt" (Some "bool") None;
  fn "ColorButton" "ColorButton" (Some "bool") None;
  fn "SetColorEditOptions" "SetColorEditOptions" None None;
  fn "TreeNode" "TreeNode" (Some "bool") (Some (IF_RET_ADD_END_STACK 6));
  fn "TreeNode_3" "TreeNode" (Some "bool") (Some (IF_RET_ADD_END_STACK 6));
  fn "TreeNodeEx" "TreeNodeEx" (Some "bool") None;
  fn "TreeNodeEx_4" "TreeNodeEx" (Some "bool") None;
  fn "TreePush" "TreePush" None (Some (ADD_END_STACK 6));
  fn "TreePop" "TreePop" None (Some (POP_END_STACK 6));
  fn "GetTreeNodeToLabelSpacing" "GetTreeNodeToLabelSpacing" (Some "float") None;
  fn "CollapsingHeader" "CollapsingHeader" (Some "bool") None;
  fn "CollapsingHeader_3" "CollapsingHeader" (Some "bool") None;
  fn "SetNextItemOpen" "SetNextItemOpen" None None;
  fn "SetNextItemStorageID" "SetNextItemStorageID" None None;
  fn "Selectable" "Selectable" (Some "bool") None;
  fn "Selectable_4" "Selectable" (Some "bool") None;
  fn "IsItemToggledSelection" "IsItemToggledSelection" (Some "bool") None;
  fn "BeginListBox" "BeginListBox" (Some "bool") (Some (IF_RET_ADD_END_STACK 7));
  fn "EndListBox" "EndListBox" None (Some (POP_END_STACK 7));
  fn "Value" "Value" None None;
  fn "Value_2" "Value" None None;
  fn "Value_2_2" "Value" None None;
  fn "Value_3" "Value" None None;
  fn "BeginMenuBar" "BeginMenuBar" (Some "bool") (Some (IF_RET_ADD_END_STACK 8));
  fn "EndMenuBar" "EndMenuBar" None (Some (POP_END_STACK 8));
  fn "BeginMainMenuBar" "BeginMainMenuBar" (Some "bool") (Some (IF_RET_ADD_END_STACK 9));
  fn "EndMainMenuBar" "EndMainMenuBar" None (Some (POP_END_STACK 9));
  fn "BeginMenu" "BeginMenu" (Some "bool") (Some (IF_RET_ADD_END_STACK 10));
  fn "EndMenu" "EndMenu" None (Some (POP_END_STACK 10));
  fn "MenuItem" "MenuItem" (Some "bool") None;
  fn "MenuItem_4" "MenuItem" (Some "bool") None;
  fn "BeginTooltip" "BeginTooltip" (Some "bool") (Some (IF_RET_ADD_END_STACK 11));
  fn "EndTooltip" "EndTooltip" None (Some (POP_END_STACK 11));
  fn "SetTooltip" "SetTooltip" None None;
  fn "BeginItemTooltip" "BeginItemTooltip" (Some "bool") (Some (IF_RET_ADD_END_STACK 12));
  fn "SetItemTooltip" "SetItemTooltip" None None;
  fn "BeginPopup" "BeginPopup" (Some "bool") (Some (IF_RET_ADD_END_STACK 13));
  fn "BeginPopupModal" "BeginPopupModal" (Some "bool") (Some (IF_RET_ADD_END_STACK 13));
  fn "EndPopup" "EndPopup" None (Some (POP_END_STACK 13));
  fn "OpenPopup" "OpenPopup" None None;
  fn "OpenPopup_2" "OpenPopup" None None;
  fn "OpenPopupOnItemClick" "OpenPopupOnItemClick" None None;
  fn "CloseCurrentPopup" "CloseCurrentPopup" None None;
  fn "BeginPopupContextItem" "BeginPopupContextItem" (Some "bool") (Some (IF_RET_ADD_END_STACK 13));
  fn "BeginPopupContextWindow" "BeginPopupContextWindow" (Some "bool") (Some (IF_RET_ADD_END_STACK 13));
  fn "BeginPopupContextVoid" "BeginPopupContextVoid" (Some "bool") (Some (IF_RET_ADD_END_STACK 13));
  fn "IsPopupOpen" "IsPopupOpen" (Some "bool") None;
  fn "BeginTable" "BeginTable" (Some "bool") (Some (IF_RET_ADD_END_STACK 14));
  fn "EndTable" "EndTable" None (Some (POP_END_STACK 14));
  fn "TableNextRow" "TableNextRow" None None;
  fn "TableNextColumn" "TableNextColumn" (Some "bool") None;
  fn "TableSetColumnIndex" "TableSetColumnIndex" (Some "bool") None;
  fn "TableSetupColumn" "TableSetupColumn" None None;
  fn "TableSetupScrollFreeze" "TableSetupScrollFreeze" None None;
  fn "TableHeader" "TableHeader" None None;
  fn "TableHeadersRow" "TableHeadersRow" None None;
  fn "TableAngledHeadersRow" "TableAngledHeadersRow" None None;
  fn "TableGetColumnCount" "TableGetColumnCount" (Some "int") None;
  fn "TableGetColumnIndex" "TableGetColumnIndex" (Some "int") None;
  fn "TableGetRowIndex" "TableGetRowIndex" (Some "int") None;
  fn "TableGetColumnName" "TableGetColumnName" (Some "const char*") None;
  fn "TableGetColumnFlags" "TableGetColumnFlags" (Some "ImGuiTableColumnFlags") None;
  fn "TableSetColumnEnabled" "TableSetColumnEnabled" None None;
  fn "TableGetHoveredColumn" "TableGetHoveredColumn" (Some "int") None;
  fn "TableSetBgColor" "TableSetBgColor" None None;
  fn "Columns" "Columns" None None;
  fn "NextColumn" "NextColumn" None None;
  fn "GetColumnIndex" "GetColumnIndex" (Some "int") None;
  fn "GetColumnWidth" "GetColumnWidth" (Some "float") None;
  fn "SetColumnWidth" "SetColumnWidth" None None;
  fn "GetColumnOffset" "GetColumnOffset" (Some "float") None;
  fn "SetColumnOffset" "SetColumnOffset" None None;
  fn "GetColumnsCount" "GetColumnsCount" (Some "int") None;
  fn "BeginTabBar" "BeginTabBar" (Some "bool") (Some (IF_RET_ADD_END_STACK 15));
  fn "EndTabBar" "EndTabBar" None (Some (POP_END_STACK 15));
  fn "BeginTabItem" "BeginTabItem" (Some "bool") (Some (IF_RET_ADD_END_STACK 16));
  fn "EndTabItem" "EndTabItem" None (Some (POP_END_STACK 16));
  fn "TabItemButton" "TabItemButton" (Some "bool") None;
  fn "SetTabItemClosed" "SetTabItemClosed" None None;
  fn "LogToTTY" "LogToTTY" None None;
  fn "LogToFile" "LogToFile" None None;
  fn "LogToClipboard" "LogToClipboard" None None;
  fn "LogFinish" "LogFinish" None None;
  fn "LogButtons" "LogButtons" None None;
  fn "LogText" "LogText" None None;
  fn "BeginDragDropSource" "BeginDragDropSource" (Some "bool") (Some (IF_RET_ADD_END_STACK 17));
  fn "EndDragDropSource" "EndDragDropSource" None (Some (POP_END_STACK 17));
  fn "BeginDragDropTarget" "BeginDragDropTarget" (Some "bool") (Some (IF_RET_ADD_END_STACK 18));
  fn "EndDragDropTarget" "EndDragDropTarget" None (Some (POP_END_STACK 18));
  fn "BeginDisabled" "BeginDisabled" None (Some (ADD_END_STACK 19));
  fn "EndDisabled" "EndDisabled" None (Some (POP_END_STACK 19));
  fn "PushClipRect" "PushClipRect" None None;
  fn "PopClipRect" "PopClipRect" None None;
  fn "SetItemDefaultFocus" "SetItemDefaultFocus" None None;
  fn "SetKeyboardFocusHere" "SetKeyboardFocusHere" None None;
  fn "SetNavCursorVisible" "SetNavCursorVisible" None None;
  fn "SetNextItemAllowOverlap" "SetNextItemAllowOverlap" None None;
  fn "IsItemHovered" "IsItemHovered" (Some "bool") None;
  fn "IsItemActive" "IsItemActive" (Some "bool") None;
  fn "IsItemFocused" "IsItemFocused" (Some "bool") None;
  fn "IsItemClicked" "IsItemClicked" (Some "bool") None;
  fn "IsItemVisible" "IsItemVisible" (Some "bool") None;
  fn "IsItemEdited" "IsItemEdited" (Some "bool") None;
  fn "IsItemActivated" "IsItemActivated" (Some "bool") None;
  fn "IsItemDeactivated" "IsItemDeactivated" (Some "bool") None;
  fn "IsItemDeactivatedAfterEdit" "IsItemDeactivatedAfterEdit" (Some "bool") None;
  fn "IsItemToggledOpen" "IsItemToggledOpen" (Some "bool") None;
  fn "IsAnyItemHovered" "IsAnyItemHovered" (Some "bool") None;
  fn "IsAnyItemActive" "IsAnyItemActive" (Some "bool") None;
  fn "IsAnyItemFocused" "IsAnyItemFocused" (Some "bool") None;
  fn "GetItemID" "GetItemID" (Some "unsigned int") None;
  fn "GetItemRectMin" "GetItemRectMin" (Some "ImVec2") None;
  fn "GetItemRectMax" "GetItemRectMax" (Some "ImVec2") None;
  fn "GetItemRectSize" "GetItemRectSize" (Some "ImVec2") None;
  fn "IsRectVisible" "IsRectVisible" (Some "bool") None;
  fn "IsRectVisible_2" "IsRectVisible" (Some "bool") None;
  fn "GetTime" "GetTime" (Some "double") None;
  fn "GetFrameCount" "GetFrameCount" (Some "int") None;
  fn "GetStyleColorName" "GetStyleColorName" (Some "const char*") None;
  fn "CalcTextSize" "CalcTextSize" (Some "ImVec2") None;
  fn "ColorConvertU32ToFloat4" "ColorConvertU32ToFloat4" (Some "ImVec4") None;
  fn "ColorConvertFloat4ToU32" "ColorConvertFloat4ToU32" (Some "unsigned int") None;
  fn "IsKeyDown" "IsKeyDown" (Some "bool") None;
  fn "IsKeyPressed" "IsKeyPressed" (Some "bool") None;
  fn "IsKeyReleased" "IsKeyReleased" (Some "bool") None;
  fn "GetKeyPressedAmount" "GetKeyPressedAmount" (Some "int") None;
  fn "GetKeyName" "GetKeyName" (Some "const char*") None;
  fn "SetNextFrameWantCaptureKeyboard" "SetNextFrameWantCaptureKeyboard" None None;
  fn "SetItemKeyOwner" "SetItemKeyOwner" None None;
  fn "IsMouseDown" "IsMouseDown" (Some "bool") None;
  fn "IsMouseClicked" "IsMouseClicked" (Some "bool") None;
  fn "IsMouseReleased" "IsMouseReleased" (Some "bool") None;
  fn "IsMouseDoubleClicked" "IsMouseDoubleClicked" (Some "bool") None;
  fn "IsMouseReleasedWithDelay" "IsMouseReleasedWithDelay" (Some "bool") None;
  fn "GetMouseClickedCount" "GetMouseClickedCount" (Some "int") None;
  fn "IsMouseHoveringRect" "IsMouseHoveringRect" (Some "bool") None;
  fn "IsAnyMouseDown" "IsAnyMouseDown" (Some "bool") None;
  fn "GetMousePos" "GetMousePos" (Some "ImVec2") None;
  fn "GetMousePosOnOpeningCurrentPopup" "GetMousePosOnOpeningCurrentPopup" (Some "ImVec2") None;
  fn "IsMouseDragging" "IsMouseDragging" (Some "bool") None;
  fn "GetMouseDragDelta" "GetMouseDragDelta" (Some "ImVec2") None;
  fn "ResetMouseDragDelta" "ResetMouseDragDelta" None None;
  fn "GetMouseCursor" "GetMouseCursor" (Some "ImGuiMouseCursor") None;
  fn "SetMouseCursor" "SetMouseCursor" None None;
  fn "SetNextFrameWantCaptureMouse" "SetNextFrameWantCaptureMouse" None None;
  fn "GetClipboardText" "GetClipboardText" (Some "const char*") None;
  fn "SetClipboardText" "SetClipboardText" None None;
  fn "LoadIniSettingsFromDisk" "LoadIniSettingsFromDisk" None None;
  fn "SaveIniSettingsToDisk" "SaveIniSettingsToDisk" None None;
  fn "DebugTextEncoding" "DebugTextEncoding" None None;
  fn "DebugFlashStyleColor" "DebugFlashStyleColor" None None;
  fn "DebugStartItemPicker" "DebugStartItemPicker" None None;
  fn "DebugLog" "DebugLog" None None;
  dl "PushClipRect" "PushClipRect" None None;
  dl "PushClipRectFullScreen" "PushClipRectFullScreen" None None;
  dl "PopClipRect" "PopClipRect" None None;
  dl "PushTextureID" "PushTextureID" None None;
  dl "PopTextureID" "PopTextureID" None None;
  dl "AddLine" "AddLine" None None;
  dl "AddRectFilledMultiColor" "AddRectFilledMultiColor" None None;
  dl "AddQuad" "AddQuad" None None;
  dl "AddQuadFilled" "AddQuadFilled" None None;
  dl "AddTriangle" "AddTriangle" None None;
  dl "AddTriangleFilled" "AddTriangleFilled" None None;
  dl "AddCircle" "AddCircle" None None;
  dl "AddCircleFilled" "AddCircleFilled" None None;
  dl "AddNgon" "AddNgon" None None;
  dl "AddNgonFilled" "AddNgonFilled" None None;
  dl "AddEllipse" "AddEllipse" None None;
  dl "AddEllipseFilled" "AddEllipseFilled" None None;
  dl "AddText" "AddText" None None;
  dl "AddBezierCubic" "AddBezierCubic" None None;
  dl "AddBezierQuadratic" "AddBezierQuadratic" None None;
  dl "AddImage" "AddImage" None None;
  dl "AddImageQuad" "AddImageQuad" None None;
  dl "PathArcTo" "PathArcTo" None None;
  dl "PathArcToFast" "PathArcToFast" None None;
  dl "PathEllipticalArcTo" "PathEllipticalArcTo" None None;
  dl "PathBezierCubicCurveTo" "PathBezierCubicCurveTo" None None;
  dl "PathBezierQuadraticCurveTo" "PathBezierQuadraticCurveTo" None None;
  dl "AddDrawCmd" "AddDrawCmd" None None;
  dl "PrimReserve" "PrimReserve" None None;
  dl "PrimUnreserve" "PrimUnreserve" None None;
  dl "PrimRect" "PrimRect" None None;
  dl "PrimRectUV" "PrimRectUV" None None;
  dl "PrimQuadUV" "PrimQuadUV" None None;
  dl "_ResetForNewFrame" "_ResetForNewFrame" None None;
  dl "_ClearFreeMemory" "_ClearFreeMemory" None None;
  dl "_PopUnusedDrawCmd" "_PopUnusedDrawCmd" None None;
  dl "_TryMergeDrawCmds" "_TryMergeDrawCmds" None None;
  dl "_OnChangedClipRect" "_OnChangedClipRect" None None;
  dl "_OnChangedTextureID" "_OnChangedTextureID" None None;
  dl "_OnChangedVtxOffset" "_OnChangedVtxOffset" None None;
  dl "_SetTextureID" "_SetTextureID" None None;
  dl "_PathArcToFastEx" "_PathArcToFastEx" None None;
  dl "_PathArcToN" "_PathArcToN" None None
].

(** [END_STACK_START ... END_STACK_END]: the closing function of each slot. *)
Definition END_STACK_OPTION : list (nat * string) := [
  (0, "EndFrame");
  (1, "End");
  (2, "EndChild");
  (3, "PopStyleVar");
  (4, "EndGroup");
  (5, "EndCombo");
  (6, "TreePop");
  (7, "EndListBox");
  (8, "EndMenuBar");
  (9, "EndMainMenuBar");
  (10, "EndMenu");
  (11, "EndTooltip");
  (13, "EndPopup");
  (14, "EndTable");
  (15, "EndTabBar");
  (16, "EndTabItem");
  (17, "EndDragDropSource");
  (18, "EndDragDropTarget");
  (19, "EndDisabled")
].

(** The binding a script reaches under [n] ([ImGui.n]); draw-list methods
    are registered apart. *)
Definition lookupBinding (n : string) : option Binding :=
  find (fun b => match registration b with
                 | IMGUI_FUNCTION => String.eqb (name b) n
                 | IMGUI_FUNCTION_DRAW_LIST => false
                 end) bindings.

(** The slot a binding pushes, and the slot a binding pops. *)
Definition opens (b : Binding) : option nat :=
  match endStackMacro b with
  | Some (IF_RET_ADD_END_STACK slot) | Some (ADD_END_STACK slot) => Some slot
  | _ => None
  end.

Definition closes (b : Binding) : option nat :=
  match endStackMacro b with
  | Some (POP_END_STACK slot) => Some slot
  | _ => None
  end.

(** The bindings that carry a given annotation, by name. *)
Definition annotated (m : EndStackMacro -> option nat) : list (string * nat) :=
  omap (fun b => match endStackMacro b with
                 | Some a => (fun slot => (name b, slot)) <$> m a
                 | None => None
                 end) bindings.

Definition conditionalOpeners : list (string * nat) :=
  annotated (fun a => match a with IF_RET_ADD_END_STACK n => Some n | _ => None end).

Definition unconditionalOpeners : list (string * nat) :=
  annotated (fun a => match a with ADD_END_STACK n => Some n | _ => None end).

Definition closers : list (string * nat) :=
  annotated (fun a => match a with POP_END_STACK n => Some n | _ => None end).

(** *** The end-stack tracker

    The macros' bodies are in the file that includes the table, which is
    not part of the sources at hand. *)

(** The shadow stack, top first, and the native functions invoked so far,
    in call order. *)
Record Frame := mkFrame {
  endStack : list nat;
  nativeCalls : list string
}.

Definition emptyFrame : Frame := mkFrame [] [].

(** Modelled from the spec: the transitions of §4.3, whose code (the
    bodies of [ADD_END_STACK], [IF_RET_ADD_END_STACK], [POP_END_STACK] and
    the unwinding loop) is missing.
    - Open(slot, success): "if success is true (or the opening call is
      unconditional), push slot onto the stack. If false, push nothing". *)
Definition Open (slot : nat) (success : bool) (stack : list nat) : list nat :=
  if success then slot :: stack else stack.

(** Modelled from the spec: Close(slot), §4.3: "pop the top entry if and
    only if it matches slot"; a wrong slot or an empty stack is an error
    and leaves the stack as it was. *)
Definition Close (slot : nat) (stack : list nat) : option (list nat) :=
  match stack with
  | top :: rest => if Nat.eqb top slot then Some rest else None
  | [] => None
  end.

(** [ImEndStack(type)], the switch the [END_STACK_OPTION] lines expand to:
    the slot's closing function when it has a case, no call otherwise. *)
Definition closingFunction (slot : nat) : option string :=
  snd <$> find (fun o => Nat.eqb (fst o) slot) END_STACK_OPTION.

Definition ImEndStack (slot : nat) (calls : list string) : list string :=
  match closingFunction slot with
  | Some f => (calls ++ [f])%list
  | None => calls
  end.

(** Modelled from the spec: FrameBoundaryUnwind(), §4.3: "force-pops and
    invokes every still-open entry's closing function in LIFO order". *)
Fixpoint unwind (stack : list nat) (calls : list string) : list string :=
  match stack with
  | top :: rest => unwind rest (ImEndStack top calls)
  | [] => calls
  end.

Definition FrameBoundaryUnwind (fr : Frame) : Frame :=
  mkFrame [] (unwind (endStack fr) (nativeCalls fr)).

(** The error a mismatched or unmatched close surfaces to the script. *)
Inductive ScriptError := EndStackMismatch (slot : nat).

(** One bound call: the native function runs first and answers [ret]
    (only looked at by [IF_RET_ADD_END_STACK], which follows a call that
    returns [bool]); then the annotation, if any, updates the shadow stack. *)
Definition invoke (b : Binding) (ret : bool) (fr : Frame)
  : Frame + ScriptError * Frame :=
  let calls := (nativeCalls fr ++ [callee b])%list in
  match endStackMacro b with
  | None => inl (mkFrame (endStack fr) calls)
  | Some (IF_RET_ADD_END_STACK slot) =>
      inl (mkFrame (Open slot ret (endStack fr)) calls)
  | Some (ADD_END_STACK slot) =>
      inl (mkFrame (Open slot true (endStack fr)) calls)
  | Some (POP_END_STACK slot) =>
      match Close slot (endStack fr) with
      | Some stack => inl (mkFrame stack calls)
      | None => inr (EndStackMismatch slot, mkFrame (endStack fr) calls)
      end
  end.

(** *** The native side, for the style-variable and tree scopes *)

(** A bound call as the script makes it: the binding, the value of its
    [count] argument (read by [PopStyleVar] alone, 1 when left out), and
    what the native function answers. *)
Record Call := mkCall {
  target : Binding;
  count : nat;
  ret : bool
}.

Definition styleVarScope : nat := 3.
Definition treeScope : nat := 6.

(** Closing [n] scopes of one class: the [n] innermost of that class go. *)
Fixpoint closeScopes (class n : nat) (open : list nat) : list nat :=
  match open with
  | [] => []
  | top :: rest =>
      match n with
      | 0 => open
      | S n' =>
          if Nat.eqb top class then closeScopes class n' rest
          else top :: closeScopes class n rest
      end
  end.

(** Modelled from the spec: the scopes the native API itself has open
    (§3, "the sequence of native scopes currently open"), innermost first,
    for the two classes whose native functions the header comments kept in
    the table describe: [PushStyleVar], [PushStyleVarX] and [PushStyleVarY]
    each push one style variable and [PopStyleVar(count)] pops [count];
    [TreeNode] and [TreeNodeEx] push a tree level when they return true,
    [TreePush] always, and [TreePop] pops one. *)
Definition nativeScopes (c : Call) (open : list nat) : list nat :=
  let f := callee (target c) in
  if String.eqb f "PushStyleVar" || String.eqb f "PushStyleVarX"
     || String.eqb f "PushStyleVarY" then styleVarScope :: open
  else if String.eqb f "PopStyleVar" then closeScopes styleVarScope (count c) open
  else if String.eqb f "TreeNode" || String.eqb f "TreeNodeEx" then
    (if ret c then treeScope :: open else open)
  else if String.eqb f "TreePush" then treeScope :: open
  else if String.eqb f "TreePop" then closeScopes treeScope 1 open
  else open.

(** A script is the list of its bound calls; it stops at the first error.
    Shadow stack and native scopes are followed side by side. *)
Fixpoint runCalls (script : list Call) (fr : Frame) (open : list nat)
  : option ScriptError * Frame * list nat :=
  match script with
  | [] => (None, fr, open)
  | c :: rest =>
      match invoke (target c) (ret c) fr with
      | inl fr' => runCalls rest fr' (nativeScopes c open)
      | inr (e, fr') => (Some e, fr', nativeScopes c open)
      end
  end.

(** The binding named [n], as a call; an unknown name is a call of nothing. *)
Definition call (n : string) (count : nat) (ret : bool) : list Call :=
  match lookupBinding n with
  | Some b => [mkCall b count ret]
  | None => []
  end.

End ImGui.

(** ** A sample runtime

    A small instance of the collaborators, to run the callbacks on
    concrete inputs. *)

Module Sample.

(** Modelled from the spec: the dynamic script value of §4.1, cut down to
    the shapes that matter to the callbacks: strings, image userdata,
    plain data, and a function, which has no structured-data form. *)
Inductive Value :=
| LuaNil
| LuaBoolean (b : bool)
| LuaInt (i : Z)
| LuaString (s : string)
| LuaUserData (i : Image)
| LuaFunction (id : nat).

Inductive Doc :=
| JNull
| JBool (b : bool)
| JInt (i : Z)
| JString (s : string).

Definition quote : string := String (ascii_of_nat 34) EmptyString.

Definition repr (d : Doc) : string :=
  match d with
  | JNull => "null"
  | JBool true => "true"
  | JBool false => "false"
  | JInt i => pretty i
  | JString s => quote +:+ s +:+ quote
  end.

(** A toy codec: width, height, then the pixel bytes. *)
Definition readPng (b : ByteArray) : Exception + Image :=
  match b with
  | w :: h :: px => inr (mkImage (Byte.to_N w) (Byte.to_N h) px)
  | [_] => inl (StarException "File is not a png image")
  | [] => inl (std_exception "unexpected end of stream")
  end.

Definition writePng (i : Image) : ByteArray :=
  match Byte.of_N (width i), Byte.of_N (height i) with
  | Some w, Some h => w :: h :: pixels i
  | _, _ => []
  end.

#[export] Instance runtime : Collaborators := {
  LuaValue := Value;
  Json := Doc;
  Json_repr := repr;
  Image_readPng := readPng;
  Image_writePng := writePng
}.

(** Modelled from the spec: the conversions of §4.1; a string is accepted
    as a string, image userdata as an image, plain data as structured
    data, and nothing else is coerced. *)
Definition engine : LuaEngine := {|
  luaMaybeTo_String v := match v with LuaString s => Some s | _ => None end;
  luaMaybeTo_Image v := match v with LuaUserData i => Some i | _ => None end;
  luaMaybeTo_Json v :=
    match v with
    | LuaNil => Some JNull
    | LuaBoolean b => Some (JBool b)
    | LuaInt i => Some (JInt i)
    | LuaString s => Some (JString s)
    | LuaUserData _ | LuaFunction _ => None
    end
|}.

(** A state with one file in the store. *)
Definition world : World := snd (makeAssetFromBytes "/temp/x" "a" initialWorld).

End Sample.

(** ** imgui_iterator.inl: the blocks in full, and the enums *)

Module Marshal.
Import ImGui.

(** The argument macros of the file. *)
Inductive ArgMacro :=
| LABEL_ARG | OPTIONAL_LABEL_ARG
| INT_ARG | OPTIONAL_INT_ARG | UINT_ARG
| NUMBER_ARG | OPTIONAL_NUMBER_ARG
| BOOL_ARG | OPTIONAL_BOOL_ARG
| IM_VEC_2_ARG | OPTIONAL_IM_VEC_2_ARG
| IM_VEC_4_ARG | OPTIONAL_IM_VEC_4_ARG
| ENUM_ARG | IM_TEXTURE_ID_ARG
| BOOL_POINTER_ARG | OPTIONAL_BOOL_POINTER_ARG
| INT_POINTER_ARG | FLOAT_POINTER_ARG | UINT_POINTER_ARG.

(** One line of a block: an argument macro with the argument's name and
    what else it is given (defaults, or the enum type); the native call
    with its arguments; an end-stack annotation; the push of a result; the
    write-back of an output argument. *)
Inductive Line :=
| Arg (m : ArgMacro) (name : string) (rest : list string)
| CALL_FUNCTION (callee ret : string) (args : list string)
| CALL_FUNCTION_NO_RET (callee : string) (args : list string)
| DRAW_LIST_CALL_FUNCTION_NO_RET (callee : string) (args : list string)
| EndStack (m : EndStackMacro)
| PUSH_BOOL (e : string)
| PUSH_NUMBER (e : string)
| PUSH_STRING (e : string)
| END_BOOL_POINTER (name : string)
| END_INT_POINTER (name : string)
| END_FLOAT_POINTER (name : string)
| END_UINT_POINTER (name : string).

Record Block := mkBlock {
  opening : Registration;
  blockName : string;
  body : list Line
}.

#[global] Instance ArgMacro_eq_dec : EqDecision ArgMacro.
Proof. solve_decision. Defined.
#[global] Instance EndStackMacro_eq_dec : EqDecision EndStackMacro.
Proof. solve_decision. Defined.
#[global] Instance Registration_eq_dec : EqDecision Registration.
Proof. solve_decision. Defined.
#[global] Instance Line_eq_dec : EqDecision Line.
Proof. solve_decision. Defined.
#[global] Instance Binding_eq_dec : EqDecision Binding.
Proof. solve_decision. Defined.

(** Every [IMGUI_FUNCTION ... END_IMGUI_FUNC] and
    [IMGUI_FUNCTION_DRAW_LIST ... END_IMGUI_FUNC] block, line by line, in
    file order. *)
Definition blocks : list Block := [
  mkBlock IMGUI_FUNCTION "EndFrame" [
    CALL_FUNCTION_NO_RET "EndFrame" []; EndStack (POP_END_STACK 0)];
  mkBlock IMGUI_FUNCTION "ShowDemoWindow" [
    Arg OPTIONAL_BOOL_POINTER_ARG "p_open" []; CALL_FUNCTION_NO_RET "ShowDemoWindow" ["p_open"];
    END_BOOL_POINTER "p_open"];
  mkBlock IMGUI_FUNCTION "ShowMetricsWindow" [
    Arg OPTIONAL_BOOL_POINTER_ARG "p_open" [];
    CALL_FUNCTION_NO_RET "ShowMetricsWindow" ["p_open"]; END_BOOL_POINTER "p_open"];
  mkBlock IMGUI_FUNCTION "ShowDebugLogWindow" [
    Arg OPTIONAL_BOOL_POINTER_ARG "p_open" [];
    CALL_FUNCTION_NO_RET "ShowDebugLogWindow" ["p_open"]; END_BOOL_POINTER "p_open"];
  mkBlock IMGUI_FUNCTION "ShowIDStackToolWindow" [
    Arg OPTIONAL_BOOL_POINTER_ARG "p_open" [];
    CALL_FUNCTION_NO_RET "ShowIDStackToolWindow" ["p_open"]; END_BOOL_POINTER "p_open"];
  mkBlock IMGUI_FUNCTION "ShowAboutWindow" [
    Arg OPTIONAL_BOOL_POINTER_ARG "p_open" [];
    CALL_FUNCTION_NO_RET "ShowAboutWindow" ["p_open"]; END_BOOL_POINTER "p_open"];
  mkBlock IMGUI_FUNCTION "ShowStyleSelector" [
    Arg LABEL_ARG "label" []; CALL_FUNCTION "ShowStyleSelector" "bool" ["label"];
    PUSH_BOOL "ret"];
  mkBlock IMGUI_FUNCTION "ShowFontSelector" [
    Arg LABEL_ARG "label" []; CALL_FUNCTION_NO_RET "ShowFontSelector" ["label"]];
  mkBlock IMGUI_FUNCTION "ShowUserGuide" [
    CALL_FUNCTION_NO_RET "ShowUserGuide" []];
  mkBlock IMGUI_FUNCTION "GetVersion" [
    CALL_FUNCTION "GetVersion" "const char*" []; PUSH_STRING "ret"];
  mkBlock IMGUI_FUNCTION "Begin" [
    Arg LABEL_ARG "name" []; Arg OPTIONAL_BOOL_POINTER_ARG "p_open" [];
    Arg OPTIONAL_INT_ARG "flags" ["0"];
    CALL_FUNCTION "Begin" "bool" ["name"; "p_open"; "flags"]; EndStack (IF_RET_ADD_END_STACK 1);
    PUSH_BOOL "ret"; END_BOOL_POINTER "p_open"];
  mkBlock IMGUI_FUNCTION "End" [
    CALL_FUNCTION_NO_RET "End" []; EndStack (POP_END_STACK 1)];
  mkBlock IMGUI_FUNCTION "BeginChild" [
    Arg LABEL_ARG "str_id" []; Arg OPTIONAL_IM_VEC_2_ARG "size" ["0"; "0"];
    Arg OPTIONAL_INT_ARG "child_flags" ["0"]; Arg OPTIONAL_INT_ARG "window_flags" ["0"];
    CALL_FUNCTION "BeginChild" "bool" ["str_id"; "size"; "child_flags"; "window_flags"];
    EndStack (IF_RET_ADD_END_STACK 2); PUSH_BOOL "ret"];
  mkBlock IMGUI_FUNCTION "BeginChild_4" [
    Arg UINT_ARG "id" []; Arg OPTIONAL_IM_VEC_2_ARG "size" ["0"; "0"];
    Arg OPTIONAL_INT_ARG "child_flags" ["0"]; Arg OPTIONAL_INT_ARG "window_flags" ["0"];
    CALL_FUNCTION "BeginChild" "bool" ["id"; "size"; "child_flags"; "window_flags"];
    EndStack (IF_RET_ADD_END_STACK 2); PUSH_BOOL "ret"];
  mkBlock IMGUI_FUNCTION "EndChild" [
    CALL_FUNCTION_NO_RET "EndChild" []; EndStack (POP_END_STACK 2)];
  mkBlock IMGUI_FUNCTION "IsWindowAppearing" [
    CALL_FUNCTION "IsWindowAppearing" "bool" []; PUSH_BOOL "ret"];
  mkBlock IMGUI_FUNCTION "IsWindowCollapsed" [
    CALL_FUNCTION "IsWindowCollapsed" "bool" []; PUSH_BOOL "ret"];
  mkBlock IMGUI_FUNCTION "IsWindowFocused" [
    Arg OPTIONAL_INT_ARG "flags" ["0"]; CALL_FUNCTION "IsWindowFocused" "bool" ["flags"];
    PUSH_BOOL "ret"];
  mkBlock IMGUI_FUNCTION "IsWindowHovered" [
    Arg OPTIONAL_INT_ARG "flags" ["0"]; CALL_FUNCTION "IsWindowHovered" "bool" ["flags"];
    PUSH_BOOL "ret"];
  mkBlock IMGUI_FUNCTION "GetWindowPos" [
    CALL_FUNCTION "GetWindowPos" "ImVec2" []; PUSH_NUMBER "ret.x"; PUSH_NUMBER "ret.y"];
  mkBlock IMGUI_FUNCTION "GetWindowSize" [
    CALL_FUNCTION "GetWindowSize" "ImVec2" []; PUSH_NUMBER "ret.x"; PUSH_NUMBER "ret.y"];
  mkBlock IMGUI_FUNCTION "GetWindowWidth" [
    CALL_FUNCTION "GetWindowWidth" "float" []; PUSH_NUMBER "ret"];
  mkBlock IMGUI_FUNCTION "GetWindowHeight" [
    CALL_FUNCTION "GetWindowHeight" "float" []; PUSH_NUMBER "ret"];
  mkBlock IMGUI_FUNCTION "SetNextWindowPos" [
    Arg IM_VEC_2_ARG "pos" []; Arg OPTIONAL_INT_ARG "cond" ["0"];
    Arg OPTIONAL_IM_VEC_2_ARG "pivot" ["0"; "0"];
    CALL_FUNCTION_NO_RET "SetNextWindowPos" ["pos"; "cond"; "pivot"]];
  mkBlock IMGUI_FUNCTION "SetNextWindowSize" [
    Arg IM_VEC_2_ARG "size" []; Arg OPTIONAL_INT_ARG "cond" ["0"];
    CALL_FUNCTION_NO_RET "SetNextWindowSize" ["size"; "cond"]];
  mkBlock IMGUI_FUNCTION "SetNextWindowContentSize" [
    Arg IM_VEC_2_ARG "size" []; CALL_FUNCTION_NO_RET "SetNextWindowContentSize" ["size"]];
  mkBlock IMGUI_FUNCTION "SetNextWindowCollapsed" [
    Arg BOOL_ARG "collapsed" []; Arg OPTIONAL_INT_ARG "cond" ["0"];
    CALL_FUNCTION_NO_RET "SetNextWindowCollapsed" ["collapsed"; "cond"]];
  mkBlock IMGUI_FUNCTION "SetNextWindowFocus" [
    CALL_FUNCTION_NO_RET "SetNextWindowFocus" []];
  mkBlock IMGUI_FUNCTION "SetNextWindowScroll" [
    Arg IM_VEC_2_ARG "scroll" []; CALL_FUNCTION_NO_RET "SetNextWindowScroll" ["scroll"]];
  mkBlock IMGUI_FUNCTION "SetNextWindowBgAlpha" [
    Arg NUMBER_ARG "alpha" []; CALL_FUNCTION_NO_RET "SetNextWindowBgAlpha" ["alpha"]];
  mkBlock IMGUI_FUNCTION "SetWindowPos" [
    Arg IM_VEC_2_ARG "pos" []; Arg OPTIONAL_INT_ARG "cond" ["0"];
    CALL_FUNCTION_NO_RET "SetWindowPos" ["pos"; "cond"]];
  mkBlock IMGUI_FUNCTION "SetWindowSize" [
    Arg IM_VEC_2_ARG "size" []; Arg OPTIONAL_INT_ARG "cond" ["0"];
    CALL_FUNCTION_NO_RET "SetWindowSize" ["size"; "cond"]];
  mkBlock IMGUI_FUNCTION "SetWindowCollapsed" [
    Arg BOOL_ARG "collapsed" []; Arg OPTIONAL_INT_ARG "cond" ["0"];
    CALL_FUNCTION_NO_RET "SetWindowCollapsed" ["collapsed"; "cond"]];
  mkBlock IMGUI_FUNCTION "SetWindowFocus" [
    CALL_FUNCTION_NO_RET "SetWindowFocus" []];
  mkBlock IMGUI_FUNCTION "SetWindowFontScale" [
    Arg NUMBER_ARG "scale" []; CALL_FUNCTION_NO_RET "SetWindowFontScale" ["scale"]];
  mkBlock IMGUI_FUNCTION "SetWindowPos_3" [
    Arg LABEL_ARG "name" []; Arg IM_VEC_2_ARG "pos" []; Arg OPTIONAL_INT_ARG "cond" ["0"];
    CALL_FUNCTION_NO_RET "SetWindowPos" ["name"; "pos"; "cond"]];
  mkBlock IMGUI_FUNCTION "SetWindowSize_3" [
    Arg LABEL_ARG "name" []; Arg IM_VEC_2_ARG "size" []; Arg OPTIONAL_INT_ARG "cond" ["0"];
    CALL_FUNCTION_NO_RET "SetWindowSize" ["name"; "size"; "cond"]];
  mkBlock IMGUI_FUNCTION "SetWindowCollapsed_3" [
    Arg LABEL_ARG "name" []; Arg BOOL_ARG "collapsed" []; Arg OPTIONAL_INT_ARG "cond" ["0"];
    CALL_FUNCTION_NO_RET "SetWindowCollapsed" ["name"; "collapsed"; "cond"]];
  mkBlock IMGUI_FUNCTION "SetWindowFocus_1" [
    Arg LABEL_ARG "name" []; CALL_FUNCTION_NO_RET "SetWindowFocus" ["name"]];
  mkBlock IMGUI_FUNCTION "GetScrollX" [
    CALL_FUNCTION "GetScrollX" "float" []; PUSH_NUMBER "ret"];
  mkBlock IMGUI_FUNCTION "GetScrollY" [
    CALL_FUNCTION "GetScrollY" "float" []; PUSH_NUMBER "ret"];
  mkBlock IMGUI_FUNCTION "SetScrollX" [
    Arg NUMBER_ARG "scroll_x" []; CALL_FUNCTION_NO_RET "SetScrollX" ["scroll_x"]];
  mkBlock IMGUI_FUNCTION "SetScrollY" [
    Arg NUMBER_ARG "scroll_y" []; CALL_FUNCTION_NO_RET "SetScrollY" ["scroll_y"]];
  mkBlock IMGUI_FUNCTION "GetScrollMaxX" [
    CALL_FUNCTION "GetScrollMaxX" "float" []; PUSH_NUMBER "ret"];
  mkBlock IMGUI_FUNCTION "GetScrollMaxY" [
    CALL_FUNCTION "GetScrollMaxY" "float" []; PUSH_NUMBER "ret"];
  mkBlock IMGUI_FUNCTION "SetScrollHereX" [
    Arg OPTIONAL_NUMBER_ARG "center_x_ratio" ["0.5f"];
    CALL_FUNCTION_NO_RET "SetScrollHereX" ["center_x_ratio"]];
  mkBlock IMGUI_FUNCTION "SetScrollHereY" [
    Arg OPTIONAL_NUMBER_ARG "center_y_ratio" ["0.5f"];
    CALL_FUNCTION_NO_RET "SetScrollHereY" ["center_y_ratio"]];
  mkBlock IMGUI_FUNCTION "SetScrollFromPosX" [
    Arg NUMBER_ARG "local_x" []; Arg OPTIONAL_NUMBER_ARG "center_x_ratio" ["0.5f"];
    CALL_FUNCTION_NO_RET "SetScrollFromPosX" ["local_x"; "center_x_ratio"]];
  mkBlock IMGUI_FUNCTION "SetScrollFromPosY" [
    Arg NUMBER_ARG "local_y" []; Arg OPTIONAL_NUMBER_ARG "center_y_ratio" ["0.5f"];
    CALL_FUNCTION_NO_RET "SetScrollFromPosY" ["local_y"; "center_y_ratio"]];
  mkBlock IMGUI_FUNCTION "PopFont" [
    CALL_FUNCTION_NO_RET "PopFont" []];
  mkBlock IMGUI_FUNCTION "PushStyleColor" [
    Arg INT_ARG "idx" []; Arg UINT_ARG "col" [];
    CALL_FUNCTION_NO_RET "PushStyleColor" ["idx"; "col"]];
  mkBlock IMGUI_FUNCTION "PushStyleColor_2" [
    Arg INT_ARG "idx" []; Arg IM_VEC_4_ARG "col" [];
    CALL_FUNCTION_NO_RET "PushStyleColor" ["idx"; "col"]];
  mkBlock IMGUI_FUNCTION "PopStyleColor" [
    Arg OPTIONAL_INT_ARG "count" ["1"]; CALL_FUNCTION_NO_RET "PopStyleColor" ["count"]];
  mkBlock IMGUI_FUNCTION "PushStyleVar" [
    Arg INT_ARG "idx" []; Arg NUMBER_ARG "val" [];
    CALL_FUNCTION_NO_RET "PushStyleVar" ["idx"; "val"]; EndStack (ADD_END_STACK 3)];
  mkBlock IMGUI_FUNCTION "PushStyleVar_2" [
    Arg INT_ARG "idx" []; Arg IM_VEC_2_ARG "val" [];
    CALL_FUNCTION_NO_RET "PushStyleVar" ["idx"; "val"]; EndStack (ADD_END_STACK 3)];
  mkBlock IMGUI_FUNCTION "PushStyleVarX" [
    Arg INT_ARG "idx" []; Arg NUMBER_ARG "val_x" [];
    CALL_FUNCTION_NO_RET "PushStyleVarX" ["idx"; "val_x"]];
  mkBlock IMGUI_FUNCTION "PushStyleVarY" [
    Arg INT_ARG "idx" []; Arg NUMBER_ARG "val_y" [];
    CALL_FUNCTION_NO_RET "PushStyleVarY" ["idx"; "val_y"]];
  mkBlock IMGUI_FUNCTION "PopStyleVar" [
    Arg OPTIONAL_INT_ARG "count" ["1"]; CALL_FUNCTION_NO_RET "PopStyleVar" ["count"];
    EndStack (POP_END_STACK 3)];
  mkBlock IMGUI_FUNCTION "PushItemFlag" [
    Arg INT_ARG "option" []; Arg BOOL_ARG "enabled" [];
    CALL_FUNCTION_NO_RET "PushItemFlag" ["option"; "enabled"]];
  mkBlock IMGUI_FUNCTION "PopItemFlag" [
    CALL_FUNCTION_NO_RET "PopItemFlag" []];
  mkBlock IMGUI_FUNCTION "PushItemWidth" [
    Arg NUMBER_ARG "item_width" []; CALL_FUNCTION_NO_RET "PushItemWidth" ["item_width"]];
  mkBlock IMGUI_FUNCTION "PopItemWidth" [
    CALL_FUNCTION_NO_RET "PopItemWidth" []];
  mkBlock IMGUI_FUNCTION "SetNextItemWidth" [
    Arg NUMBER_ARG "item_width" []; CALL_FUNCTION_NO_RET "SetNextItemWidth" ["item_width"]];
  mkBlock IMGUI_FUNCTION "CalcItemWidth" [
    CALL_FUNCTION "CalcItemWidth" "float" []; PUSH_NUMBER "ret"];
  mkBlock IMGUI_FUNCTION "PushTextWrapPos" [
    Arg OPTIONAL_NUMBER_ARG "wrap_local_pos_x" ["0.0f"];
    CALL_FUNCTION_NO_RET "PushTextWrapPos" ["wrap_local_pos_x"]];
  mkBlock IMGUI_FUNCTION "PopTextWrapPos" [
    CALL_FUNCTION_NO_RET "PopTextWrapPos" []];
  mkBlock IMGUI_FUNCTION "GetFontSize" [
    CALL_FUNCTION "GetFontSize" "float" []; PUSH_NUMBER "ret"];
  mkBlock IMGUI_FUNCTION "GetFontTexUvWhitePixel" [
    CALL_FUNCTION "GetFontTexUvWhitePixel" "ImVec2" []; PUSH_NUMBER "ret.x"; PUSH_NUMBER "ret.y"];
  mkBlock IMGUI_FUNCTION "GetColorU32" [
    Arg INT_ARG "idx" []; Arg OPTIONAL_NUMBER_ARG "alpha_mul" ["1.0f"];
    CALL_FUNCTION "GetColorU32" "unsigned int" ["idx"; "alpha_mul"]; PUSH_NUMBER "ret"];
  mkBlock IMGUI_FUNCTION "GetColorU32_1" [
    Arg IM_VEC_4_ARG "col" []; CALL_FUNCTION "GetColorU32" "unsigned int" ["col"];
    PUSH_NUMBER "ret"];
  mkBlock IMGUI_FUNCTION "GetColorU32_2" [
    Arg UINT_ARG "col" []; Arg OPTIONAL_NUMBER_ARG "alpha_mul" ["1.0f"];
    CALL_FUNCTION "GetColorU32" "unsigned int" ["col"; "alpha_mul"]; PUSH_NUMBER "ret"];
  mkBlock IMGUI_FUNCTION "GetCursorScreenPos" [
    CALL_FUNCTION "GetCursorScreenPos" "ImVec2" []; PUSH_NUMBER "ret.x"; PUSH_NUMBER "ret.y"];
  mkBlock IMGUI_FUNCTION "SetCursorScreenPos" [
    Arg IM_VEC_2_ARG "pos" []; CALL_FUNCTION_NO_RET "SetCursorScreenPos" ["pos"]];
  mkBlock IMGUI_FUNCTION "GetContentRegionAvail" [
    CALL_FUNCTION "GetContentRegionAvail" "ImVec2" []; PUSH_NUMBER "ret.x"; PUSH_NUMBER "ret.y"];
  mkBlock IMGUI_FUNCTION "GetCursorPos" [
    CALL_FUNCTION "GetCursorPos" "ImVec2" []; PUSH_NUMBER "ret.x"; PUSH_NUMBER "ret.y"];
  mkBlock IMGUI_FUNCTION "GetCursorPosX" [
    CALL_FUNCTION "GetCursorPosX" "float" []; PUSH_NUMBER "ret"];
  mkBlock IMGUI_FUNCTION "GetCursorPosY" [
    CALL_FUNCTION "GetCursorPosY" "float" []; PUSH_NUMBER "ret"];
  mkBlock IMGUI_FUNCTION "SetCursorPos" [
    Arg IM_VEC_2_ARG "local_pos" []; CALL_FUNCTION_NO_RET "SetCursorPos" ["local_pos"]];
  mkBlock IMGUI_FUNCTION "SetCursorPosX" [
    Arg NUMBER_ARG "local_x" []; CALL_FUNCTION_NO_RET "SetCursorPosX" ["local_x"]];
  mkBlock IMGUI_FUNCTION "SetCursorPosY" [
    Arg NUMBER_ARG "local_y" []; CALL_FUNCTION_NO_RET "SetCursorPosY" ["local_y"]];
  mkBlock IMGUI_FUNCTION "GetCursorStartPos" [
    CALL_FUNCTION "GetCursorStartPos" "ImVec2" []; PUSH_NUMBER "ret.x"; PUSH_NUMBER "ret.y"];
  mkBlock IMGUI_FUNCTION "Separator" [
    CALL_FUNCTION_NO_RET "Separator" []];
  mkBlock IMGUI_FUNCTION "SameLine" [
    Arg OPTIONAL_NUMBER_ARG "offset_from_start_x" ["0.0f"];
    Arg OPTIONAL_NUMBER_ARG "spacing" ["-1.0f"];
    CALL_FUNCTION_NO_RET "SameLine" ["offset_from_start_x"; "spacing"]];
  mkBlock IMGUI_FUNCTION "NewLine" [
    CALL_FUNCTION_NO_RET "NewLine" []];
  mkBlock IMGUI_FUNCTION "Spacing" [
    CALL_FUNCTION_NO_RET "Spacing" []];
  mkBlock IMGUI_FUNCTION "Dummy" [
    Arg IM_VEC_2_ARG "size" []; CALL_FUNCTION_NO_RET "Dummy" ["size"]];
  mkBlock IMGUI_FUNCTION "Indent" [
    Arg OPTIONAL_NUMBER_ARG "indent_w" ["0.0f"]; CALL_FUNCTION_NO_RET "Indent" ["indent_w"]];
  mkBlock IMGUI_FUNCTION "Unindent" [
    Arg OPTIONAL_NUMBER_ARG "indent_w" ["0.0f"]; CALL_FUNCTION_NO_RET "Unindent" ["indent_w"]];
  mkBlock IMGUI_FUNCTION "BeginGroup" [
    CALL_FUNCTION_NO_RET "BeginGroup" []; EndStack (ADD_END_STACK 4)];
  mkBlock IMGUI_FUNCTION "EndGroup" [
    CALL_FUNCTION_NO_RET "EndGroup" []; EndStack (POP_END_STACK 4)];
  mkBlock IMGUI_FUNCTION "AlignTextToFramePadding" [
    CALL_FUNCTION_NO_RET "AlignTextToFramePadding" []];
  mkBlock IMGUI_FUNCTION "GetTextLineHeight" [
    CALL_FUNCTION "GetTextLineHeight" "float" []; PUSH_NUMBER "ret"];
  mkBlock IMGUI_FUNCTION "GetTextLineHeightWithSpacing" [
    CALL_FUNCTION "GetTextLineHeightWithSpacing" "float" []; PUSH_NUMBER "ret"];
  mkBlock IMGUI_FUNCTION "GetFrameHeight" [
    CALL_FUNCTION "GetFrameHeight" "float" []; PUSH_NUMBER "ret"];
  mkBlock IMGUI_FUNCTION "GetFrameHeightWithSpacing" [
    CALL_FUNCTION "GetFrameHeightWithSpacing" "float" []; PUSH_NUMBER "ret"];
  mkBlock IMGUI_FUNCTION "PushID" [
    Arg LABEL_ARG "str_id" []; CALL_FUNCTION_NO_RET "PushID" ["str_id"]];
  mkBlock IMGUI_FUNCTION "PushID_2" [
    Arg LABEL_ARG "str_id_begin" []; Arg LABEL_ARG "str_id_end" [];
    CALL_FUNCTION_NO_RET "PushID" ["str_id_begin"; "str_id_end"]];
  mkBlock IMGUI_FUNCTION "PushID_1" [
    Arg INT_ARG "int_id" []; CALL_FUNCTION_NO_RET "PushID" ["int_id"]];
  mkBlock IMGUI_FUNCTION "PopID" [
    CALL_FUNCTION_NO_RET "PopID" []];
  mkBlock IMGUI_FUNCTION "GetID" [
    Arg LABEL_ARG "str_id" []; CALL_FUNCTION "GetID" "unsigned int" ["str_id"];
    PUSH_NUMBER "ret"];
  mkBlock IMGUI_FUNCTION "GetID_2" [
    Arg LABEL_ARG "str_id_begin" []; Arg LABEL_ARG "str_id_end" [];
    CALL_FUNCTION "GetID" "unsigned int" ["str_id_begin"; "str_id_end"]; PUSH_NUMBER "ret"];
  mkBlock IMGUI_FUNCTION "GetID_1" [
    Arg INT_ARG "int_id" []; CALL_FUNCTION "GetID" "unsigned int" ["int_id"]; PUSH_NUMBER "ret"];
  mkBlock IMGUI_FUNCTION "TextUnformatted" [
    Arg LABEL_ARG "text" []; Arg OPTIONAL_LABEL_ARG "text_end" [];
    CALL_FUNCTION_NO_RET "TextUnformatted" ["text"; "text_end"]];
  mkBlock IMGUI_FUNCTION "Text" [
    Arg LABEL_ARG "fmt" []; CALL_FUNCTION_NO_RET "Text" ["fmt"]];
  mkBlock IMGUI_FUNCTION "TextColored" [
    Arg IM_VEC_4_ARG "col" []; Arg LABEL_ARG "fmt" [];
    CALL_FUNCTION_NO_RET "TextColored" ["col"; "fmt"]];
  mkBlock IMGUI_FUNCTION "TextDisabled" [
    Arg LABEL_ARG "fmt" []; CALL_FUNCTION_NO_RET "TextDisabled" ["fmt"]];
  mkBlock IMGUI_FUNCTION "TextWrapped" [
    Arg LABEL_ARG "fmt" []; CALL_FUNCTION_NO_RET "TextWrapped" ["fmt"]];
  mkBlock IMGUI_FUNCTION "LabelText" [
    Arg LABEL_ARG "label" []; Arg LABEL_ARG "fmt" [];
    CALL_FUNCTION_NO_RET "LabelText" ["label"; "fmt"]];
  mkBlock IMGUI_FUNCTION "BulletText" [
    Arg LABEL_ARG "fmt" []; CALL_FUNCTION_NO_RET "BulletText" ["fmt"]];
  mkBlock IMGUI_FUNCTION "SeparatorText" [
    Arg LABEL_ARG "label" []; CALL_FUNCTION_NO_RET "SeparatorText" ["label"]];
  mkBlock IMGUI_FUNCTION "Button" [
    Arg LABEL_ARG "label" []; Arg OPTIONAL_IM_VEC_2_ARG "size" ["0"; "0"];
    CALL_FUNCTION "Button" "bool" ["label"; "size"]; PUSH_BOOL "ret"];
  mkBlock IMGUI_FUNCTION "SmallButton" [
    Arg LABEL_ARG "label" []; CALL_FUNCTION "SmallButton" "bool" ["label"]; PUSH_BOOL "ret"];
  mkBlock IMGUI_FUNCTION "InvisibleButton" [
    Arg LABEL_ARG "str_id" []; Arg IM_VEC_2_ARG "size" []; Arg OPTIONAL_INT_ARG "flags" ["0"];
    CALL_FUNCTION "InvisibleButton" "bool" ["str_id"; "size"; "flags"]; PUSH_BOOL "ret"];
  mkBlock IMGUI_FUNCTION "ArrowButton" [
    Arg LABEL_ARG "str_id" []; Arg ENUM_ARG "dir" ["ImGuiDir"];
    CALL_FUNCTION "ArrowButton" "bool" ["str_id"; "dir"]; PUSH_BOOL "ret"];
  mkBlock IMGUI_FUNCTION "Checkbox" [
    Arg LABEL_ARG "label" []; Arg BOOL_POINTER_ARG "v" [];
    CALL_FUNCTION "Checkbox" "bool" ["label"; "v"]; PUSH_BOOL "ret"; END_BOOL_POINTER "v"];
  mkBlock IMGUI_FUNCTION "CheckboxFlags" [
    Arg LABEL_ARG "label" []; Arg INT_POINTER_ARG "flags" []; Arg INT_ARG "flags_value" [];
    CALL_FUNCTION "CheckboxFlags" "bool" ["label"; "flags"; "flags_value"]; PUSH_BOOL "ret";
    END_INT_POINTER "flags"];
  mkBlock IMGUI_FUNCTION "CheckboxFlags_3" [
    Arg LABEL_ARG "label" []; Arg UINT_POINTER_ARG "flags" []; Arg UINT_ARG "flags_value" [];
    CALL_FUNCTION "CheckboxFlags" "bool" ["label"; "flags"; "flags_value"]; PUSH_BOOL "ret";
    END_UINT_POINTER "flags"];
  mkBlock IMGUI_FUNCTION "RadioButton" [
    Arg LABEL_ARG "label" []; Arg BOOL_ARG "active" [];
    CALL_FUNCTION "RadioButton" "bool" ["label"; "active"]; PUSH_BOOL "ret"];
  mkBlock IMGUI_FUNCTION "RadioButton_3" [
    Arg LABEL_ARG "label" []; Arg INT_POINTER_ARG "v" []; Arg INT_ARG "v_button" [];
    CALL_FUNCTION "RadioButton" "bool" ["label"; "v"; "v_button"]; PUSH_BOOL "ret";
    END_INT_POINTER "v"];
  mkBlock IMGUI_FUNCTION "ProgressBar" [
    Arg NUMBER_ARG "fraction" []; Arg OPTIONAL_IM_VEC_2_ARG "size_arg" ["-FLT_MIN"; "0"];
    Arg OPTIONAL_LABEL_ARG "overlay" [];
    CALL_FUNCTION_NO_RET "ProgressBar" ["fraction"; "size_arg"; "overlay"]];
  mkBlock IMGUI_FUNCTION "Bullet" [
    CALL_FUNCTION_NO_RET "Bullet" []];
  mkBlock IMGUI_FUNCTION "TextLink" [
    Arg LABEL_ARG "label" []; CALL_FUNCTION "TextLink" "bool" ["label"]; PUSH_BOOL "ret"];
  mkBlock IMGUI_FUNCTION "TextLinkOpenURL" [
    Arg LABEL_ARG "label" []; Arg OPTIONAL_LABEL_ARG "url" [];
    CALL_FUNCTION_NO_RET "TextLinkOpenURL" ["label"; "url"]];
  mkBlock IMGUI_FUNCTION "Image" [
    Arg IM_TEXTURE_ID_ARG "user_texture_id" []; Arg IM_VEC_2_ARG "image_size" [];
    Arg OPTIONAL_IM_VEC_2_ARG "uv0" ["0"; "0"]; Arg OPTIONAL_IM_VEC_2_ARG "uv1" ["1"; "1"];
    CALL_FUNCTION_NO_RET "Image" ["user_texture_id"; "image_size"; "uv0"; "uv1"]];
  mkBlock IMGUI_FUNCTION "ImageWithBg" [
    Arg IM_TEXTURE_ID_ARG "user_texture_id" []; Arg IM_VEC_2_ARG "image_size" [];
    Arg OPTIONAL_IM_VEC_2_ARG "uv0" ["0"; "0"]; Arg OPTIONAL_IM_VEC_2_ARG "uv1" ["1"; "1"];
    Arg OPTIONAL_IM_VEC_4_ARG "bg_col" ["0"; "0"; "0"; "0"];
    Arg OPTIONAL_IM_VEC_4_ARG "tint_col" ["1"; "1"; "1"; "1"];
    CALL_FUNCTION_NO_RET "ImageWithBg" ["user_texture_id"; "image_size"; "uv0"; "uv1"; "bg_col"; "tint_col"]];
  mkBlock IMGUI_FUNCTION "ImageButton" [
    Arg LABEL_ARG "str_id" []; Arg IM_TEXTURE_ID_ARG "user_texture_id" [];
    Arg IM_VEC_2_ARG "image_size" []; Arg OPTIONAL_IM_VEC_2_ARG "uv0" ["0"; "0"];
    Arg OPTIONAL_IM_VEC_2_ARG "uv1" ["1"; "1"];
    Arg OPTIONAL_IM_VEC_4_ARG "bg_col" ["0"; "0"; "0"; "0"];
    Arg OPTIONAL_IM_VEC_4_ARG "tint_col" ["1"; "1"; "1"; "1"];
    CALL_FUNCTION "ImageButton" "bool" ["str_id"; "user_texture_id"; "image_size"; "uv0"; "uv1"; "bg_col"; "tint_col"];
    PUSH_BOOL "ret"];
  mkBlock IMGUI_FUNCTION "BeginCombo" [
    Arg LABEL_ARG "label" []; Arg LABEL_ARG "preview_value" [];
    Arg OPTIONAL_INT_ARG "flags" ["0"];
    CALL_FUNCTION "BeginCombo" "bool" ["label"; "preview_value"; "flags"];
    EndStack (IF_RET_ADD_END_STACK 5); PUSH_BOOL "ret"];
  mkBlock IMGUI_FUNCTION "EndCombo" [
    CALL_FUNCTION_NO_RET "EndCombo" []; EndStack (POP_END_STACK 5)];
  mkBlock IMGUI_FUNCTION "Combo" [
    Arg LABEL_ARG "label" []; Arg INT_POINTER_ARG "current_item" [];
    Arg LABEL_ARG "items_separated_by_zeros" [];
    Arg OPTIONAL_INT_ARG "popup_max_height_in_items" ["-1"];
    CALL_FUNCTION "Combo" "bool" ["label"; "current_item"; "items_separated_by_zeros"; "popup_max_height_in_items"];
    PUSH_BOOL "ret"; END_INT_POINTER "current_item"];
  mkBlock IMGUI_FUNCTION "DragFloat" [
    Arg LABEL_ARG "label" []; Arg FLOAT_POINTER_ARG "v" [];
    Arg OPTIONAL_NUMBER_ARG "v_speed" ["1.0f"]; Arg OPTIONAL_NUMBER_ARG "v_min" ["0.0f"];
    Arg OPTIONAL_NUMBER_ARG "v_max" ["0.0f"]; Arg LABEL_ARG "format" [];
    Arg OPTIONAL_INT_ARG "flags" ["0"];
    CALL_FUNCTION "DragFloat" "bool" ["label"; "v"; "v_speed"; "v_min"; "v_max"; "format"; "flags"];
    PUSH_BOOL "ret"; END_FLOAT_POINTER "v"];
  mkBlock IMGUI_FUNCTION "DragFloatRange2" [
    Arg LABEL_ARG "label" []; Arg FLOAT_POINTER_ARG "v_current_min" [];
    Arg FLOAT_POINTER_ARG "v_current_max" []; Arg OPTIONAL_NUMBER_ARG "v_speed" ["1.0f"];
    Arg OPTIONAL_NUMBER_ARG "v_min" ["0.0f"]; Arg OPTIONAL_NUMBER_ARG "v_max" ["0.0f"];
    Arg LABEL_ARG "format" []; Arg OPTIONAL_LABEL_ARG "format_max" [];
    Arg OPTIONAL_INT_ARG "flags" ["0"];
    CALL_FUNCTION "DragFloatRange2" "bool" ["label"; "v_current_min"; "v_current_max"; "v_speed"; "v_min"; "v_max"; "format"; "format_max"; "flags"];
    PUSH_BOOL "ret"; END_FLOAT_POINTER "v_current_min"; END_FLOAT_POINTER "v_current_max"];
  mkBlock IMGUI_FUNCTION "DragInt" [
    Arg LABEL_ARG "label" []; Arg INT_POINTER_ARG "v" [];
    Arg OPTIONAL_NUMBER_ARG "v_speed" ["1.0f"]; Arg OPTIONAL_INT_ARG "v_min" ["0"];
    Arg OPTIONAL_INT_ARG "v_max" ["0"]; Arg LABEL_ARG "format" [];
    Arg OPTIONAL_INT_ARG "flags" ["0"];
    CALL_FUNCTION "DragInt" "bool" ["label"; "v"; "v_speed"; "v_min"; "v_max"; "format"; "flags"];
    PUSH_BOOL "ret"; END_INT_POINTER "v"];
  mkBlock IMGUI_FUNCTION "DragIntRange2" [
    Arg LABEL_ARG "label" []; Arg INT_POINTER_ARG "v_current_min" [];
    Arg INT_POINTER_ARG "v_current_max" []; Arg OPTIONAL_NUMBER_ARG "v_speed" ["1.0f"];
    Arg OPTIONAL_INT_ARG "v_min" ["0"]; Arg OPTIONAL_INT_ARG "v_max" ["0"];
    Arg LABEL_ARG "format" []; Arg OPTIONAL_LABEL_ARG "format_max" [];
    Arg OPTIONAL_INT_ARG "flags" ["0"];
    CALL_FUNCTION "DragIntRange2" "bool" ["label"; "v_current_min"; "v_current_max"; "v_speed"; "v_min"; "v_max"; "format"; "format_max"; "flags"];
    PUSH_BOOL "ret"; END_INT_POINTER "v_current_min"; END_INT_POINTER "v_current_max"];
  mkBlock IMGUI_FUNCTION "SliderFloat" [
    Arg LABEL_ARG "label" []; Arg FLOAT_POINTER_ARG "v" []; Arg NUMBER_ARG "v_min" [];
    Arg NUMBER_ARG "v_max" []; Arg LABEL_ARG "format" []; Arg OPTIONAL_INT_ARG "flags" ["0"];
    CALL_FUNCTION "SliderFloat" "bool" ["label"; "v"; "v_min"; "v_max"; "format"; "flags"];
    PUSH_BOOL "ret"; END_FLOAT_POINTER "v"];
  mkBlock IMGUI_FUNCTION "SliderAngle" [
    Arg LABEL_ARG "label" []; Arg FLOAT_POINTER_ARG "v_rad" [];
    Arg OPTIONAL_NUMBER_ARG "v_degrees_min" ["-360.0f"];
    Arg OPTIONAL_NUMBER_ARG "v_degrees_max" ["+360.0f"]; Arg LABEL_ARG "format" [];
    Arg OPTIONAL_INT_ARG "flags" ["0"];
    CALL_FUNCTION "SliderAngle" "bool" ["label"; "v_rad"; "v_degrees_min"; "v_degrees_max"; "format"; "flags"];
    PUSH_BOOL "ret"; END_FLOAT_POINTER "v_rad"];
  mkBlock IMGUI_FUNCTION "SliderInt" [
    Arg LABEL_ARG "label" []; Arg INT_POINTER_ARG "v" []; Arg INT_ARG "v_min" [];
    Arg INT_ARG "v_max" []; Arg LABEL_ARG "format" []; Arg OPTIONAL_INT_ARG "flags" ["0"];
    CALL_FUNCTION "SliderInt" "bool" ["label"; "v"; "v_min"; "v_max"; "format"; "flags"];
    PUSH_BOOL "ret"; END_INT_POINTER "v"];
  mkBlock IMGUI_FUNCTION "VSliderFloat" [
    Arg LABEL_ARG "label" []; Arg IM_VEC_2_ARG "size" []; Arg FLOAT_POINTER_ARG "v" [];
    Arg NUMBER_ARG "v_min" []; Arg NUMBER_ARG "v_max" []; Arg LABEL_ARG "format" [];
    Arg OPTIONAL_INT_ARG "flags" ["0"];
    CALL_FUNCTION "VSliderFloat" "bool" ["label"; "size"; "v"; "v_min"; "v_max"; "format"; "flags"];
    PUSH_BOOL "ret"; END_FLOAT_POINTER "v"];
  mkBlock IMGUI_FUNCTION "VSliderInt" [
    Arg LABEL_ARG "label" []; Arg IM_VEC_2_ARG "size" []; Arg INT_POINTER_ARG "v" [];
    Arg INT_ARG "v_min" []; Arg INT_ARG "v_max" []; Arg LABEL_ARG "format" [];
    Arg OPTIONAL_INT_ARG "flags" ["0"];
    CALL_FUNCTION "VSliderInt" "bool" ["label"; "size"; "v"; "v_min"; "v_max"; "format"; "flags"];
    PUSH_BOOL "ret"; END_INT_POINTER "v"];
  mkBlock IMGUI_FUNCTION "InputFloat" [
    Arg LABEL_ARG "label" []; Arg FLOAT_POINTER_ARG "v" [];
    Arg OPTIONAL_NUMBER_ARG "step" ["0.0f"]; Arg OPTIONAL_NUMBER_ARG "step_fast" ["0.0f"];
    Arg LABEL_ARG "format" []; Arg OPTIONAL_INT_ARG "flags" ["0"];
    CALL_FUNCTION "InputFloat" "bool" ["label"; "v"; "step"; "step_fast"; "format"; "flags"];
    PUSH_BOOL "ret"; END_FLOAT_POINTER "v"];
  mkBlock IMGUI_FUNCTION "InputInt" [
    Arg LABEL_ARG "label" []; Arg INT_POINTER_ARG "v" []; Arg OPTIONAL_INT_ARG "step" ["1"];
    Arg OPTIONAL_INT_ARG "step_fast" ["100"]; Arg OPTIONAL_INT_ARG "flags" ["0"];
    CALL_FUNCTION "InputInt" "bool" ["label"; "v"; "step"; "step_fast"; "flags"];
    PUSH_BOOL "ret"; END_INT_POINTER "v"];
  mkBlock IMGUI_FUNCTION "ColorButton" [
    Arg LABEL_ARG "desc_id" []; Arg IM_VEC_4_ARG "col" []; Arg OPTIONAL_INT_ARG "flags" ["0"];
    Arg OPTIONAL_IM_VEC_2_ARG "size" ["0"; "0"];
    CALL_FUNCTION "ColorButton" "bool" ["desc_id"; "col"; "flags"; "size"]; PUSH_BOOL "ret"];
  mkBlock IMGUI_FUNCTION "SetColorEditOptions" [
    Arg INT_ARG "flags" []; CALL_FUNCTION_NO_RET "SetColorEditOptions" ["flags"]];
  mkBlock IMGUI_FUNCTION "TreeNode" [
    Arg LABEL_ARG "label" []; CALL_FUNCTION "TreeNode" "bool" ["label"];
    EndStack (IF_RET_ADD_END_STACK 6); PUSH_BOOL "ret"];
  mkBlock IMGUI_FUNCTION "TreeNode_3" [
    Arg LABEL_ARG "str_id" []; Arg LABEL_ARG "fmt" [];
    CALL_FUNCTION "TreeNode" "bool" ["str_id"; "fmt"]; EndStack (IF_RET_ADD_END_STACK 6);
    PUSH_BOOL "ret"];
  mkBlock IMGUI_FUNCTION "TreeNodeEx" [
    Arg LABEL_ARG "label" []; Arg OPTIONAL_INT_ARG "flags" ["0"];
    CALL_FUNCTION "TreeNodeEx" "bool" ["label"; "flags"]; PUSH_BOOL "ret"];
  mkBlock IMGUI_FUNCTION "TreeNodeEx_4" [
    Arg LABEL_ARG "str_id" []; Arg INT_ARG "flags" []; Arg LABEL_ARG "fmt" [];
    CALL_FUNCTION "TreeNodeEx" "bool" ["str_id"; "flags"; "fmt"]; PUSH_BOOL "ret"];
  mkBlock IMGUI_FUNCTION "TreePush" [
    Arg LABEL_ARG "str_id" []; CALL_FUNCTION_NO_RET "TreePush" ["str_id"];
    EndStack (ADD_END_STACK 6)];
  mkBlock IMGUI_FUNCTION "TreePop" [
    CALL_FUNCTION_NO_RET "TreePop" []; EndStack (POP_END_STACK 6)];
  mkBlock IMGUI_FUNCTION "GetTreeNodeToLabelSpacing" [
    CALL_FUNCTION "GetTreeNodeToLabelSpacing" "float" []; PUSH_NUMBER "ret"];
  mkBlock IMGUI_FUNCTION "CollapsingHeader" [
    Arg LABEL_ARG "label" []; Arg OPTIONAL_INT_ARG "flags" ["0"];
    CALL_FUNCTION "CollapsingHeader" "bool" ["label"; "flags"]; PUSH_BOOL "ret"];
  mkBlock IMGUI_FUNCTION "CollapsingHeader_3" [
    Arg LABEL_ARG "label" []; Arg BOOL_POINTER_ARG "p_visible" [];
    Arg OPTIONAL_INT_ARG "flags" ["0"];
    CALL_FUNCTION "CollapsingHeader" "bool" ["label"; "p_visible"; "flags"]; PUSH_BOOL "ret";
    END_BOOL_POINTER "p_visible"];
  mkBlock IMGUI_FUNCTION "SetNextItemOpen" [
    Arg BOOL_ARG "is_open" []; Arg OPTIONAL_INT_ARG "cond" ["0"];
    CALL_FUNCTION_NO_RET "SetNextItemOpen" ["is_open"; "cond"]];
  mkBlock IMGUI_FUNCTION "SetNextItemStorageID" [
    Arg UINT_ARG "storage_id" []; CALL_FUNCTION_NO_RET "SetNextItemStorageID" ["storage_id"]];
  mkBlock IMGUI_FUNCTION "Selectable" [
    Arg LABEL_ARG "label" []; Arg OPTIONAL_BOOL_ARG "selected" ["false"];
    Arg OPTIONAL_INT_ARG "flags" ["0"]; Arg OPTIONAL_IM_VEC_2_ARG "size" ["0"; "0"];
    CALL_FUNCTION "Selectable" "bool" ["label"; "selected"; "flags"; "size"]; PUSH_BOOL "ret"];
  mkBlock IMGUI_FUNCTION "Selectable_4" [
    Arg LABEL_ARG "label" []; Arg BOOL_POINTER_ARG "p_selected" [];
    Arg OPTIONAL_INT_ARG "flags" ["0"]; Arg OPTIONAL_IM_VEC_2_ARG "size" ["0"; "0"];
    CALL_FUNCTION "Selectable" "bool" ["label"; "p_selected"; "flags"; "size"]; PUSH_BOOL "ret";
    END_BOOL_POINTER "p_selected"];
  mkBlock IMGUI_FUNCTION "IsItemToggledSelection" [
    CALL_FUNCTION "IsItemToggledSelection" "bool" []; PUSH_BOOL "ret"];
  mkBlock IMGUI_FUNCTION "BeginListBox" [
    Arg LABEL_ARG "label" []; Arg OPTIONAL_IM_VEC_2_ARG "size" ["0"; "0"];
    CALL_FUNCTION "BeginListBox" "bool" ["label"; "size"]; EndStack (IF_RET_ADD_END_STACK 7);
    PUSH_BOOL "ret"];
  mkBlock IMGUI_FUNCTION "EndListBox" [
    CALL_FUNCTION_NO_RET "EndListBox" []; EndStack (POP_END_STACK 7)];
  mkBlock IMGUI_FUNCTION "Value" [
    Arg LABEL_ARG "prefix" []; Arg BOOL_ARG "b" []; CALL_FUNCTION_NO_RET "Value" ["prefix"; "b"]];
  mkBlock IMGUI_FUNCTION "Value_2" [
    Arg LABEL_ARG "prefix" []; Arg INT_ARG "v" []; CALL_FUNCTION_NO_RET "Value" ["prefix"; "v"]];
  mkBlock IMGUI_FUNCTION "Value_2_2" [
    Arg LABEL_ARG "prefix" []; Arg UINT_ARG "v" []; CALL_FUNCTION_NO_RET "Value" ["prefix"; "v"]];
  mkBlock IMGUI_FUNCTION "Value_3" [
    Arg LABEL_ARG "prefix" []; Arg NUMBER_ARG "v" []; Arg OPTIONAL_LABEL_ARG "float_format" [];
    CALL_FUNCTION_NO_RET "Value" ["prefix"; "v"; "float_format"]];
  mkBlock IMGUI_FUNCTION "BeginMenuBar" [
    CALL_FUNCTION "BeginMenuBar" "bool" []; EndStack (IF_RET_ADD_END_STACK 8); PUSH_BOOL "ret"];
  mkBlock IMGUI_FUNCTION "EndMenuBar" [
    CALL_FUNCTION_NO_RET "EndMenuBar" []; EndStack (POP_END_STACK 8)];
  mkBlock IMGUI_FUNCTION "BeginMainMenuBar" [
    CALL_FUNCTION "BeginMainMenuBar" "bool" []; EndStack (IF_RET_ADD_END_STACK 9);
    PUSH_BOOL "ret"];
  mkBlock IMGUI_FUNCTION "EndMainMenuBar" [
    CALL_FUNCTION_NO_RET "EndMainMenuBar" []; EndStack (POP_END_STACK 9)];
  mkBlock IMGUI_FUNCTION "BeginMenu" [
    Arg LABEL_ARG "label" []; Arg OPTIONAL_BOOL_ARG "enabled" ["true"];
    CALL_FUNCTION "BeginMenu" "bool" ["label"; "enabled"]; EndStack (IF_RET_ADD_END_STACK 10);
    PUSH_BOOL "ret"];
  mkBlock IMGUI_FUNCTION "EndMenu" [
    CALL_FUNCTION_NO_RET "EndMenu" []; EndStack (POP_END_STACK 10)];
  mkBlock IMGUI_FUNCTION "MenuItem" [
    Arg LABEL_ARG "label" []; Arg OPTIONAL_LABEL_ARG "shortcut" [];
    Arg OPTIONAL_BOOL_ARG "selected" ["false"]; Arg OPTIONAL_BOOL_ARG "enabled" ["true"];
    CALL_FUNCTION "MenuItem" "bool" ["label"; "shortcut"; "selected"; "enabled"];
    PUSH_BOOL "ret"];
  mkBlock IMGUI_FUNCTION "MenuItem_4" [
    Arg LABEL_ARG "label" []; Arg LABEL_ARG "shortcut" []; Arg BOOL_POINTER_ARG "p_selected" [];
    Arg OPTIONAL_BOOL_ARG "enabled" ["true"];
    CALL_FUNCTION "MenuItem" "bool" ["label"; "shortcut"; "p_selected"; "enabled"];
    PUSH_BOOL "ret"; END_BOOL_POINTER "p_selected"];
  mkBlock IMGUI_FUNCTION "BeginTooltip" [
    CALL_FUNCTION "BeginTooltip" "bool" []; EndStack (IF_RET_ADD_END_STACK 11); PUSH_BOOL "ret"];
  mkBlock IMGUI_FUNCTION "EndTooltip" [
    CALL_FUNCTION_NO_RET "EndTooltip" []; EndStack (POP_END_STACK 11)];
  mkBlock IMGUI_FUNCTION "SetTooltip" [
    Arg LABEL_ARG "fmt" []; CALL_FUNCTION_NO_RET "SetTooltip" ["fmt"]];
  mkBlock IMGUI_FUNCTION "BeginItemTooltip" [
    CALL_FUNCTION "BeginItemTooltip" "bool" []; EndStack (IF_RET_ADD_END_STACK 12);
    PUSH_BOOL "ret"];
  mkBlock IMGUI_FUNCTION "SetItemTooltip" [
    Arg LABEL_ARG "fmt" []; CALL_FUNCTION_NO_RET "SetItemTooltip" ["fmt"]];
  mkBlock IMGUI_FUNCTION "BeginPopup" [
    Arg LABEL_ARG "str_id" []; Arg OPTIONAL_INT_ARG "flags" ["0"];
    CALL_FUNCTION "BeginPopup" "bool" ["str_id"; "flags"]; EndStack (IF_RET_ADD_END_STACK 13);
    PUSH_BOOL "ret"];
  mkBlock IMGUI_FUNCTION "BeginPopupModal" [
    Arg LABEL_ARG "name" []; Arg OPTIONAL_BOOL_POINTER_ARG "p_open" [];
    Arg OPTIONAL_INT_ARG "flags" ["0"];
    CALL_FUNCTION "BeginPopupModal" "bool" ["name"; "p_open"; "flags"];
    EndStack (IF_RET_ADD_END_STACK 13); PUSH_BOOL "ret"; END_BOOL_POINTER "p_open"];
  mkBlock IMGUI_FUNCTION "EndPopup" [
    CALL_FUNCTION_NO_RET "EndPopup" []; EndStack (POP_END_STACK 13)];
  mkBlock IMGUI_FUNCTION "OpenPopup" [
    Arg LABEL_ARG "str_id" []; Arg OPTIONAL_INT_ARG "popup_flags" ["0"];
    CALL_FUNCTION_NO_RET "OpenPopup" ["str_id"; "popup_flags"]];
  mkBlock IMGUI_FUNCTION "OpenPopup_2" [
    Arg UINT_ARG "id" []; Arg OPTIONAL_INT_ARG "popup_flags" ["0"];
    CALL_FUNCTION_NO_RET "OpenPopup" ["id"; "popup_flags"]];
  mkBlock IMGUI_FUNCTION "OpenPopupOnItemClick" [
    Arg OPTIONAL_LABEL_ARG "str_id" []; Arg OPTIONAL_INT_ARG "popup_flags" ["1"];
    CALL_FUNCTION_NO_RET "OpenPopupOnItemClick" ["str_id"; "popup_flags"]];
  mkBlock IMGUI_FUNCTION "CloseCurrentPopup" [
    CALL_FUNCTION_NO_RET "CloseCurrentPopup" []];
  mkBlock IMGUI_FUNCTION "BeginPopupContextItem" [
    Arg OPTIONAL_LABEL_ARG "str_id" []; Arg OPTIONAL_INT_ARG "popup_flags" ["1"];
    CALL_FUNCTION "BeginPopupContextItem" "bool" ["str_id"; "popup_flags"];
    EndStack (IF_RET_ADD_END_STACK 13); PUSH_BOOL "ret"];
  mkBlock IMGUI_FUNCTION "BeginPopupContextWindow" [
    Arg OPTIONAL_LABEL_ARG "str_id" []; Arg OPTIONAL_INT_ARG "popup_flags" ["1"];
    CALL_FUNCTION "BeginPopupContextWindow" "bool" ["str_id"; "popup_flags"];
    EndStack (IF_RET_ADD_END_STACK 13); PUSH_BOOL "ret"];
  mkBlock IMGUI_FUNCTION "BeginPopupContextVoid" [
    Arg OPTIONAL_LABEL_ARG "str_id" []; Arg OPTIONAL_INT_ARG "popup_flags" ["1"];
    CALL_FUNCTION "BeginPopupContextVoid" "bool" ["str_id"; "popup_flags"];
    EndStack (IF_RET_ADD_END_STACK 13); PUSH_BOOL "ret"];
  mkBlock IMGUI_FUNCTION "IsPopupOpen" [
    Arg LABEL_ARG "str_id" []; Arg OPTIONAL_INT_ARG "flags" ["0"];
    CALL_FUNCTION "IsPopupOpen" "bool" ["str_id"; "flags"]; PUSH_BOOL "ret"];
  mkBlock IMGUI_FUNCTION "BeginTable" [
    Arg LABEL_ARG "str_id" []; Arg INT_ARG "columns" []; Arg OPTIONAL_INT_ARG "flags" ["0"];
    Arg OPTIONAL_IM_VEC_2_ARG "outer_size" ["0.0f"; "0.0f"];
    Arg OPTIONAL_NUMBER_ARG "inner_width" ["0.0f"];
    CALL_FUNCTION "BeginTable" "bool" ["str_id"; "columns"; "flags"; "outer_size"; "inner_width"];
    EndStack (IF_RET_ADD_END_STACK 14); PUSH_BOOL "ret"];
  mkBlock IMGUI_FUNCTION "EndTable" [
    CALL_FUNCTION_NO_RET "EndTable" []; EndStack (POP_END_STACK 14)];
  mkBlock IMGUI_FUNCTION "TableNextRow" [
    Arg OPTIONAL_INT_ARG "row_flags" ["0"]; Arg OPTIONAL_NUMBER_ARG "min_row_height" ["0.0f"];
    CALL_FUNCTION_NO_RET "TableNextRow" ["row_flags"; "min_row_height"]];
  mkBlock IMGUI_FUNCTION "TableNextColumn" [
    CALL_FUNCTION "TableNextColumn" "bool" []; PUSH_BOOL "ret"];
  mkBlock IMGUI_FUNCTION "TableSetColumnIndex" [
    Arg INT_ARG "column_n" []; CALL_FUNCTION "TableSetColumnIndex" "bool" ["column_n"];
    PUSH_BOOL "ret"];
  mkBlock IMGUI_FUNCTION "TableSetupColumn" [
    Arg LABEL_ARG "label" []; Arg OPTIONAL_INT_ARG "flags" ["0"];
    Arg OPTIONAL_NUMBER_ARG "init_width_or_weight" ["0.0f"]; Arg UINT_ARG "user_id" [];
    CALL_FUNCTION_NO_RET "TableSetupColumn" ["label"; "flags"; "init_width_or_weight"; "user_id"]];
  mkBlock IMGUI_FUNCTION "TableSetupScrollFreeze" [
    Arg INT_ARG "cols" []; Arg INT_ARG "rows" [];
    CALL_FUNCTION_NO_RET "TableSetupScrollFreeze" ["cols"; "rows"]];
  mkBlock IMGUI_FUNCTION "TableHeader" [
    Arg LABEL_ARG "label" []; CALL_FUNCTION_NO_RET "TableHeader" ["label"]];
  mkBlock IMGUI_FUNCTION "TableHeadersRow" [
    CALL_FUNCTION_NO_RET "TableHeadersRow" []];
  mkBlock IMGUI_FUNCTION "TableAngledHeadersRow" [
    CALL_FUNCTION_NO_RET "TableAngledHeadersRow" []];
  mkBlock IMGUI_FUNCTION "TableGetColumnCount" [
    CALL_FUNCTION "TableGetColumnCount" "int" []; PUSH_NUMBER "ret"];
  mkBlock IMGUI_FUNCTION "TableGetColumnIndex" [
    CALL_FUNCTION "TableGetColumnIndex" "int" []; PUSH_NUMBER "ret"];
  mkBlock IMGUI_FUNCTION "TableGetRowIndex" [
    CALL_FUNCTION "TableGetRowIndex" "int" []; PUSH_NUMBER "ret"];
  mkBlock IMGUI_FUNCTION "TableGetColumnName" [
    Arg OPTIONAL_INT_ARG "column_n" ["-1"];
    CALL_FUNCTION "TableGetColumnName" "const char*" ["column_n"]; PUSH_STRING "ret"];
  mkBlock IMGUI_FUNCTION "TableGetColumnFlags" [
    Arg OPTIONAL_INT_ARG "column_n" ["-1"];
    CALL_FUNCTION "TableGetColumnFlags" "ImGuiTableColumnFlags" ["column_n"]; PUSH_NUMBER "ret"];
  mkBlock IMGUI_FUNCTION "TableSetColumnEnabled" [
    Arg INT_ARG "column_n" []; Arg BOOL_ARG "v" [];
    CALL_FUNCTION_NO_RET "TableSetColumnEnabled" ["column_n"; "v"]];
  mkBlock IMGUI_FUNCTION "TableGetHoveredColumn" [
    CALL_FUNCTION "TableGetHoveredColumn" "int" []; PUSH_NUMBER "ret"];
  mkBlock IMGUI_FUNCTION "TableSetBgColor" [
    Arg INT_ARG "target" []; Arg UINT_ARG "color" []; Arg OPTIONAL_INT_ARG "column_n" ["-1"];
    CALL_FUNCTION_NO_RET "TableSetBgColor" ["target"; "color"; "column_n"]];
  mkBlock IMGUI_FUNCTION "Columns" [
    Arg OPTIONAL_INT_ARG "count" ["1"]; Arg OPTIONAL_LABEL_ARG "id" [];
    Arg OPTIONAL_BOOL_ARG "borders" ["true"];
    CALL_FUNCTION_NO_RET "Columns" ["count"; "id"; "borders"]];
  mkBlock IMGUI_FUNCTION "NextColumn" [
    CALL_FUNCTION_NO_RET "NextColumn" []];
  mkBlock IMGUI_FUNCTION "GetColumnIndex" [
    CALL_FUNCTION "GetColumnIndex" "int" []; PUSH_NUMBER "ret"];
  mkBlock IMGUI_FUNCTION "GetColumnWidth" [
    Arg OPTIONAL_INT_ARG "column_index" ["-1"];
    CALL_FUNCTION "GetColumnWidth" "float" ["column_index"]; PUSH_NUMBER "ret"];
  mkBlock IMGUI_FUNCTION "SetColumnWidth" [
    Arg INT_ARG "column_index" []; Arg NUMBER_ARG "width" [];
    CALL_FUNCTION_NO_RET "SetColumnWidth" ["column_index"; "width"]];
  mkBlock IMGUI_FUNCTION "GetColumnOffset" [
    Arg OPTIONAL_INT_ARG "column_index" ["-1"];
    CALL_FUNCTION "GetColumnOffset" "float" ["column_index"]; PUSH_NUMBER "ret"];
  mkBlock IMGUI_FUNCTION "SetColumnOffset" [
    Arg INT_ARG "column_index" []; Arg NUMBER_ARG "offset_x" [];
    CALL_FUNCTION_NO_RET "SetColumnOffset" ["column_index"; "offset_x"]];
  mkBlock IMGUI_FUNCTION "GetColumnsCount" [
    CALL_FUNCTION "GetColumnsCount" "int" []; PUSH_NUMBER "ret"];
  mkBlock IMGUI_FUNCTION "BeginTabBar" [
    Arg LABEL_ARG "str_id" []; Arg OPTIONAL_INT_ARG "flags" ["0"];
    CALL_FUNCTION "BeginTabBar" "bool" ["str_id"; "flags"]; EndStack (IF_RET_ADD_END_STACK 15);
    PUSH_BOOL "ret"];
  mkBlock IMGUI_FUNCTION "EndTabBar" [
    CALL_FUNCTION_NO_RET "EndTabBar" []; EndStack (POP_END_STACK 15)];
  mkBlock IMGUI_FUNCTION "BeginTabItem" [
    Arg LABEL_ARG "label" []; Arg OPTIONAL_BOOL_POINTER_ARG "p_open" [];
    Arg OPTIONAL_INT_ARG "flags" ["0"];
    CALL_FUNCTION "BeginTabItem" "bool" ["label"; "p_open"; "flags"];
    EndStack (IF_RET_ADD_END_STACK 16); PUSH_BOOL "ret"; END_BOOL_POINTER "p_open"];
  mkBlock IMGUI_FUNCTION "EndTabItem" [
    CALL_FUNCTION_NO_RET "EndTabItem" []; EndStack (POP_END_STACK 16)];
  mkBlock IMGUI_FUNCTION "TabItemButton" [
    Arg LABEL_ARG "label" []; Arg OPTIONAL_INT_ARG "flags" ["0"];
    CALL_FUNCTION "TabItemButton" "bool" ["label"; "flags"]; PUSH_BOOL "ret"];
  mkBlock IMGUI_FUNCTION "SetTabItemClosed" [
    Arg LABEL_ARG "tab_or_docked_window_label" [];
    CALL_FUNCTION_NO_RET "SetTabItemClosed" ["tab_or_docked_window_label"]];
  mkBlock IMGUI_FUNCTION "LogToTTY" [
    Arg OPTIONAL_INT_ARG "auto_open_depth" ["-1"];
    CALL_FUNCTION_NO_RET "LogToTTY" ["auto_open_depth"]];
  mkBlock IMGUI_FUNCTION "LogToFile" [
    Arg OPTIONAL_INT_ARG "auto_open_depth" ["-1"]; Arg OPTIONAL_LABEL_ARG "filename" [];
    CALL_FUNCTION_NO_RET "LogToFile" ["auto_open_depth"; "filename"]];
  mkBlock IMGUI_FUNCTION "LogToClipboard" [
    Arg OPTIONAL_INT_ARG "auto_open_depth" ["-1"];
    CALL_FUNCTION_NO_RET "LogToClipboard" ["auto_open_depth"]];
  mkBlock IMGUI_FUNCTION "LogFinish" [
    CALL_FUNCTION_NO_RET "LogFinish" []];
  mkBlock IMGUI_FUNCTION "LogButtons" [
    CALL_FUNCTION_NO_RET "LogButtons" []];
  mkBlock IMGUI_FUNCTION "LogText" [
    Arg LABEL_ARG "fmt" []; CALL_FUNCTION_NO_RET "LogText" ["fmt"]];
  mkBlock IMGUI_FUNCTION "BeginDragDropSource" [
    Arg OPTIONAL_INT_ARG "flags" ["0"]; CALL_FUNCTION "BeginDragDropSource" "bool" ["flags"];
    EndStack (IF_RET_ADD_END_STACK 17); PUSH_BOOL "ret"];
  mkBlock IMGUI_FUNCTION "EndDragDropSource" [
    CALL_FUNCTION_NO_RET "EndDragDropSource" []; EndStack (POP_END_STACK 17)];
  mkBlock IMGUI_FUNCTION "BeginDragDropTarget" [
    CALL_FUNCTION "BeginDragDropTarget" "bool" []; EndStack (IF_RET_ADD_END_STACK 18);
    PUSH_BOOL "ret"];
  mkBlock IMGUI_FUNCTION "EndDragDropTarget" [
    CALL_FUNCTION_NO_RET "EndDragDropTarget" []; EndStack (POP_END_STACK 18)];
  mkBlock IMGUI_FUNCTION "BeginDisabled" [
    Arg OPTIONAL_BOOL_ARG "disabled" ["true"];
    CALL_FUNCTION_NO_RET "BeginDisabled" ["disabled"]; EndStack (ADD_END_STACK 19)];
  mkBlock IMGUI_FUNCTION "EndDisabled" [
    CALL_FUNCTION_NO_RET "EndDisabled" []; EndStack (POP_END_STACK 19)];
  mkBlock IMGUI_FUNCTION "PushClipRect" [
    Arg IM_VEC_2_ARG "clip_rect_min" []; Arg IM_VEC_2_ARG "clip_rect_max" [];
    Arg BOOL_ARG "intersect_with_current_clip_rect" [];
    CALL_FUNCTION_NO_RET "PushClipRect" ["clip_rect_min"; "clip_rect_max"; "intersect_with_current_clip_rect"]];
  mkBlock IMGUI_FUNCTION "PopClipRect" [
    CALL_FUNCTION_NO_RET "PopClipRect" []];
  mkBlock IMGUI_FUNCTION "SetItemDefaultFocus" [
    CALL_FUNCTION_NO_RET "SetItemDefaultFocus" []];
  mkBlock IMGUI_FUNCTION "SetKeyboardFocusHere" [
    Arg OPTIONAL_INT_ARG "offset" ["0"]; CALL_FUNCTION_NO_RET "SetKeyboardFocusHere" ["offset"]];
  mkBlock IMGUI_FUNCTION "SetNavCursorVisible" [
    Arg BOOL_ARG "visible" []; CALL_FUNCTION_NO_RET "SetNavCursorVisible" ["visible"]];
  mkBlock IMGUI_FUNCTION "SetNextItemAllowOverlap" [
    CALL_FUNCTION_NO_RET "SetNextItemAllowOverlap" []];
  mkBlock IMGUI_FUNCTION "IsItemHovered" [
    Arg OPTIONAL_INT_ARG "flags" ["0"]; CALL_FUNCTION "IsItemHovered" "bool" ["flags"];
    PUSH_BOOL "ret"];
  mkBlock IMGUI_FUNCTION "IsItemActive" [
    CALL_FUNCTION "IsItemActive" "bool" []; PUSH_BOOL "ret"];
  mkBlock IMGUI_FUNCTION "IsItemFocused" [
    CALL_FUNCTION "IsItemFocused" "bool" []; PUSH_BOOL "ret"];
  mkBlock IMGUI_FUNCTION "IsItemClicked" [
    Arg OPTIONAL_INT_ARG "mouse_button" ["0"];
    CALL_FUNCTION "IsItemClicked" "bool" ["mouse_button"]; PUSH_BOOL "ret"];
  mkBlock IMGUI_FUNCTION "IsItemVisible" [
    CALL_FUNCTION "IsItemVisible" "bool" []; PUSH_BOOL "ret"];
  mkBlock IMGUI_FUNCTION "IsItemEdited" [
    CALL_FUNCTION "IsItemEdited" "bool" []; PUSH_BOOL "ret"];
  mkBlock IMGUI_FUNCTION "IsItemActivated" [
    CALL_FUNCTION "IsItemActivated" "bool" []; PUSH_BOOL "ret"];
  mkBlock IMGUI_FUNCTION "IsItemDeactivated" [
    CALL_FUNCTION "IsItemDeactivated" "bool" []; PUSH_BOOL "ret"];
  mkBlock IMGUI_FUNCTION "IsItemDeactivatedAfterEdit" [
    CALL_FUNCTION "IsItemDeactivatedAfterEdit" "bool" []; PUSH_BOOL "ret"];
  mkBlock IMGUI_FUNCTION "IsItemToggledOpen" [
    CALL_FUNCTION "IsItemToggledOpen" "bool" []; PUSH_BOOL "ret"];
  mkBlock IMGUI_FUNCTION "IsAnyItemHovered" [
    CALL_FUNCTION "IsAnyItemHovered" "bool" []; PUSH_BOOL "ret"];
  mkBlock IMGUI_FUNCTION "IsAnyItemActive" [
    CALL_FUNCTION "IsAnyItemActive" "bool" []; PUSH_BOOL "ret"];
  mkBlock IMGUI_FUNCTION "IsAnyItemFocused" [
    CALL_FUNCTION "IsAnyItemFocused" "bool" []; PUSH_BOOL "ret"];
  mkBlock IMGUI_FUNCTION "GetItemID" [
    CALL_FUNCTION "GetItemID" "unsigned int" []; PUSH_NUMBER "ret"];
  mkBlock IMGUI_FUNCTION "GetItemRectMin" [
    CALL_FUNCTION "GetItemRectMin" "ImVec2" []; PUSH_NUMBER "ret.x"; PUSH_NUMBER "ret.y"];
  mkBlock IMGUI_FUNCTION "GetItemRectMax" [
    CALL_FUNCTION "GetItemRectMax" "ImVec2" []; PUSH_NUMBER "ret.x"; PUSH_NUMBER "ret.y"];
  mkBlock IMGUI_FUNCTION "GetItemRectSize" [
    CALL_FUNCTION "GetItemRectSize" "ImVec2" []; PUSH_NUMBER "ret.x"; PUSH_NUMBER "ret.y"];
  mkBlock IMGUI_FUNCTION "IsRectVisible" [
    Arg IM_VEC_2_ARG "size" []; CALL_FUNCTION "IsRectVisible" "bool" ["size"]; PUSH_BOOL "ret"];
  mkBlock IMGUI_FUNCTION "IsRectVisible_2" [
    Arg IM_VEC_2_ARG "rect_min" []; Arg IM_VEC_2_ARG "rect_max" [];
    CALL_FUNCTION "IsRectVisible" "bool" ["rect_min"; "rect_max"]; PUSH_BOOL "ret"];
  mkBlock IMGUI_FUNCTION "GetTime" [
    CALL_FUNCTION "GetTime" "double" []; PUSH_NUMBER "ret"];
  mkBlock IMGUI_FUNCTION "GetFrameCount" [
    CALL_FUNCTION "GetFrameCount" "int" []; PUSH_NUMBER "ret"];
  mkBlock IMGUI_FUNCTION "GetStyleColorName" [
    Arg INT_ARG "idx" []; CALL_FUNCTION "GetStyleColorName" "const char*" ["idx"];
    PUSH_STRING "ret"];
  mkBlock IMGUI_FUNCTION "CalcTextSize" [
    Arg LABEL_ARG "text" []; Arg OPTIONAL_LABEL_ARG "text_end" [];
    Arg OPTIONAL_BOOL_ARG "hide_text_after_double_hash" ["false"];
    Arg OPTIONAL_NUMBER_ARG "wrap_width" ["-1.0f"];
    CALL_FUNCTION "CalcTextSize" "ImVec2" ["text"; "text_end"; "hide_text_after_double_hash"; "wrap_width"];
    PUSH_NUMBER "ret.x"; PUSH_NUMBER "ret.y"];
  mkBlock IMGUI_FUNCTION "ColorConvertU32ToFloat4" [
    Arg UINT_ARG "in" []; CALL_FUNCTION "ColorConvertU32ToFloat4" "ImVec4" ["in"];
    PUSH_NUMBER "ret.x"; PUSH_NUMBER "ret.y"; PUSH_NUMBER "ret.z"; PUSH_NUMBER "ret.w"];
  mkBlock IMGUI_FUNCTION "ColorConvertFloat4ToU32" [
    Arg IM_VEC_4_ARG "in" []; CALL_FUNCTION "ColorConvertFloat4ToU32" "unsigned int" ["in"];
    PUSH_NUMBER "ret"];
  mkBlock IMGUI_FUNCTION "IsKeyDown" [
    Arg ENUM_ARG "key" ["ImGuiKey"]; CALL_FUNCTION "IsKeyDown" "bool" ["key"]; PUSH_BOOL "ret"];
  mkBlock IMGUI_FUNCTION "IsKeyPressed" [
    Arg ENUM_ARG "key" ["ImGuiKey"]; Arg OPTIONAL_BOOL_ARG "repeat" ["true"];
    CALL_FUNCTION "IsKeyPressed" "bool" ["key"; "repeat"]; PUSH_BOOL "ret"];
  mkBlock IMGUI_FUNCTION "IsKeyReleased" [
    Arg ENUM_ARG "key" ["ImGuiKey"]; CALL_FUNCTION "IsKeyReleased" "bool" ["key"];
    PUSH_BOOL "ret"];
  mkBlock IMGUI_FUNCTION "GetKeyPressedAmount" [
    Arg ENUM_ARG "key" ["ImGuiKey"]; Arg NUMBER_ARG "repeat_delay" []; Arg NUMBER_ARG "rate" [];
    CALL_FUNCTION "GetKeyPressedAmount" "int" ["key"; "repeat_delay"; "rate"]; PUSH_NUMBER "ret"];
  mkBlock IMGUI_FUNCTION "GetKeyName" [
    Arg ENUM_ARG "key" ["ImGuiKey"]; CALL_FUNCTION "GetKeyName" "const char*" ["key"];
    PUSH_STRING "ret"];
  mkBlock IMGUI_FUNCTION "SetNextFrameWantCaptureKeyboard" [
    Arg BOOL_ARG "want_capture_keyboard" [];
    CALL_FUNCTION_NO_RET "SetNextFrameWantCaptureKeyboard" ["want_capture_keyboard"]];
  mkBlock IMGUI_FUNCTION "SetItemKeyOwner" [
    Arg ENUM_ARG "key" ["ImGuiKey"]; CALL_FUNCTION_NO_RET "SetItemKeyOwner" ["key"]];
  mkBlock IMGUI_FUNCTION "IsMouseDown" [
    Arg INT_ARG "button" []; CALL_FUNCTION "IsMouseDown" "bool" ["button"]; PUSH_BOOL "ret"];
  mkBlock IMGUI_FUNCTION "IsMouseClicked" [
    Arg INT_ARG "button" []; Arg OPTIONAL_BOOL_ARG "repeat" ["false"];
    CALL_FUNCTION "IsMouseClicked" "bool" ["button"; "repeat"]; PUSH_BOOL "ret"];
  mkBlock IMGUI_FUNCTION "IsMouseReleased" [
    Arg INT_ARG "button" []; CALL_FUNCTION "IsMouseReleased" "bool" ["button"]; PUSH_BOOL "ret"];
  mkBlock IMGUI_FUNCTION "IsMouseDoubleClicked" [
    Arg INT_ARG "button" []; CALL_FUNCTION "IsMouseDoubleClicked" "bool" ["button"];
    PUSH_BOOL "ret"];
  mkBlock IMGUI_FUNCTION "IsMouseReleasedWithDelay" [
    Arg INT_ARG "button" []; Arg NUMBER_ARG "delay" [];
    CALL_FUNCTION "IsMouseReleasedWithDelay" "bool" ["button"; "delay"]; PUSH_BOOL "ret"];
  mkBlock IMGUI_FUNCTION "GetMouseClickedCount" [
    Arg INT_ARG "button" []; CALL_FUNCTION "GetMouseClickedCount" "int" ["button"];
    PUSH_NUMBER "ret"];
  mkBlock IMGUI_FUNCTION "IsMouseHoveringRect" [
    Arg IM_VEC_2_ARG "r_min" []; Arg IM_VEC_2_ARG "r_max" [];
    Arg OPTIONAL_BOOL_ARG "clip" ["true"];
    CALL_FUNCTION "IsMouseHoveringRect" "bool" ["r_min"; "r_max"; "clip"]; PUSH_BOOL "ret"];
  mkBlock IMGUI_FUNCTION "IsAnyMouseDown" [
    CALL_FUNCTION "IsAnyMouseDown" "bool" []; PUSH_BOOL "ret"];
  mkBlock IMGUI_FUNCTION "GetMousePos" [
    CALL_FUNCTION "GetMousePos" "ImVec2" []; PUSH_NUMBER "ret.x"; PUSH_NUMBER "ret.y"];
  mkBlock IMGUI_FUNCTION "GetMousePosOnOpeningCurrentPopup" [
    CALL_FUNCTION "GetMousePosOnOpeningCurrentPopup" "ImVec2" []; PUSH_NUMBER "ret.x";
    PUSH_NUMBER "ret.y"];
  mkBlock IMGUI_FUNCTION "IsMouseDragging" [
    Arg INT_ARG "button" []; Arg OPTIONAL_NUMBER_ARG "lock_threshold" ["-1.0f"];
    CALL_FUNCTION "IsMouseDragging" "bool" ["button"; "lock_threshold"]; PUSH_BOOL "ret"];
  mkBlock IMGUI_FUNCTION "GetMouseDragDelta" [
    Arg OPTIONAL_INT_ARG "button" ["0"]; Arg OPTIONAL_NUMBER_ARG "lock_threshold" ["-1.0f"];
    CALL_FUNCTION "GetMouseDragDelta" "ImVec2" ["button"; "lock_threshold"];
    PUSH_NUMBER "ret.x"; PUSH_NUMBER "ret.y"];
  mkBlock IMGUI_FUNCTION "ResetMouseDragDelta" [
    Arg OPTIONAL_INT_ARG "button" ["0"]; CALL_FUNCTION_NO_RET "ResetMouseDragDelta" ["button"]];
  mkBlock IMGUI_FUNCTION "GetMouseCursor" [
    CALL_FUNCTION "GetMouseCursor" "ImGuiMouseCursor" []; PUSH_NUMBER "ret"];
  mkBlock IMGUI_FUNCTION "SetMouseCursor" [
    Arg INT_ARG "cursor_type" []; CALL_FUNCTION_NO_RET "SetMouseCursor" ["cursor_type"]];
  mkBlock IMGUI_FUNCTION "SetNextFrameWantCaptureMouse" [
    Arg BOOL_ARG "want_capture_mouse" [];
    CALL_FUNCTION_NO_RET "SetNextFrameWantCaptureMouse" ["want_capture_mouse"]];
  mkBlock IMGUI_FUNCTION "GetClipboardText" [
    CALL_FUNCTION "GetClipboardText" "const char*" []; PUSH_STRING "ret"];
  mkBlock IMGUI_FUNCTION "SetClipboardText" [
    Arg LABEL_ARG "text" []; CALL_FUNCTION_NO_RET "SetClipboardText" ["text"]];
  mkBlock IMGUI_FUNCTION "LoadIniSettingsFromDisk" [
    Arg LABEL_ARG "ini_filename" [];
    CALL_FUNCTION_NO_RET "LoadIniSettingsFromDisk" ["ini_filename"]];
  mkBlock IMGUI_FUNCTION "SaveIniSettingsToDisk" [
    Arg LABEL_ARG "ini_filename" [];
    CALL_FUNCTION_NO_RET "SaveIniSettingsToDisk" ["ini_filename"]];
  mkBlock IMGUI_FUNCTION "DebugTextEncoding" [
    Arg LABEL_ARG "text" []; CALL_FUNCTION_NO_RET "DebugTextEncoding" ["text"]];
  mkBlock IMGUI_FUNCTION "DebugFlashStyleColor" [
    Arg INT_ARG "idx" []; CALL_FUNCTION_NO_RET "DebugFlashStyleColor" ["idx"]];
  mkBlock IMGUI_FUNCTION "DebugStartItemPicker" [
    CALL_FUNCTION_NO_RET "DebugStartItemPicker" []];
  mkBlock IMGUI_FUNCTION "DebugLog" [
    Arg LABEL_ARG "fmt" []; CALL_FUNCTION_NO_RET "DebugLog" ["fmt"]];
  mkBlock IMGUI_FUNCTION_DRAW_LIST "PushClipRect" [
    Arg IM_VEC_2_ARG "clip_rect_min" []; Arg IM_VEC_2_ARG "clip_rect_max" [];
    Arg OPTIONAL_BOOL_ARG "intersect_with_current_clip_rect" ["false"];
    DRAW_LIST_CALL_FUNCTION_NO_RET "PushClipRect" ["clip_rect_min"; "clip_rect_max"; "intersect_with_current_clip_rect"]];
  mkBlock IMGUI_FUNCTION_DRAW_LIST "PushClipRectFullScreen" [
    DRAW_LIST_CALL_FUNCTION_NO_RET "PushClipRectFullScreen" []];
  mkBlock IMGUI_FUNCTION_DRAW_LIST "PopClipRect" [
    DRAW_LIST_CALL_FUNCTION_NO_RET "PopClipRect" []];
  mkBlock IMGUI_FUNCTION_DRAW_LIST "PushTextureID" [
    Arg IM_TEXTURE_ID_ARG "texture_id" [];
    DRAW_LIST_CALL_FUNCTION_NO_RET "PushTextureID" ["texture_id"]];
  mkBlock IMGUI_FUNCTION_DRAW_LIST "PopTextureID" [
    DRAW_LIST_CALL_FUNCTION_NO_RET "PopTextureID" []];
  mkBlock IMGUI_FUNCTION_DRAW_LIST "AddLine" [
    Arg IM_VEC_2_ARG "p1" []; Arg IM_VEC_2_ARG "p2" []; Arg UINT_ARG "col" [];
    Arg OPTIONAL_NUMBER_ARG "thickness" ["1.0f"];
    DRAW_LIST_CALL_FUNCTION_NO_RET "AddLine" ["p1"; "p2"; "col"; "thickness"]];
  mkBlock IMGUI_FUNCTION_DRAW_LIST "AddRectFilledMultiColor" [
    Arg IM_VEC_2_ARG "p_min" []; Arg IM_VEC_2_ARG "p_max" []; Arg UINT_ARG "col_upr_left" [];
    Arg UINT_ARG "col_upr_right" []; Arg UINT_ARG "col_bot_right" [];
    Arg UINT_ARG "col_bot_left" [];
    DRAW_LIST_CALL_FUNCTION_NO_RET "AddRectFilledMultiColor" ["p_min"; "p_max"; "col_upr_left"; "col_upr_right"; "col_bot_right"; "col_bot_left"]];
  mkBlock IMGUI_FUNCTION_DRAW_LIST "AddQuad" [
    Arg IM_VEC_2_ARG "p1" []; Arg IM_VEC_2_ARG "p2" []; Arg IM_VEC_2_ARG "p3" [];
    Arg IM_VEC_2_ARG "p4" []; Arg UINT_ARG "col" [];
    Arg OPTIONAL_NUMBER_ARG "thickness" ["1.0f"];
    DRAW_LIST_CALL_FUNCTION_NO_RET "AddQuad" ["p1"; "p2"; "p3"; "p4"; "col"; "thickness"]];
  mkBlock IMGUI_FUNCTION_DRAW_LIST "AddQuadFilled" [
    Arg IM_VEC_2_ARG "p1" []; Arg IM_VEC_2_ARG "p2" []; Arg IM_VEC_2_ARG "p3" [];
    Arg IM_VEC_2_ARG "p4" []; Arg UINT_ARG "col" [];
    DRAW_LIST_CALL_FUNCTION_NO_RET "AddQuadFilled" ["p1"; "p2"; "p3"; "p4"; "col"]];
  mkBlock IMGUI_FUNCTION_DRAW_LIST "AddTriangle" [
    Arg IM_VEC_2_ARG "p1" []; Arg IM_VEC_2_ARG "p2" []; Arg IM_VEC_2_ARG "p3" [];
    Arg UINT_ARG "col" []; Arg OPTIONAL_NUMBER_ARG "thickness" ["1.0f"];
    DRAW_LIST_CALL_FUNCTION_NO_RET "AddTriangle" ["p1"; "p2"; "p3"; "col"; "thickness"]];
  mkBlock IMGUI_FUNCTION_DRAW_LIST "AddTriangleFilled" [
    Arg IM_VEC_2_ARG "p1" []; Arg IM_VEC_2_ARG "p2" []; Arg IM_VEC_2_ARG "p3" [];
    Arg UINT_ARG "col" [];
    DRAW_LIST_CALL_FUNCTION_NO_RET "AddTriangleFilled" ["p1"; "p2"; "p3"; "col"]];
  mkBlock IMGUI_FUNCTION_DRAW_LIST "AddCircle" [
    Arg IM_VEC_2_ARG "center" []; Arg NUMBER_ARG "radius" []; Arg UINT_ARG "col" [];
    Arg OPTIONAL_INT_ARG "num_segments" ["0"]; Arg OPTIONAL_NUMBER_ARG "thickness" ["1.0f"];
    DRAW_LIST_CALL_FUNCTION_NO_RET "AddCircle" ["center"; "radius"; "col"; "num_segments"; "thickness"]];
  mkBlock IMGUI_FUNCTION_DRAW_LIST "AddCircleFilled" [
    Arg IM_VEC_2_ARG "center" []; Arg NUMBER_ARG "radius" []; Arg UINT_ARG "col" [];
    Arg OPTIONAL_INT_ARG "num_segments" ["0"];
    DRAW_LIST_CALL_FUNCTION_NO_RET "AddCircleFilled" ["center"; "radius"; "col"; "num_segments"]];
  mkBlock IMGUI_FUNCTION_DRAW_LIST "AddNgon" [
    Arg IM_VEC_2_ARG "center" []; Arg NUMBER_ARG "radius" []; Arg UINT_ARG "col" [];
    Arg INT_ARG "num_segments" []; Arg OPTIONAL_NUMBER_ARG "thickness" ["1.0f"];
    DRAW_LIST_CALL_FUNCTION_NO_RET "AddNgon" ["center"; "radius"; "col"; "num_segments"; "thickness"]];
  mkBlock IMGUI_FUNCTION_DRAW_LIST "AddNgonFilled" [
    Arg IM_VEC_2_ARG "center" []; Arg NUMBER_ARG "radius" []; Arg UINT_ARG "col" [];
    Arg INT_ARG "num_segments" [];
    DRAW_LIST_CALL_FUNCTION_NO_RET "AddNgonFilled" ["center"; "radius"; "col"; "num_segments"]];
  mkBlock IMGUI_FUNCTION_DRAW_LIST "AddEllipse" [
    Arg IM_VEC_2_ARG "center" []; Arg IM_VEC_2_ARG "radius" []; Arg UINT_ARG "col" [];
    Arg OPTIONAL_NUMBER_ARG "rot" ["0.0f"]; Arg OPTIONAL_INT_ARG "num_segments" ["0"];
    Arg OPTIONAL_NUMBER_ARG "thickness" ["1.0f"];
    DRAW_LIST_CALL_FUNCTION_NO_RET "AddEllipse" ["center"; "radius"; "col"; "rot"; "num_segments"; "thickness"]];
  mkBlock IMGUI_FUNCTION_DRAW_LIST "AddEllipseFilled" [
    Arg IM_VEC_2_ARG "center" []; Arg IM_VEC_2_ARG "radius" []; Arg UINT_ARG "col" [];
    Arg OPTIONAL_NUMBER_ARG "rot" ["0.0f"]; Arg OPTIONAL_INT_ARG "num_segments" ["0"];
    DRAW_LIST_CALL_FUNCTION_NO_RET "AddEllipseFilled" ["center"; "radius"; "col"; "rot"; "num_segments"]];
  mkBlock IMGUI_FUNCTION_DRAW_LIST "AddText" [
    Arg IM_VEC_2_ARG "pos" []; Arg UINT_ARG "col" []; Arg LABEL_ARG "text_begin" [];
    Arg OPTIONAL_LABEL_ARG "text_end" [];
    DRAW_LIST_CALL_FUNCTION_NO_RET "AddText" ["pos"; "col"; "text_begin"; "text_end"]];
  mkBlock IMGUI_FUNCTION_DRAW_LIST "AddBezierCubic" [
    Arg IM_VEC_2_ARG "p1" []; Arg IM_VEC_2_ARG "p2" []; Arg IM_VEC_2_ARG "p3" [];
    Arg IM_VEC_2_ARG "p4" []; Arg UINT_ARG "col" []; Arg NUMBER_ARG "thickness" [];
    Arg OPTIONAL_INT_ARG "num_segments" ["0"];
    DRAW_LIST_CALL_FUNCTION_NO_RET "AddBezierCubic" ["p1"; "p2"; "p3"; "p4"; "col"; "thickness"; "num_segments"]];
  mkBlock IMGUI_FUNCTION_DRAW_LIST "AddBezierQuadratic" [
    Arg IM_VEC_2_ARG "p1" []; Arg IM_VEC_2_ARG "p2" []; Arg IM_VEC_2_ARG "p3" [];
    Arg UINT_ARG "col" []; Arg NUMBER_ARG "thickness" [];
    Arg OPTIONAL_INT_ARG "num_segments" ["0"];
    DRAW_LIST_CALL_FUNCTION_NO_RET "AddBezierQuadratic" ["p1"; "p2"; "p3"; "col"; "thickness"; "num_segments"]];
  mkBlock IMGUI_FUNCTION_DRAW_LIST "AddImage" [
    Arg IM_TEXTURE_ID_ARG "user_texture_id" []; Arg IM_VEC_2_ARG "p_min" [];
    Arg IM_VEC_2_ARG "p_max" []; Arg OPTIONAL_IM_VEC_2_ARG "uv_min" ["0"; "0"];
    Arg OPTIONAL_IM_VEC_2_ARG "uv_max" ["1"; "1"]; Arg UINT_ARG "col" [];
    DRAW_LIST_CALL_FUNCTION_NO_RET "AddImage" ["user_texture_id"; "p_min"; "p_max"; "uv_min"; "uv_max"; "col"]];
  mkBlock IMGUI_FUNCTION_DRAW_LIST "AddImageQuad" [
    Arg IM_TEXTURE_ID_ARG "user_texture_id" []; Arg IM_VEC_2_ARG "p1" [];
    Arg IM_VEC_2_ARG "p2" []; Arg IM_VEC_2_ARG "p3" []; Arg IM_VEC_2_ARG "p4" [];
    Arg OPTIONAL_IM_VEC_2_ARG "uv1" ["0"; "0"]; Arg OPTIONAL_IM_VEC_2_ARG "uv2" ["1"; "0"];
    Arg OPTIONAL_IM_VEC_2_ARG "uv3" ["1"; "1"]; Arg OPTIONAL_IM_VEC_2_ARG "uv4" ["0"; "1"];
    Arg UINT_ARG "col" [];
    DRAW_LIST_CALL_FUNCTION_NO_RET "AddImageQuad" ["user_texture_id"; "p1"; "p2"; "p3"; "p4"; "uv1"; "uv2"; "uv3"; "uv4"; "col"]];
  mkBlock IMGUI_FUNCTION_DRAW_LIST "PathArcTo" [
    Arg IM_VEC_2_ARG "center" []; Arg NUMBER_ARG "radius" []; Arg NUMBER_ARG "a_min" [];
    Arg NUMBER_ARG "a_max" []; Arg OPTIONAL_INT_ARG "num_segments" ["0"];
    DRAW_LIST_CALL_FUNCTION_NO_RET "PathArcTo" ["center"; "radius"; "a_min"; "a_max"; "num_segments"]];
  mkBlock IMGUI_FUNCTION_DRAW_LIST "PathArcToFast" [
    Arg IM_VEC_2_ARG "center" []; Arg NUMBER_ARG "radius" []; Arg INT_ARG "a_min_of_12" [];
    Arg INT_ARG "a_max_of_12" [];
    DRAW_LIST_CALL_FUNCTION_NO_RET "PathArcToFast" ["center"; "radius"; "a_min_of_12"; "a_max_of_12"]];
  mkBlock IMGUI_FUNCTION_DRAW_LIST "PathEllipticalArcTo" [
    Arg IM_VEC_2_ARG "center" []; Arg IM_VEC_2_ARG "radius" []; Arg NUMBER_ARG "rot" [];
    Arg NUMBER_ARG "a_min" []; Arg NUMBER_ARG "a_max" [];
    Arg OPTIONAL_INT_ARG "num_segments" ["0"];
    DRAW_LIST_CALL_FUNCTION_NO_RET "PathEllipticalArcTo" ["center"; "radius"; "rot"; "a_min"; "a_max"; "num_segments"]];
  mkBlock IMGUI_FUNCTION_DRAW_LIST "PathBezierCubicCurveTo" [
    Arg IM_VEC_2_ARG "p2" []; Arg IM_VEC_2_ARG "p3" []; Arg IM_VEC_2_ARG "p4" [];
    Arg OPTIONAL_INT_ARG "num_segments" ["0"];
    DRAW_LIST_CALL_FUNCTION_NO_RET "PathBezierCubicCurveTo" ["p2"; "p3"; "p4"; "num_segments"]];
  mkBlock IMGUI_FUNCTION_DRAW_LIST "PathBezierQuadraticCurveTo" [
    Arg IM_VEC_2_ARG "p2" []; Arg IM_VEC_2_ARG "p3" [];
    Arg OPTIONAL_INT_ARG "num_segments" ["0"];
    DRAW_LIST_CALL_FUNCTION_NO_RET "PathBezierQuadraticCurveTo" ["p2"; "p3"; "num_segments"]];
  mkBlock IMGUI_FUNCTION_DRAW_LIST "AddDrawCmd" [
    DRAW_LIST_CALL_FUNCTION_NO_RET "AddDrawCmd" []];
  mkBlock IMGUI_FUNCTION_DRAW_LIST "PrimReserve" [
    Arg INT_ARG "idx_count" []; Arg INT_ARG "vtx_count" [];
    DRAW_LIST_CALL_FUNCTION_NO_RET "PrimReserve" ["idx_count"; "vtx_count"]];
  mkBlock IMGUI_FUNCTION_DRAW_LIST "PrimUnreserve" [
    Arg INT_ARG "idx_count" []; Arg INT_ARG "vtx_count" [];
    DRAW_LIST_CALL_FUNCTION_NO_RET "PrimUnreserve" ["idx_count"; "vtx_count"]];
  mkBlock IMGUI_FUNCTION_DRAW_LIST "PrimRect" [
    Arg IM_VEC_2_ARG "a" []; Arg IM_VEC_2_ARG "b" []; Arg UINT_ARG "col" [];
    DRAW_LIST_CALL_FUNCTION_NO_RET "PrimRect" ["a"; "b"; "col"]];
  mkBlock IMGUI_FUNCTION_DRAW_LIST "PrimRectUV" [
    Arg IM_VEC_2_ARG "a" []; Arg IM_VEC_2_ARG "b" []; Arg IM_VEC_2_ARG "uv_a" [];
    Arg IM_VEC_2_ARG "uv_b" []; Arg UINT_ARG "col" [];
    DRAW_LIST_CALL_FUNCTION_NO_RET "PrimRectUV" ["a"; "b"; "uv_a"; "uv_b"; "col"]];
  mkBlock IMGUI_FUNCTION_DRAW_LIST "PrimQuadUV" [
    Arg IM_VEC_2_ARG "a" []; Arg IM_VEC_2_ARG "b" []; Arg IM_VEC_2_ARG "c" [];
    Arg IM_VEC_2_ARG "d" []; Arg IM_VEC_2_ARG "uv_a" []; Arg IM_VEC_2_ARG "uv_b" [];
    Arg IM_VEC_2_ARG "uv_c" []; Arg IM_VEC_2_ARG "uv_d" []; Arg UINT_ARG "col" [];
    DRAW_LIST_CALL_FUNCTION_NO_RET "PrimQuadUV" ["a"; "b"; "c"; "d"; "uv_a"; "uv_b"; "uv_c"; "uv_d"; "col"]];
  mkBlock IMGUI_FUNCTION_DRAW_LIST "_ResetForNewFrame" [
    DRAW_LIST_CALL_FUNCTION_NO_RET "_ResetForNewFrame" []];
  mkBlock IMGUI_FUNCTION_DRAW_LIST "_ClearFreeMemory" [
    DRAW_LIST_CALL_FUNCTION_NO_RET "_ClearFreeMemory" []];
  mkBlock IMGUI_FUNCTION_DRAW_LIST "_PopUnusedDrawCmd" [
    DRAW_LIST_CALL_FUNCTION_NO_RET "_PopUnusedDrawCmd" []];
  mkBlock IMGUI_FUNCTION_DRAW_LIST "_TryMergeDrawCmds" [
    DRAW_LIST_CALL_FUNCTION_NO_RET "_TryMergeDrawCmds" []];
  mkBlock IMGUI_FUNCTION_DRAW_LIST "_OnChangedClipRect" [
    DRAW_LIST_CALL_FUNCTION_NO_RET "_OnChangedClipRect" []];
  mkBlock IMGUI_FUNCTION_DRAW_LIST "_OnChangedTextureID" [
    DRAW_LIST_CALL_FUNCTION_NO_RET "_OnChangedTextureID" []];
  mkBlock IMGUI_FUNCTION_DRAW_LIST "_OnChangedVtxOffset" [
    DRAW_LIST_CALL_FUNCTION_NO_RET "_OnChangedVtxOffset" []];
  mkBlock IMGUI_FUNCTION_DRAW_LIST "_SetTextureID" [
    Arg IM_TEXTURE_ID_ARG "texture_id" [];
    DRAW_LIST_CALL_FUNCTION_NO_RET "_SetTextureID" ["texture_id"]];
  mkBlock IMGUI_FUNCTION_DRAW_LIST "_PathArcToFastEx" [
    Arg IM_VEC_2_ARG "center" []; Arg NUMBER_ARG "radius" []; Arg INT_ARG "a_min_sample" [];
    Arg INT_ARG "a_max_sample" []; Arg INT_ARG "a_step" [];
    DRAW_LIST_CALL_FUNCTION_NO_RET "_PathArcToFastEx" ["center"; "radius"; "a_min_sample"; "a_max_sample"; "a_step"]];
  mkBlock IMGUI_FUNCTION_DRAW_LIST "_PathArcToN" [
    Arg IM_VEC_2_ARG "center" []; Arg NUMBER_ARG "radius" []; Arg NUMBER_ARG "a_min" [];
    Arg NUMBER_ARG "a_max" []; Arg INT_ARG "num_segments" [];
    DRAW_LIST_CALL_FUNCTION_NO_RET "_PathArcToN" ["center"; "radius"; "a_min"; "a_max"; "num_segments"]]
].

(** *** Reading a block *)

Fixpoint leadingArgs (ls : list Line) : list (ArgMacro * string) * list Line :=
  match ls with
  | Arg m n _ :: rest =>
      let '(args, after) := leadingArgs rest in ((m, n) :: args, after)
  | _ => ([], ls)
  end.

Record NativeCall := mkNativeCall {
  onDrawList : bool;
  native : string;
  returnType : option string;
  passed : list string
}.

Definition asCall (l : Line) : option NativeCall :=
  match l with
  | CALL_FUNCTION f t args => Some (mkNativeCall false f (Some t) args)
  | CALL_FUNCTION_NO_RET f args => Some (mkNativeCall false f None args)
  | DRAW_LIST_CALL_FUNCTION_NO_RET f args => Some (mkNativeCall true f None args)
  | _ => None
  end.

Definition isPush (l : Line) : bool :=
  match l with
  | PUSH_BOOL _ | PUSH_NUMBER _ | PUSH_STRING _ => true
  | _ => false
  end.

Definition isWriteBack (l : Line) : bool :=
  match l with
  | END_BOOL_POINTER _ | END_INT_POINTER _ | END_FLOAT_POINTER _
  | END_UINT_POINTER _ => true
  | _ => false
  end.

(** The longest prefix of lines of one kind, and the rest. *)
Fixpoint leading (p : Line -> bool) (ls : list Line) : list Line * list Line :=
  match ls with
  | l :: rest =>
      if p l then let '(front, after) := leading p rest in (l :: front, after)
      else ([], ls)
  | [] => ([], [])
  end.

(** A block read in the order its lines are written: the arguments, the
    native call, the end-stack annotation if there is one, the pushes of
    the result, the write-backs.  A block written in another order, or
    with two calls, does not read. *)
Record Shape := mkShape {
  declared : list (ArgMacro * string);
  call : NativeCall;
  annotation : option EndStackMacro;
  pushes : list Line;
  writeBacks : list Line
}.

Definition shape (b : Block) : option Shape :=
  let '(args, rest) := leadingArgs (body b) in
  match rest with
  | c :: rest1 =>
      match asCall c with
      | Some nc =>
          let '(ann, rest2) :=
            match rest1 with
            | EndStack m :: r => (Some m, r)
            | _ => (None, rest1)
            end in
          let '(ps, rest3) := leading isPush rest2 in
          let '(ws, rest4) := leading isWriteBack rest3 in
          match rest4 with
          | [] => Some (mkShape args nc ann ps ws)
          | _ => None
          end
      | None => None
      end
  | [] => None
  end.

(** The block of [Begin] and how it reads, for examples. *)
Definition beginBlock : Block :=
  mkBlock IMGUI_FUNCTION "Begin" [
    Arg LABEL_ARG "name" []; Arg OPTIONAL_BOOL_POINTER_ARG "p_open" [];
    Arg OPTIONAL_INT_ARG "flags" ["0"];
    CALL_FUNCTION "Begin" "bool" ["name"; "p_open"; "flags"]; EndStack (IF_RET_ADD_END_STACK 1);
    PUSH_BOOL "ret"; END_BOOL_POINTER "p_open"].

Definition beginShape : Shape :=
  mkShape
    [(LABEL_ARG, "name"); (OPTIONAL_BOOL_POINTER_ARG, "p_open");
     (OPTIONAL_INT_ARG, "flags")]
    (mkNativeCall false "Begin" (Some "bool") ["name"; "p_open"; "flags"])
    (Some (IF_RET_ADD_END_STACK 1)) [PUSH_BOOL "ret"] [END_BOOL_POINTER "p_open"].

(** What the table of [ImGui.bindings] keeps of a block. *)
Definition toBinding (b : Block) : option Binding :=
  (fun s => mkBinding (opening b) (blockName b) (native (call s))
              (returnType (call s)) (annotation s)) <$> shape b.

(** The write-back that belongs to an output argument. *)
Definition writeBackFor (a : ArgMacro * string) : option Line :=
  match fst a with
  | BOOL_POINTER_ARG | OPTIONAL_BOOL_POINTER_ARG => Some (END_BOOL_POINTER (snd a))
  | INT_POINTER_ARG => Some (END_INT_POINTER (snd a))
  | FLOAT_POINTER_ARG => Some (END_FLOAT_POINTER (snd a))
  | UINT_POINTER_ARG => Some (END_UINT_POINTER (snd a))
  | _ => None
  end.

(** The pushes that go with a return type: one boolean, one string, the
    components of a vector, one number for anything else, nothing for a
    call without result. *)
Definition pushesFor (ret : option string) : list Line :=
  match ret with
  | None => []
  | Some t =>
      if String.eqb t "bool" then [PUSH_BOOL "ret"]
      else if String.eqb t "const char*" then [PUSH_STRING "ret"]
      else if String.eqb t "ImVec2" then [PUSH_NUMBER "ret.x"; PUSH_NUMBER "ret.y"]
      else if String.eqb t "ImVec4" then
        [PUSH_NUMBER "ret.x"; PUSH_NUMBER "ret.y"; PUSH_NUMBER "ret.z";
         PUSH_NUMBER "ret.w"]
      else [PUSH_NUMBER "ret"]
  end.

(** A block is as the file's blocks all are: read in order, the call given
    the declared arguments, the draw list used by draw-list blocks only,
    the write-backs those of the pointer arguments, the pushes those of
    the return type, a conditional push only after a [bool] call. *)
Definition wellShaped (b : Block) : bool :=
  match shape b with
  | Some s =>
      bool_decide (passed (call s) = map snd (declared s))
      && Bool.eqb (onDrawList (call s))
           (bool_decide (opening b = IMGUI_FUNCTION_DRAW_LIST))
      && bool_decide (writeBacks s = omap writeBackFor (declared s))
      && bool_decide (pushes s = pushesFor (returnType (call s)))
      && match annotation s with
         | Some (IF_RET_ADD_END_STACK _) =>
             bool_decide (returnType (call s) = Some "bool")
         | _ => true
         end
  | None => false
  end.

(** *** The enums *)

(** Every [START_ENUM(e) ... END_ENUM(e)] block: the enum's name and its
    [MAKE_ENUM(constant, name)] lines, in file order. *)
Definition enums : list (string * list (string * string)) := [
  ("WindowFlags", [
    ("ImGuiWindowFlags_None", "None"); ("ImGuiWindowFlags_NoTitleBar", "NoTitleBar");
    ("ImGuiWindowFlags_NoResize", "NoResize"); ("ImGuiWindowFlags_NoMove", "NoMove");
    ("ImGuiWindowFlags_NoScrollbar", "NoScrollbar");
    ("ImGuiWindowFlags_NoScrollWithMouse", "NoScrollWithMouse");
    ("ImGuiWindowFlags_NoCollapse", "NoCollapse");
    ("ImGuiWindowFlags_AlwaysAutoResize", "AlwaysAutoResize");
    ("ImGuiWindowFlags_NoBackground", "NoBackground");
    ("ImGuiWindowFlags_NoSavedSettings", "NoSavedSettings");
    ("ImGuiWindowFlags_NoMouseInputs", "NoMouseInputs");
    ("ImGuiWindowFlags_MenuBar", "MenuBar");
    ("ImGuiWindowFlags_HorizontalScrollbar", "HorizontalScrollbar");
    ("ImGuiWindowFlags_NoFocusOnAppearing", "NoFocusOnAppearing");
    ("ImGuiWindowFlags_NoBringToFrontOnFocus", "NoBringToFrontOnFocus");
    ("ImGuiWindowFlags_AlwaysVerticalScrollbar", "AlwaysVerticalScrollbar");
    ("ImGuiWindowFlags_AlwaysHorizontalScrollbar", "AlwaysHorizontalScrollbar");
    ("ImGuiWindowFlags_NoNavInputs", "NoNavInputs");
    ("ImGuiWindowFlags_NoNavFocus", "NoNavFocus");
    ("ImGuiWindowFlags_UnsavedDocument", "UnsavedDocument");
    ("ImGuiWindowFlags_NoNav", "NoNav"); ("ImGuiWindowFlags_NoDecoration", "NoDecoration");
    ("ImGuiWindowFlags_NoInputs", "NoInputs"); ("ImGuiWindowFlags_ChildWindow", "ChildWindow");
    ("ImGuiWindowFlags_Tooltip", "Tooltip"); ("ImGuiWindowFlags_Popup", "Popup");
    ("ImGuiWindowFlags_Modal", "Modal"); ("ImGuiWindowFlags_ChildMenu", "ChildMenu");
    ("ImGuiWindowFlags_NavFlattened", "NavFlattened");
    ("ImGuiWindowFlags_AlwaysUseWindowPadding", "AlwaysUseWindowPadding")]);
  ("ChildFlags", [
    ("ImGuiChildFlags_None", "None"); ("ImGuiChildFlags_Borders", "Borders");
    ("ImGuiChildFlags_AlwaysUseWindowPadding", "AlwaysUseWindowPadding");
    ("ImGuiChildFlags_ResizeX", "ResizeX"); ("ImGuiChildFlags_ResizeY", "ResizeY");
    ("ImGuiChildFlags_AutoResizeX", "AutoResizeX");
    ("ImGuiChildFlags_AutoResizeY", "AutoResizeY");
    ("ImGuiChildFlags_AlwaysAutoResize", "AlwaysAutoResize");
    ("ImGuiChildFlags_FrameStyle", "FrameStyle");
    ("ImGuiChildFlags_NavFlattened", "NavFlattened"); ("ImGuiChildFlags_Border", "Border")]);
  ("ItemFlags", [
    ("ImGuiItemFlags_None", "None"); ("ImGuiItemFlags_NoTabStop", "NoTabStop");
    ("ImGuiItemFlags_NoNav", "NoNav");
    ("ImGuiItemFlags_NoNavDefaultFocus", "NoNavDefaultFocus");
    ("ImGuiItemFlags_ButtonRepeat", "ButtonRepeat");
    ("ImGuiItemFlags_AutoClosePopups", "AutoClosePopups");
    ("ImGuiItemFlags_AllowDuplicateId", "AllowDuplicateId")]);
  ("InputTextFlags", [
    ("ImGuiInputTextFlags_None", "None"); ("ImGuiInputTextFlags_CharsDecimal", "CharsDecimal");
    ("ImGuiInputTextFlags_CharsHexadecimal", "CharsHexadecimal");
    ("ImGuiInputTextFlags_CharsScientific", "CharsScientific");
    ("ImGuiInputTextFlags_CharsUppercase", "CharsUppercase");
    ("ImGuiInputTextFlags_CharsNoBlank", "CharsNoBlank");
    ("ImGuiInputTextFlags_AllowTabInput", "AllowTabInput");
    ("ImGuiInputTextFlags_EnterReturnsTrue", "EnterReturnsTrue");
    ("ImGuiInputTextFlags_EscapeClearsAll", "EscapeClearsAll");
    ("ImGuiInputTextFlags_CtrlEnterForNewLine", "CtrlEnterForNewLine");
    ("ImGuiInputTextFlags_ReadOnly", "ReadOnly"); ("ImGuiInputTextFlags_Password", "Password");
    ("ImGuiInputTextFlags_AlwaysOverwrite", "AlwaysOverwrite");
    ("ImGuiInputTextFlags_AutoSelectAll", "AutoSelectAll");
    ("ImGuiInputTextFlags_ParseEmptyRefVal", "ParseEmptyRefVal");
    ("ImGuiInputTextFlags_DisplayEmptyRefVal", "DisplayEmptyRefVal");
    ("ImGuiInputTextFlags_NoHorizontalScroll", "NoHorizontalScroll");
    ("ImGuiInputTextFlags_NoUndoRedo", "NoUndoRedo");
    ("ImGuiInputTextFlags_ElideLeft", "ElideLeft");
    ("ImGuiInputTextFlags_CallbackCompletion", "CallbackCompletion");
    ("ImGuiInputTextFlags_CallbackHistory", "CallbackHistory");
    ("ImGuiInputTextFlags_CallbackAlways", "CallbackAlways");
    ("ImGuiInputTextFlags_CallbackCharFilter", "CallbackCharFilter");
    ("ImGuiInputTextFlags_CallbackResize", "CallbackResize");
    ("ImGuiInputTextFlags_CallbackEdit", "CallbackEdit")]);
  ("TreeNodeFlags", [
    ("ImGuiTreeNodeFlags_None", "None"); ("ImGuiTreeNodeFlags_Selected", "Selected");
    ("ImGuiTreeNodeFlags_Framed", "Framed");
    ("ImGuiTreeNodeFlags_AllowOverlap", "AllowOverlap");
    ("ImGuiTreeNodeFlags_NoTreePushOnOpen", "NoTreePushOnOpen");
    ("ImGuiTreeNodeFlags_NoAutoOpenOnLog", "NoAutoOpenOnLog");
    ("ImGuiTreeNodeFlags_DefaultOpen", "DefaultOpen");
    ("ImGuiTreeNodeFlags_OpenOnDoubleClick", "OpenOnDoubleClick");
    ("ImGuiTreeNodeFlags_OpenOnArrow", "OpenOnArrow"); ("ImGuiTreeNodeFlags_Leaf", "Leaf");
    ("ImGuiTreeNodeFlags_Bullet", "Bullet");
    ("ImGuiTreeNodeFlags_FramePadding", "FramePadding");
    ("ImGuiTreeNodeFlags_SpanAvailWidth", "SpanAvailWidth");
    ("ImGuiTreeNodeFlags_SpanFullWidth", "SpanFullWidth");
    ("ImGuiTreeNodeFlags_SpanLabelWidth", "SpanLabelWidth");
    ("ImGuiTreeNodeFlags_SpanAllColumns", "SpanAllColumns");
    ("ImGuiTreeNodeFlags_LabelSpanAllColumns", "LabelSpanAllColumns");
    ("ImGuiTreeNodeFlags_NavLeftJumpsBackHere", "NavLeftJumpsBackHere");
    ("ImGuiTreeNodeFlags_CollapsingHeader", "CollapsingHeader");
    ("ImGuiTreeNodeFlags_AllowItemOverlap", "AllowItemOverlap");
    ("ImGuiTreeNodeFlags_SpanTextWidth", "SpanTextWidth")]);
  ("PopupFlags", [
    ("ImGuiPopupFlags_None", "None"); ("ImGuiPopupFlags_MouseButtonLeft", "MouseButtonLeft");
    ("ImGuiPopupFlags_MouseButtonRight", "MouseButtonRight");
    ("ImGuiPopupFlags_MouseButtonMiddle", "MouseButtonMiddle");
    ("ImGuiPopupFlags_NoReopen", "NoReopen");
    ("ImGuiPopupFlags_NoOpenOverExistingPopup", "NoOpenOverExistingPopup");
    ("ImGuiPopupFlags_NoOpenOverItems", "NoOpenOverItems");
    ("ImGuiPopupFlags_AnyPopupId", "AnyPopupId");
    ("ImGuiPopupFlags_AnyPopupLevel", "AnyPopupLevel"); ("ImGuiPopupFlags_AnyPopup", "AnyPopup")]);
  ("SelectableFlags", [
    ("ImGuiSelectableFlags_None", "None");
    ("ImGuiSelectableFlags_NoAutoClosePopups", "NoAutoClosePopups");
    ("ImGuiSelectableFlags_SpanAllColumns", "SpanAllColumns");
    ("ImGuiSelectableFlags_AllowDoubleClick", "AllowDoubleClick");
    ("ImGuiSelectableFlags_Disabled", "Disabled");
    ("ImGuiSelectableFlags_AllowOverlap", "AllowOverlap");
    ("ImGuiSelectableFlags_Highlight", "Highlight");
    ("ImGuiSelectableFlags_DontClosePopups", "DontClosePopups");
    ("ImGuiSelectableFlags_AllowItemOverlap", "AllowItemOverlap")]);
  ("ComboFlags", [
    ("ImGuiComboFlags_None", "None"); ("ImGuiComboFlags_PopupAlignLeft", "PopupAlignLeft");
    ("ImGuiComboFlags_HeightSmall", "HeightSmall");
    ("ImGuiComboFlags_HeightRegular", "HeightRegular");
    ("ImGuiComboFlags_HeightLarge", "HeightLarge");
    ("ImGuiComboFlags_HeightLargest", "HeightLargest");
    ("ImGuiComboFlags_NoArrowButton", "NoArrowButton");
    ("ImGuiComboFlags_NoPreview", "NoPreview");
    ("ImGuiComboFlags_WidthFitPreview", "WidthFitPreview")]);
  ("TabBarFlags", [
    ("ImGuiTabBarFlags_None", "None"); ("ImGuiTabBarFlags_Reorderable", "Reorderable");
    ("ImGuiTabBarFlags_AutoSelectNewTabs", "AutoSelectNewTabs");
    ("ImGuiTabBarFlags_TabListPopupButton", "TabListPopupButton");
    ("ImGuiTabBarFlags_NoCloseWithMiddleMouseButton", "NoCloseWithMiddleMouseButton");
    ("ImGuiTabBarFlags_NoTabListScrollingButtons", "NoTabListScrollingButtons");
    ("ImGuiTabBarFlags_NoTooltip", "NoTooltip");
    ("ImGuiTabBarFlags_DrawSelectedOverline", "DrawSelectedOverline");
    ("ImGuiTabBarFlags_FittingPolicyResizeDown", "FittingPolicyResizeDown");
    ("ImGuiTabBarFlags_FittingPolicyScroll", "FittingPolicyScroll")]);
  ("TabItemFlags", [
    ("ImGuiTabItemFlags_None", "None");
    ("ImGuiTabItemFlags_UnsavedDocument", "UnsavedDocument");
    ("ImGuiTabItemFlags_SetSelected", "SetSelected");
    ("ImGuiTabItemFlags_NoCloseWithMiddleMouseButton", "NoCloseWithMiddleMouseButton");
    ("ImGuiTabItemFlags_NoPushId", "NoPushId"); ("ImGuiTabItemFlags_NoTooltip", "NoTooltip");
    ("ImGuiTabItemFlags_NoReorder", "NoReorder"); ("ImGuiTabItemFlags_Leading", "Leading");
    ("ImGuiTabItemFlags_Trailing", "Trailing");
    ("ImGuiTabItemFlags_NoAssumedClosure", "NoAssumedClosure")]);
  ("FocusedFlags", [
    ("ImGuiFocusedFlags_None", "None"); ("ImGuiFocusedFlags_ChildWindows", "ChildWindows");
    ("ImGuiFocusedFlags_RootWindow", "RootWindow");
    ("ImGuiFocusedFlags_AnyWindow", "AnyWindow");
    ("ImGuiFocusedFlags_NoPopupHierarchy", "NoPopupHierarchy");
    ("ImGuiFocusedFlags_RootAndChildWindows", "RootAndChildWindows")]);
  ("HoveredFlags", [
    ("ImGuiHoveredFlags_None", "None"); ("ImGuiHoveredFlags_ChildWindows", "ChildWindows");
    ("ImGuiHoveredFlags_RootWindow", "RootWindow");
    ("ImGuiHoveredFlags_AnyWindow", "AnyWindow");
    ("ImGuiHoveredFlags_NoPopupHierarchy", "NoPopupHierarchy");
    ("ImGuiHoveredFlags_AllowWhenBlockedByPopup", "AllowWhenBlockedByPopup");
    ("ImGuiHoveredFlags_AllowWhenBlockedByActiveItem", "AllowWhenBlockedByActiveItem");
    ("ImGuiHoveredFlags_AllowWhenOverlappedByItem", "AllowWhenOverlappedByItem");
    ("ImGuiHoveredFlags_AllowWhenOverlappedByWindow", "AllowWhenOverlappedByWindow");
    ("ImGuiHoveredFlags_AllowWhenDisabled", "AllowWhenDisabled");
    ("ImGuiHoveredFlags_NoNavOverride", "NoNavOverride");
    ("ImGuiHoveredFlags_AllowWhenOverlapped", "AllowWhenOverlapped");
    ("ImGuiHoveredFlags_RectOnly", "RectOnly");
    ("ImGuiHoveredFlags_RootAndChildWindows", "RootAndChildWindows");
    ("ImGuiHoveredFlags_ForTooltip", "ForTooltip");
    ("ImGuiHoveredFlags_Stationary", "Stationary");
    ("ImGuiHoveredFlags_DelayNone", "DelayNone");
    ("ImGuiHoveredFlags_DelayShort", "DelayShort");
    ("ImGuiHoveredFlags_DelayNormal", "DelayNormal");
    ("ImGuiHoveredFlags_NoSharedDelay", "NoSharedDelay")]);
  ("DragDropFlags", [
    ("ImGuiDragDropFlags_None", "None");
    ("ImGuiDragDropFlags_SourceNoPreviewTooltip", "SourceNoPreviewTooltip");
    ("ImGuiDragDropFlags_SourceNoDisableHover", "SourceNoDisableHover");
    ("ImGuiDragDropFlags_SourceNoHoldToOpenOthers", "SourceNoHoldToOpenOthers");
    ("ImGuiDragDropFlags_SourceAllowNullID", "SourceAllowNullID");
    ("ImGuiDragDropFlags_SourceExtern", "SourceExtern");
    ("ImGuiDragDropFlags_PayloadAutoExpire", "PayloadAutoExpire");
    ("ImGuiDragDropFlags_PayloadNoCrossContext", "PayloadNoCrossContext");
    ("ImGuiDragDropFlags_PayloadNoCrossProcess", "PayloadNoCrossProcess");
    ("ImGuiDragDropFlags_AcceptBeforeDelivery", "AcceptBeforeDelivery");
    ("ImGuiDragDropFlags_AcceptNoDrawDefaultRect", "AcceptNoDrawDefaultRect");
    ("ImGuiDragDropFlags_AcceptNoPreviewTooltip", "AcceptNoPreviewTooltip");
    ("ImGuiDragDropFlags_AcceptPeekOnly", "AcceptPeekOnly");
    ("ImGuiDragDropFlags_SourceAutoExpirePayload", "SourceAutoExpirePayload")]);
  ("DataType", [
    ("ImGuiDataType_S8", "S8"); ("ImGuiDataType_U8", "U8"); ("ImGuiDataType_S16", "S16");
    ("ImGuiDataType_U16", "U16"); ("ImGuiDataType_S32", "S32"); ("ImGuiDataType_U32", "U32");
    ("ImGuiDataType_S64", "S64"); ("ImGuiDataType_U64", "U64");
    ("ImGuiDataType_Float", "Float"); ("ImGuiDataType_Double", "Double");
    ("ImGuiDataType_Bool", "Bool"); ("ImGuiDataType_String", "String");
    ("ImGuiDataType_COUNT", "COUNT")]);
  ("InputFlags", [
    ("ImGuiInputFlags_None", "None"); ("ImGuiInputFlags_Repeat", "Repeat");
    ("ImGuiInputFlags_RouteActive", "RouteActive");
    ("ImGuiInputFlags_RouteFocused", "RouteFocused");
    ("ImGuiInputFlags_RouteGlobal", "RouteGlobal");
    ("ImGuiInputFlags_RouteAlways", "RouteAlways");
    ("ImGuiInputFlags_RouteOverFocused", "RouteOverFocused");
    ("ImGuiInputFlags_RouteOverActive", "RouteOverActive");
    ("ImGuiInputFlags_RouteUnlessBgFocused", "RouteUnlessBgFocused");
    ("ImGuiInputFlags_RouteFromRootWindow", "RouteFromRootWindow");
    ("ImGuiInputFlags_Tooltip", "Tooltip")]);
  ("ConfigFlags", [
    ("ImGuiConfigFlags_None", "None");
    ("ImGuiConfigFlags_NavEnableKeyboard", "NavEnableKeyboard");
    ("ImGuiConfigFlags_NavEnableGamepad", "NavEnableGamepad");
    ("ImGuiConfigFlags_NoMouse", "NoMouse");
    ("ImGuiConfigFlags_NoMouseCursorChange", "NoMouseCursorChange");
    ("ImGuiConfigFlags_NoKeyboard", "NoKeyboard"); ("ImGuiConfigFlags_IsSRGB", "IsSRGB");
    ("ImGuiConfigFlags_IsTouchScreen", "IsTouchScreen");
    ("ImGuiConfigFlags_NavEnableSetMousePos", "NavEnableSetMousePos");
    ("ImGuiConfigFlags_NavNoCaptureKeyboard", "NavNoCaptureKeyboard")]);
  ("BackendFlags", [
    ("ImGuiBackendFlags_None", "None"); ("ImGuiBackendFlags_HasGamepad", "HasGamepad");
    ("ImGuiBackendFlags_HasMouseCursors", "HasMouseCursors");
    ("ImGuiBackendFlags_HasSetMousePos", "HasSetMousePos");
    ("ImGuiBackendFlags_RendererHasVtxOffset", "RendererHasVtxOffset")]);
  ("Col", [
    ("ImGuiCol_Text", "Text"); ("ImGuiCol_TextDisabled", "TextDisabled");
    ("ImGuiCol_WindowBg", "WindowBg"); ("ImGuiCol_ChildBg", "ChildBg");
    ("ImGuiCol_PopupBg", "PopupBg"); ("ImGuiCol_Border", "Border");
    ("ImGuiCol_BorderShadow", "BorderShadow"); ("ImGuiCol_FrameBg", "FrameBg");
    ("ImGuiCol_FrameBgHovered", "FrameBgHovered"); ("ImGuiCol_FrameBgActive", "FrameBgActive");
    ("ImGuiCol_TitleBg", "TitleBg"); ("ImGuiCol_TitleBgActive", "TitleBgActive");
    ("ImGuiCol_TitleBgCollapsed", "TitleBgCollapsed"); ("ImGuiCol_MenuBarBg", "MenuBarBg");
    ("ImGuiCol_ScrollbarBg", "ScrollbarBg"); ("ImGuiCol_ScrollbarGrab", "ScrollbarGrab");
    ("ImGuiCol_ScrollbarGrabHovered", "ScrollbarGrabHovered");
    ("ImGuiCol_ScrollbarGrabActive", "ScrollbarGrabActive");
    ("ImGuiCol_CheckMark", "CheckMark"); ("ImGuiCol_SliderGrab", "SliderGrab");
    ("ImGuiCol_SliderGrabActive", "SliderGrabActive"); ("ImGuiCol_Button", "Button");
    ("ImGuiCol_ButtonHovered", "ButtonHovered"); ("ImGuiCol_ButtonActive", "ButtonActive");
    ("ImGuiCol_Header", "Header"); ("ImGuiCol_HeaderHovered", "HeaderHovered");
    ("ImGuiCol_HeaderActive", "HeaderActive"); ("ImGuiCol_Separator", "Separator");
    ("ImGuiCol_SeparatorHovered", "SeparatorHovered");
    ("ImGuiCol_SeparatorActive", "SeparatorActive"); ("ImGuiCol_ResizeGrip", "ResizeGrip");
    ("ImGuiCol_ResizeGripHovered", "ResizeGripHovered");
    ("ImGuiCol_ResizeGripActive", "ResizeGripActive"); ("ImGuiCol_TabHovered", "TabHovered");
    ("ImGuiCol_Tab", "Tab"); ("ImGuiCol_TabSelected", "TabSelected");
    ("ImGuiCol_TabSelectedOverline", "TabSelectedOverline");
    ("ImGuiCol_TabDimmed", "TabDimmed"); ("ImGuiCol_TabDimmedSelected", "TabDimmedSelected");
    ("ImGuiCol_TabDimmedSelectedOverline", "TabDimmedSelectedOverline");
    ("ImGuiCol_PlotLines", "PlotLines"); ("ImGuiCol_PlotLinesHovered", "PlotLinesHovered");
    ("ImGuiCol_PlotHistogram", "PlotHistogram");
    ("ImGuiCol_PlotHistogramHovered", "PlotHistogramHovered");
    ("ImGuiCol_TableHeaderBg", "TableHeaderBg");
    ("ImGuiCol_TableBorderStrong", "TableBorderStrong");
    ("ImGuiCol_TableBorderLight", "TableBorderLight"); ("ImGuiCol_TableRowBg", "TableRowBg");
    ("ImGuiCol_TableRowBgAlt", "TableRowBgAlt"); ("ImGuiCol_TextLink", "TextLink");
    ("ImGuiCol_TextSelectedBg", "TextSelectedBg");
    ("ImGuiCol_DragDropTarget", "DragDropTarget"); ("ImGuiCol_NavCursor", "NavCursor");
    ("ImGuiCol_NavWindowingHighlight", "NavWindowingHighlight");
    ("ImGuiCol_NavWindowingDimBg", "NavWindowingDimBg");
    ("ImGuiCol_ModalWindowDimBg", "ModalWindowDimBg"); ("ImGuiCol_COUNT", "COUNT");
    ("ImGuiCol_TabActive", "TabActive"); ("ImGuiCol_TabUnfocused", "TabUnfocused");
    ("ImGuiCol_TabUnfocusedActive", "TabUnfocusedActive");
    ("ImGuiCol_NavHighlight", "NavHighlight")]);
  ("StyleVar", [
    ("ImGuiStyleVar_Alpha", "Alpha"); ("ImGuiStyleVar_DisabledAlpha", "DisabledAlpha");
    ("ImGuiStyleVar_WindowPadding", "WindowPadding");
    ("ImGuiStyleVar_WindowRounding", "WindowRounding");
    ("ImGuiStyleVar_WindowBorderSize", "WindowBorderSize");
    ("ImGuiStyleVar_WindowMinSize", "WindowMinSize");
    ("ImGuiStyleVar_WindowTitleAlign", "WindowTitleAlign");
    ("ImGuiStyleVar_ChildRounding", "ChildRounding");
    ("ImGuiStyleVar_ChildBorderSize", "ChildBorderSize");
    ("ImGuiStyleVar_PopupRounding", "PopupRounding");
    ("ImGuiStyleVar_PopupBorderSize", "PopupBorderSize");
    ("ImGuiStyleVar_FramePadding", "FramePadding");
    ("ImGuiStyleVar_FrameRounding", "FrameRounding");
    ("ImGuiStyleVar_FrameBorderSize", "FrameBorderSize");
    ("ImGuiStyleVar_ItemSpacing", "ItemSpacing");
    ("ImGuiStyleVar_ItemInnerSpacing", "ItemInnerSpacing");
    ("ImGuiStyleVar_IndentSpacing", "IndentSpacing");
    ("ImGuiStyleVar_CellPadding", "CellPadding");
    ("ImGuiStyleVar_ScrollbarSize", "ScrollbarSize");
    ("ImGuiStyleVar_ScrollbarRounding", "ScrollbarRounding");
    ("ImGuiStyleVar_GrabMinSize", "GrabMinSize");
    ("ImGuiStyleVar_GrabRounding", "GrabRounding");
    ("ImGuiStyleVar_ImageBorderSize", "ImageBorderSize");
    ("ImGuiStyleVar_TabRounding", "TabRounding");
    ("ImGuiStyleVar_TabBorderSize", "TabBorderSize");
    ("ImGuiStyleVar_TabBarBorderSize", "TabBarBorderSize");
    ("ImGuiStyleVar_TabBarOverlineSize", "TabBarOverlineSize");
    ("ImGuiStyleVar_TableAngledHeadersAngle", "TableAngledHeadersAngle");
    ("ImGuiStyleVar_TableAngledHeadersTextAlign", "TableAngledHeadersTextAlign");
    ("ImGuiStyleVar_ButtonTextAlign", "ButtonTextAlign");
    ("ImGuiStyleVar_SelectableTextAlign", "SelectableTextAlign");
    ("ImGuiStyleVar_SeparatorTextBorderSize", "SeparatorTextBorderSize");
    ("ImGuiStyleVar_SeparatorTextAlign", "SeparatorTextAlign");
    ("ImGuiStyleVar_SeparatorTextPadding", "SeparatorTextPadding");
    ("ImGuiStyleVar_COUNT", "COUNT")]);
  ("ButtonFlags", [
    ("ImGuiButtonFlags_None", "None"); ("ImGuiButtonFlags_MouseButtonLeft", "MouseButtonLeft");
    ("ImGuiButtonFlags_MouseButtonRight", "MouseButtonRight");
    ("ImGuiButtonFlags_MouseButtonMiddle", "MouseButtonMiddle");
    ("ImGuiButtonFlags_EnableNav", "EnableNav")]);
  ("ColorEditFlags", [
    ("ImGuiColorEditFlags_None", "None"); ("ImGuiColorEditFlags_NoAlpha", "NoAlpha");
    ("ImGuiColorEditFlags_NoPicker", "NoPicker");
    ("ImGuiColorEditFlags_NoOptions", "NoOptions");
    ("ImGuiColorEditFlags_NoSmallPreview", "NoSmallPreview");
    ("ImGuiColorEditFlags_NoInputs", "NoInputs");
    ("ImGuiColorEditFlags_NoTooltip", "NoTooltip"); ("ImGuiColorEditFlags_NoLabel", "NoLabel");
    ("ImGuiColorEditFlags_NoSidePreview", "NoSidePreview");
    ("ImGuiColorEditFlags_NoDragDrop", "NoDragDrop");
    ("ImGuiColorEditFlags_NoBorder", "NoBorder");
    ("ImGuiColorEditFlags_AlphaOpaque", "AlphaOpaque");
    ("ImGuiColorEditFlags_AlphaNoBg", "AlphaNoBg");
    ("ImGuiColorEditFlags_AlphaPreviewHalf", "AlphaPreviewHalf");
    ("ImGuiColorEditFlags_AlphaBar", "AlphaBar"); ("ImGuiColorEditFlags_HDR", "HDR");
    ("ImGuiColorEditFlags_DisplayRGB", "DisplayRGB");
    ("ImGuiColorEditFlags_DisplayHSV", "DisplayHSV");
    ("ImGuiColorEditFlags_DisplayHex", "DisplayHex"); ("ImGuiColorEditFlags_Uint8", "Uint8");
    ("ImGuiColorEditFlags_Float", "Float");
    ("ImGuiColorEditFlags_PickerHueBar", "PickerHueBar");
    ("ImGuiColorEditFlags_PickerHueWheel", "PickerHueWheel");
    ("ImGuiColorEditFlags_InputRGB", "InputRGB"); ("ImGuiColorEditFlags_InputHSV", "InputHSV");
    ("ImGuiColorEditFlags_AlphaPreview", "AlphaPreview")]);
  ("SliderFlags", [
    ("ImGuiSliderFlags_None", "None"); ("ImGuiSliderFlags_Logarithmic", "Logarithmic");
    ("ImGuiSliderFlags_NoRoundToFormat", "NoRoundToFormat");
    ("ImGuiSliderFlags_NoInput", "NoInput"); ("ImGuiSliderFlags_WrapAround", "WrapAround");
    ("ImGuiSliderFlags_ClampOnInput", "ClampOnInput");
    ("ImGuiSliderFlags_ClampZeroRange", "ClampZeroRange");
    ("ImGuiSliderFlags_NoSpeedTweaks", "NoSpeedTweaks");
    ("ImGuiSliderFlags_AlwaysClamp", "AlwaysClamp")]);
  ("MouseButton", [
    ("ImGuiMouseButton_Left", "Left"); ("ImGuiMouseButton_Right", "Right");
    ("ImGuiMouseButton_Middle", "Middle"); ("ImGuiMouseButton_COUNT", "COUNT")]);
  ("MouseCursor", [
    ("ImGuiMouseCursor_None", "None"); ("ImGuiMouseCursor_Arrow", "Arrow");
    ("ImGuiMouseCursor_TextInput", "TextInput"); ("ImGuiMouseCursor_ResizeAll", "ResizeAll");
    ("ImGuiMouseCursor_ResizeNS", "ResizeNS"); ("ImGuiMouseCursor_ResizeEW", "ResizeEW");
    ("ImGuiMouseCursor_ResizeNESW", "ResizeNESW");
    ("ImGuiMouseCursor_ResizeNWSE", "ResizeNWSE"); ("ImGuiMouseCursor_Hand", "Hand");
    ("ImGuiMouseCursor_Wait", "Wait"); ("ImGuiMouseCursor_Progress", "Progress");
    ("ImGuiMouseCursor_NotAllowed", "NotAllowed"); ("ImGuiMouseCursor_COUNT", "COUNT")]);
  ("Cond", [
    ("ImGuiCond_None", "None"); ("ImGuiCond_Always", "Always"); ("ImGuiCond_Once", "Once");
    ("ImGuiCond_FirstUseEver", "FirstUseEver"); ("ImGuiCond_Appearing", "Appearing")]);
  ("TableFlags", [
    ("ImGuiTableFlags_None", "None"); ("ImGuiTableFlags_Resizable", "Resizable");
    ("ImGuiTableFlags_Reorderable", "Reorderable"); ("ImGuiTableFlags_Hideable", "Hideable");
    ("ImGuiTableFlags_Sortable", "Sortable");
    ("ImGuiTableFlags_NoSavedSettings", "NoSavedSettings");
    ("ImGuiTableFlags_ContextMenuInBody", "ContextMenuInBody");
    ("ImGuiTableFlags_RowBg", "RowBg"); ("ImGuiTableFlags_BordersInnerH", "BordersInnerH");
    ("ImGuiTableFlags_BordersOuterH", "BordersOuterH");
    ("ImGuiTableFlags_BordersInnerV", "BordersInnerV");
    ("ImGuiTableFlags_BordersOuterV", "BordersOuterV");
    ("ImGuiTableFlags_BordersH", "BordersH"); ("ImGuiTableFlags_BordersV", "BordersV");
    ("ImGuiTableFlags_BordersInner", "BordersInner");
    ("ImGuiTableFlags_BordersOuter", "BordersOuter"); ("ImGuiTableFlags_Borders", "Borders");
    ("ImGuiTableFlags_NoBordersInBody", "NoBordersInBody");
    ("ImGuiTableFlags_NoBordersInBodyUntilResize", "NoBordersInBodyUntilResize");
    ("ImGuiTableFlags_SizingFixedFit", "SizingFixedFit");
    ("ImGuiTableFlags_SizingFixedSame", "SizingFixedSame");
    ("ImGuiTableFlags_SizingStretchProp", "SizingStretchProp");
    ("ImGuiTableFlags_SizingStretchSame", "SizingStretchSame");
    ("ImGuiTableFlags_NoHostExtendX", "NoHostExtendX");
    ("ImGuiTableFlags_NoHostExtendY", "NoHostExtendY");
    ("ImGuiTableFlags_NoKeepColumnsVisible", "NoKeepColumnsVisible");
    ("ImGuiTableFlags_PreciseWidths", "PreciseWidths"); ("ImGuiTableFlags_NoClip", "NoClip");
    ("ImGuiTableFlags_PadOuterX", "PadOuterX"); ("ImGuiTableFlags_NoPadOuterX", "NoPadOuterX");
    ("ImGuiTableFlags_NoPadInnerX", "NoPadInnerX"); ("ImGuiTableFlags_ScrollX", "ScrollX");
    ("ImGuiTableFlags_ScrollY", "ScrollY"); ("ImGuiTableFlags_SortMulti", "SortMulti");
    ("ImGuiTableFlags_SortTristate", "SortTristate");
    ("ImGuiTableFlags_HighlightHoveredColumn", "HighlightHoveredColumn")]);
  ("TableColumnFlags", [
    ("ImGuiTableColumnFlags_None", "None"); ("ImGuiTableColumnFlags_Disabled", "Disabled");
    ("ImGuiTableColumnFlags_DefaultHide", "DefaultHide");
    ("ImGuiTableColumnFlags_DefaultSort", "DefaultSort");
    ("ImGuiTableColumnFlags_WidthStretch", "WidthStretch");
    ("ImGuiTableColumnFlags_WidthFixed", "WidthFixed");
    ("ImGuiTableColumnFlags_NoResize", "NoResize");
    ("ImGuiTableColumnFlags_NoReorder", "NoReorder");
    ("ImGuiTableColumnFlags_NoHide", "NoHide"); ("ImGuiTableColumnFlags_NoClip", "NoClip");
    ("ImGuiTableColumnFlags_NoSort", "NoSort");
    ("ImGuiTableColumnFlags_NoSortAscending", "NoSortAscending");
    ("ImGuiTableColumnFlags_NoSortDescending", "NoSortDescending");
    ("ImGuiTableColumnFlags_NoHeaderLabel", "NoHeaderLabel");
    ("ImGuiTableColumnFlags_NoHeaderWidth", "NoHeaderWidth");
    ("ImGuiTableColumnFlags_PreferSortAscending", "PreferSortAscending");
    ("ImGuiTableColumnFlags_PreferSortDescending", "PreferSortDescending");
    ("ImGuiTableColumnFlags_IndentEnable", "IndentEnable");
    ("ImGuiTableColumnFlags_IndentDisable", "IndentDisable");
    ("ImGuiTableColumnFlags_AngledHeader", "AngledHeader");
    ("ImGuiTableColumnFlags_IsEnabled", "IsEnabled");
    ("ImGuiTableColumnFlags_IsVisible", "IsVisible");
    ("ImGuiTableColumnFlags_IsSorted", "IsSorted");
    ("ImGuiTableColumnFlags_IsHovered", "IsHovered")]);
  ("TableRowFlags", [
    ("ImGuiTableRowFlags_None", "None"); ("ImGuiTableRowFlags_Headers", "Headers")]);
  ("TableBgTarget", [
    ("ImGuiTableBgTarget_None", "None"); ("ImGuiTableBgTarget_RowBg0", "RowBg0");
    ("ImGuiTableBgTarget_RowBg1", "RowBg1"); ("ImGuiTableBgTarget_CellBg", "CellBg")]);
  ("MultiSelectFlags", [
    ("ImGuiMultiSelectFlags_None", "None");
    ("ImGuiMultiSelectFlags_SingleSelect", "SingleSelect");
    ("ImGuiMultiSelectFlags_NoSelectAll", "NoSelectAll");
    ("ImGuiMultiSelectFlags_NoRangeSelect", "NoRangeSelect");
    ("ImGuiMultiSelectFlags_NoAutoSelect", "NoAutoSelect");
    ("ImGuiMultiSelectFlags_NoAutoClear", "NoAutoClear");
    ("ImGuiMultiSelectFlags_NoAutoClearOnReselect", "NoAutoClearOnReselect");
    ("ImGuiMultiSelectFlags_BoxSelect1d", "BoxSelect1d");
    ("ImGuiMultiSelectFlags_BoxSelect2d", "BoxSelect2d");
    ("ImGuiMultiSelectFlags_BoxSelectNoScroll", "BoxSelectNoScroll");
    ("ImGuiMultiSelectFlags_ClearOnEscape", "ClearOnEscape");
    ("ImGuiMultiSelectFlags_ClearOnClickVoid", "ClearOnClickVoid");
    ("ImGuiMultiSelectFlags_ScopeWindow", "ScopeWindow");
    ("ImGuiMultiSelectFlags_ScopeRect", "ScopeRect");
    ("ImGuiMultiSelectFlags_SelectOnClick", "SelectOnClick");
    ("ImGuiMultiSelectFlags_SelectOnClickRelease", "SelectOnClickRelease");
    ("ImGuiMultiSelectFlags_NavWrapX", "NavWrapX")]);
  ("ViewportFlags", [
    ("ImGuiViewportFlags_None", "None");
    ("ImGuiViewportFlags_IsPlatformWindow", "IsPlatformWindow");
    ("ImGuiViewportFlags_IsPlatformMonitor", "IsPlatformMonitor");
    ("ImGuiViewportFlags_OwnedByApp", "OwnedByApp")])
].

(** The name [MAKE_ENUM] gives a constant is looked up in its enum. *)
Definition enumConstant (e n : string) : option string :=
  match find (fun x => String.eqb (fst x) e) enums with
  | Some (_, items) => fst <$> find (fun i => String.eqb (snd i) n) items
  | None => None
  end.

(** An enum whose names are pairwise different and are the constants' C
    names without the prefix. *)
Definition enumWellFormed (e : string * list (string * string)) : bool :=
  bool_decide (NoDup (map snd (snd e)))
  && forallb (fun i => String.eqb (fst i) ("ImGui" +:+ fst e +:+ "_" +:+ snd i))
       (snd e).

End Marshal.

(** ** Scripts of bound calls *)

Module Scripts.
Import ImGui.

(** The binding that pops a slot. *)
Definition closerOf (slot : nat) : option Binding :=
  find (fun b => match closes b with
                 | Some s => Nat.eqb s slot
                 | None => false
                 end) bindings.

(** The script that closes, innermost first, what a stack has open. *)
Definition closingScript (stack : list nat) : list Call :=
  omap (fun slot => (fun b => mkCall b 1 false) <$> closerOf slot) stack.

(** Whether a call pushes its slot: an unconditional opener always, a
    conditional one when the native function answered true. *)
Definition pushes (c : Call) : option nat :=
  match endStackMacro (target c) with
  | Some (ADD_END_STACK slot) => Some slot
  | Some (IF_RET_ADD_END_STACK slot) => if ret c then Some slot else None
  | _ => None
  end.

(** Scripts in which every scope that is opened is closed again, by the
    binding that pops its slot, in the order of nesting. *)
Inductive nested : list Call -> Prop :=
| nested_nil : nested []
| nested_plain (c : Call) :
    pushes c = None -> closes (target c) = None -> nested [c]
| nested_scope (o c : Call) (slot : nat) (inner : list Call) :
    pushes o = Some slot -> closes (target c) = Some slot -> nested inner ->
    nested (o :: inner ++ [c])%list
| nested_app (s1 s2 : list Call) :
    nested s1 -> nested s2 -> nested (s1 ++ s2)%list.

(** Five bindings of the table, for examples. *)
Definition bBegin : Binding :=
  fn "Begin" "Begin" (Some "bool") (Some (IF_RET_ADD_END_STACK 1)).
Definition bEnd : Binding := fn "End" "End" None (Some (POP_END_STACK 1)).
Definition bTreeNode : Binding :=
  fn "TreeNode" "TreeNode" (Some "bool") (Some (IF_RET_ADD_END_STACK 6)).
Definition bTreePop : Binding := fn "TreePop" "TreePop" None (Some (POP_END_STACK 6)).
Definition bBullet : Binding := fn "Bullet" "Bullet" None None.

(** A slot the forced unwind has a closing function for. *)
Definition closable (slot : nat) : Prop := is_Some (closingFunction slot).

End Scripts.

(** The log line of the store's creation. *)
Definition initLine : string := "Initialized temporary asset source".

(** * Properties *)

(** ** The monad and the lazily created store *)

Ltac unfold_M :=
  unfold mbind, mret, M_mbind, M_mret, M_bind, M_ret, throw, try_catch,
    modify, inspect, Logger_info, addRuntimeSource, make_shared, release in *.

Lemma getTemporaryAssetSource_eq (w : World) :
  getTemporaryAssetSource w = (Returned (tempSource (ensured w)), ensured w).
Proof.
  unfold getTemporaryAssetSource, ensured. unfold_M.
  destruct (initialized w) eqn:E; reflexivity.
Qed.

Lemma wf_initialWorld : wf initialWorld.
Proof.
  split; simpl; [discriminate|].
  intros a [s Hs]. rewrite lookup_empty in Hs. discriminate.
Qed.

Lemma wf_ensured (w : World) : wf w -> wf (ensured w).
Proof.
  intros Hwf. unfold ensured.
  destruct (initialized w) eqn:E; [exact Hwf|].
  destruct Hwf as [_ Hfresh]. split; simpl.
  - intros _. exists (nextAddress w). split; [reflexivity|].
    rewrite lookup_insert_eq. eauto.
  - intros a Ha. destruct (decide (nextAddress w = a)) as [->|Hne]; [lia|].
    rewrite lookup_insert_ne in Ha by assumption.
    specialize (Hfresh a Ha). lia.
Qed.

Lemma ensured_initialized (w : World) : initialized (ensured w) = true.
Proof. unfold ensured. destruct (initialized w) eqn:E; [exact E|reflexivity]. Qed.

Lemma ensured_live (w : World) :
  wf w ->
  exists a s, tempSource (ensured w) = Some a /\
              heap (ensured w) !! a = Some s /\
              files s = contentStore w.
Proof.
  intros [Hstatic _]. unfold ensured, contentStore.
  case_eq (initialized w); intros E.
  - destruct (Hstatic E) as (a & Ha & s & Hs).
    exists a, s. rewrite Ha, Hs. auto.
  - simpl. eexists _, _. split; [reflexivity|].
    rewrite lookup_insert_eq. split; reflexivity.
Qed.

Lemma contentStore_ensured (w : World) :
  wf w -> contentStore (ensured w) = contentStore w.
Proof.
  intros Hwf. destruct (ensured_live w Hwf) as (a & s & Ha & Hs & Hfiles).
  unfold contentStore at 1. rewrite ensured_initialized, Ha, Hs. exact Hfiles.
Qed.

(** Log lines and mount points are not part of what [wf] and
    [contentStore] look at. *)
Lemma wf_withLog (msg : string) (w : World) : wf (withLog msg w) <-> wf w.
Proof. reflexivity. Qed.

Lemma wf_withRuntimeSource (mp : string) (p : MemoryAssetSourcePtr) (w : World) :
  wf (withRuntimeSource mp p w) <-> wf w.
Proof. reflexivity. Qed.

Lemma contentStore_withLog (msg : string) (w : World) :
  contentStore (withLog msg w) = contentStore w.
Proof. reflexivity. Qed.

Lemma contentStore_withRuntimeSource (mp : string) (p : MemoryAssetSourcePtr)
    (w : World) :
  contentStore (withRuntimeSource mp p w) = contentStore w.
Proof. reflexivity. Qed.

(** [tempSource->set(path, f)] on the ensured world. *)
Lemma set_ensured (path : string) (f : AssetFile) (w : World) :
  wf w ->
  deref_mut (tempSource (ensured w))
    (fun s => (tt, MemoryAssetSource.set path f s)) (ensured w)
  = (Returned tt, stored path f (ensured w)).
Proof.
  intros Hwf. destruct (ensured_live w Hwf) as (a & s & Ha & Hs & _).
  unfold deref_mut, stored. rewrite Ha, Hs. reflexivity.
Qed.

Lemma contentStore_stored (path : string) (f : AssetFile) (w : World) :
  wf w ->
  contentStore (stored path f (ensured w)) = <[path := f]> (contentStore w).
Proof.
  intros Hwf. destruct (ensured_live w Hwf) as (a & s & Ha & Hs & Hfiles).
  unfold stored. rewrite Ha, Hs. unfold contentStore at 1. simpl.
  rewrite ensured_initialized, lookup_insert_eq. simpl.
  now rewrite Hfiles.
Qed.

Lemma wf_stored (path : string) (f : AssetFile) (w : World) :
  wf w -> wf (stored path f (ensured w)).
Proof.
  intros Hwf. destruct (ensured_live w Hwf) as (a & s & Ha & Hs & _).
  destruct (wf_ensured w Hwf) as [Hstatic Hfresh].
  unfold stored. rewrite Ha, Hs. split; simpl.
  - intros _. exists a. rewrite lookup_insert_eq. eauto.
  - intros b Hb. apply Hfresh.
    destruct (decide (a = b)) as [<-|Hne]; [eauto|].
    now rewrite lookup_insert_ne in Hb.
Qed.

Lemma contentStore_created (path : string) (f : AssetFile) (msg : string)
    (w : World) :
  wf w -> contentStore (created path f msg w) = <[path := f]> (contentStore w).
Proof. intros Hwf. unfold created. now apply contentStore_stored. Qed.

Lemma wf_created (path : string) (f : AssetFile) (msg : string) (w : World) :
  wf w -> wf (created path f msg w).
Proof. intros Hwf. unfold created. now apply wf_stored. Qed.

Lemma strf_1 (s : string) : s +:+ EmptyString = s.
Proof.
  induction s as [|c s IH]; [reflexivity|].
  change (String c (s +:+ EmptyString) = String c s). now rewrite IH.
Qed.

Lemma length_utf8Bytes (s : string) : length (utf8Bytes s) = utf8Size s.
Proof.
  unfold utf8Bytes, utf8Size, list_byte_of_string.
  induction s as [|c s IH]; simpl; [reflexivity|now rewrite IH].
Qed.

(** ** The callbacks, one equation each *)

Lemma bind_eq {A B} (m : M A) (f : A -> M B) (w : World) :
  (m ≫= f) w =
  match m w with
  | (Returned a, w') => f a w'
  | (Thrown e, w') => (Thrown e, w')
  | (Undefined, w') => (Undefined, w')
  end.
Proof. reflexivity. Qed.

Ltac enter := rewrite bind_eq, getTemporaryAssetSource_eq; cbv beta iota.

Section CallbackEquations.
Context {rt : Collaborators}.

Lemma makeAssetFromBytes_eq (path bytes : string) (w : World) :
  wf w -> beginsWith path "/temp/" = true ->
  makeAssetFromBytes path bytes w =
  (Returned path,
   created path (FileBytes (utf8Bytes bytes))
     (strf "Created temporary asset: {} ({} bytes)"
        [path; pretty (String_size bytes)]) w).
Proof.
  intros Hwf Hpre. unfold makeAssetFromBytes. rewrite Hpre. cbn [negb].
  enter. rewrite bind_eq, set_ensured by assumption. reflexivity.
Qed.

Lemma hasTemporaryAsset_eq (path : string) (w : World) :
  wf w ->
  hasTemporaryAsset path w =
  (Returned (bool_decide (is_Some (contentStore w !! path))), ensured w).
Proof.
  intros Hwf. destruct (ensured_live w Hwf) as (a & s & Ha & Hs & Hfiles).
  unfold hasTemporaryAsset. enter. unfold deref. rewrite Ha, Hs.
  unfold MemoryAssetSource.contains. now rewrite Hfiles.
Qed.

Lemma getTemporaryAsset_eq (path : string) (w : World) :
  wf w ->
  getTemporaryAsset path w =
  (Returned
     match contentStore w !! path with
     | Some (FileBytes b) => Some (String_of_bytes b)
     | Some (FileImage i) => Some (String_of_bytes (Image_writePng i))
     | None => None
     end, ensured w).
Proof.
  intros Hwf. destruct (ensured_live w Hwf) as (a & s & Ha & Hs & Hfiles).
  unfold getTemporaryAsset. enter. rewrite bind_eq. unfold deref at 1.
  rewrite Ha, Hs. unfold MemoryAssetSource.contains. rewrite Hfiles.
  destruct (contentStore w !! path) as [f|] eqn:E.
  - rewrite bool_decide_eq_true_2 by eauto.
    rewrite bind_eq. unfold deref. rewrite Hs.
    unfold MemoryAssetSource_read. rewrite Hfiles, E. now destruct f.
  - rewrite bool_decide_eq_false_2; [reflexivity|].
    intros [f Hf]. discriminate.
Qed.

Lemma getTemporaryImage_eq (path : string) (w : World) :
  wf w ->
  getTemporaryImage path w =
  (Returned
     match contentStore w !! path with
     | Some (FileImage i) => Some i
     | _ => None
     end, ensured w).
Proof.
  intros Hwf. destruct (ensured_live w Hwf) as (a & s & Ha & Hs & Hfiles).
  unfold getTemporaryImage. enter. rewrite bind_eq. unfold deref.
  rewrite Ha, Hs. unfold MemoryAssetSource.image. rewrite Hfiles.
  destruct (contentStore w !! path) as [[b|i]|]; reflexivity.
Qed.


Lemma strf_asset_path (path : string) :
  strf "Temporary asset path must start with '/temp/', got: {}" [path]
  = "Temporary asset path must start with '/temp/', got: " +:+ path.
Proof. cbn [strf]. rewrite strf_1. reflexivity. Qed.

Lemma strf_image_path (path : string) :
  strf "Temporary image path must start with '/temp/', got: {}" [path]
  = "Temporary image path must start with '/temp/', got: " +:+ path.
Proof. cbn [strf]. rewrite strf_1. reflexivity. Qed.

Lemma strf_wrapped (msg : string) :
  strf "Failed to create image from bytes: {}" [msg]
  = "Failed to create image from bytes: " +:+ msg.
Proof. cbn [strf]. rewrite strf_1. reflexivity. Qed.

Lemma strf_zero_area (n : string) :
  strf "Failed to load image: resulted in 0x0 size. Data size: {} bytes" [n]
  = "Failed to load image: resulted in 0x0 size. Data size: " +:+ n +:+ " bytes".
Proof. reflexivity. Qed.

Lemma stored_withLog (path : string) (f : AssetFile) (msg : string)
    (w : World) :
  stored path f (withLog msg w) = withLog msg (stored path f w).
Proof.
  unfold stored. cbn [withLog tempSource heap].
  destruct (tempSource w) as [a|]; [|reflexivity].
  destruct (heap w !! a); reflexivity.
Qed.

Lemma makeAsset_bad_prefix (engine : LuaEngine) (path : string) (v : LuaValue)
    (w : World) :
  beginsWith path "/temp/" = false ->
  makeAsset engine path v w =
  (Thrown (StarException
             ("Temporary asset path must start with '/temp/', got: " +:+ path)), w).
Proof.
  intros Hpre. unfold makeAsset. rewrite Hpre. cbn [negb].
  now rewrite strf_asset_path.
Qed.

Lemma makeAssetFromBytes_bad_prefix (path bytes : string) (w : World) :
  beginsWith path "/temp/" = false ->
  makeAssetFromBytes path bytes w =
  (Thrown (StarException
             ("Temporary asset path must start with '/temp/', got: " +:+ path)), w).
Proof.
  intros Hpre. unfold makeAssetFromBytes. rewrite Hpre. cbn [negb].
  now rewrite strf_asset_path.
Qed.

Lemma makeImageFromBytes_bad_prefix (path bytes : string) (w : World) :
  beginsWith path "/temp/" = false ->
  makeImageFromBytes path bytes w =
  (Thrown (StarException
             ("Temporary image path must start with '/temp/', got: " +:+ path)), w).
Proof.
  intros Hpre. unfold makeImageFromBytes. rewrite Hpre. cbn [negb].
  now rewrite strf_image_path.
Qed.

Lemma makeAsset_string (engine : LuaEngine) (path : string) (v : LuaValue)
    (str : string) (w : World) :
  wf w -> beginsWith path "/temp/" = true ->
  luaMaybeTo_String engine v = Some str ->
  makeAsset engine path v w =
  (Returned path,
   created path (FileBytes (utf8Bytes str))
     (strf "Created temporary asset (bytes): {} ({} bytes)"
        [path; pretty (length (utf8Bytes str))]) w).
Proof.
  intros Hwf Hpre Hstr. unfold makeAsset. rewrite Hpre, Hstr. cbn [negb].
  enter. rewrite !bind_eq, set_ensured by assumption. reflexivity.
Qed.

Lemma makeAsset_image (engine : LuaEngine) (path : string) (v : LuaValue)
    (image : Image) (w : World) :
  wf w -> beginsWith path "/temp/" = true ->
  luaMaybeTo_String engine v = None ->
  luaMaybeTo_Image engine v = Some image ->
  makeAsset engine path v w =
  (Returned path,
   created path (FileImage image)
     (strf "Created temporary asset (image): {} ({}x{})"
        [path; pretty (width image); pretty (height image)]) w).
Proof.
  intros Hwf Hpre Hstr Himg. unfold makeAsset. rewrite Hpre, Hstr, Himg.
  cbn [negb]. enter.
  destruct (ensured_live w Hwf) as (a & s & Ha & Hs & _).
  rewrite !bind_eq. unfold created, Logger_info, modify.
  rewrite <- stored_withLog. unfold deref_mut, stored.
  change (tempSource (withLog ?m ?x)) with (tempSource x).
  change (heap (withLog ?m ?x)) with (heap x).
  rewrite Ha, Hs. reflexivity.
Qed.

Lemma makeAsset_json (engine : LuaEngine) (path : string) (v : LuaValue)
    (j : Json) (w : World) :
  wf w -> beginsWith path "/temp/" = true ->
  luaMaybeTo_String engine v = None ->
  luaMaybeTo_Image engine v = None ->
  luaMaybeTo_Json engine v = Some j ->
  makeAsset engine path v w =
  (Returned path,
   created path (FileBytes (utf8Bytes (Json_repr j)))
     (strf "Created temporary asset (JSON): {} ({} bytes)"
        [path; pretty (length (utf8Bytes (Json_repr j)))]) w).
Proof.
  intros Hwf Hpre Hstr Himg Hjson. unfold makeAsset, luaTo_Json.
  rewrite Hpre, Hstr, Himg, Hjson. cbn [negb].
  enter. rewrite !bind_eq. cbn [mret M_mret M_ret].
  rewrite bind_eq, set_ensured by assumption. reflexivity.
Qed.

Lemma makeAsset_unconvertible (engine : LuaEngine) (path : string)
    (v : LuaValue) (w : World) :
  beginsWith path "/temp/" = true ->
  luaMaybeTo_String engine v = None ->
  luaMaybeTo_Image engine v = None ->
  luaMaybeTo_Json engine v = None ->
  makeAsset engine path v w =
  (Thrown (LuaConversionException "Error converting LuaValue to type 'Json'"),
   ensured w).
Proof.
  intros Hpre Hstr Himg Hjson. unfold makeAsset, luaTo_Json.
  rewrite Hpre, Hstr, Himg, Hjson. cbn [negb]. enter. reflexivity.
Qed.


Lemma makeImageFromBytes_decode_error (path bytes : string) (e : Exception)
    (w : World) :
  beginsWith path "/temp/" = true ->
  Image_readPng (utf8Bytes bytes) = inl e ->
  makeImageFromBytes path bytes w =
  (Thrown (if isStarException e then e
           else StarException ("Failed to create image from bytes: " +:+ what e)),
   w).
Proof.
  intros Hpre Hpng. unfold makeImageFromBytes. rewrite Hpre. cbn [negb].
  unfold try_catch. rewrite bind_eq, Hpng. unfold throw.
  destruct (isStarException e); [reflexivity|now rewrite strf_wrapped].
Qed.

Lemma makeImageFromBytes_zero_area (path bytes : string) (image : Image)
    (w : World) :
  beginsWith path "/temp/" = true ->
  Image_readPng (utf8Bytes bytes) = inr image ->
  (width image =? 0)%N || (height image =? 0)%N = true ->
  makeImageFromBytes path bytes w =
  (Thrown (StarException
             ("Failed to load image: resulted in 0x0 size. Data size: "
              +:+ pretty (utf8Size bytes) +:+ " bytes")), w).
Proof.
  intros Hpre Hpng Hzero. unfold makeImageFromBytes. rewrite Hpre. cbn [negb].
  unfold try_catch. rewrite bind_eq, Hpng. cbn [mret M_mret M_ret].
  rewrite Hzero, length_utf8Bytes. reflexivity.
Qed.

Lemma makeImageFromBytes_stored (path bytes : string) (image : Image)
    (w : World) :
  wf w -> beginsWith path "/temp/" = true ->
  Image_readPng (utf8Bytes bytes) = inr image ->
  (width image =? 0)%N || (height image =? 0)%N = false ->
  makeImageFromBytes path bytes w =
  (Returned path,
   created path (FileImage image)
     (strf "Created temporary image: {} ({}x{})"
        [path; pretty (width image); pretty (height image)]) w).
Proof.
  intros Hwf Hpre Hpng Harea. unfold makeImageFromBytes. rewrite Hpre.
  cbn [negb]. unfold try_catch. rewrite bind_eq, Hpng.
  cbn [mret M_mret M_ret]. rewrite Harea. enter.
  rewrite bind_eq, set_ensured by assumption. reflexivity.
Qed.

End CallbackEquations.

(** ** [clearTemporaryAssets] leaves the store as it is *)

(** The world in which [clearTemporaryAssets] has built its new source. *)
Lemma wf_make_shared (w : World) :
  wf w -> wf (snd (make_shared "temp" tempMetadata w)).
Proof.
  intros [Hstatic Hfresh]. split; cbn.
  - intros Hinit. destruct (Hstatic Hinit) as (a & Ha & Hlive).
    exists a. split; [exact Ha|].
    rewrite lookup_insert_ne; [exact Hlive|].
    specialize (Hfresh a Hlive). lia.
  - intros a Ha. destruct (decide (nextAddress w = a)) as [->|Hne]; [lia|].
    rewrite lookup_insert_ne in Ha by assumption.
    specialize (Hfresh a Ha). lia.
Qed.

Lemma contentStore_make_shared (w : World) :
  wf w -> contentStore (snd (make_shared "temp" tempMetadata w)) = contentStore w.
Proof.
  intros [Hstatic Hfresh]. unfold contentStore. cbn.
  destruct (initialized w) eqn:E; [|reflexivity].
  destruct (Hstatic eq_refl) as (a & Ha & Hlive). rewrite Ha.
  rewrite lookup_insert_ne; [reflexivity|].
  specialize (Hfresh a Hlive). lia.
Qed.

Lemma clearTemporaryAssets_spec (w : World) :
  wf w ->
  exists w', clearTemporaryAssets w = (Returned tt, w') /\
             wf w' /\
             contentStore w' = contentStore w /\
             (initialized w = true ->
              tempSource w' = tempSource w /\
              runtimeSources w' = runtimeSources w).
Proof.
  intros Hwf.
  set (w1 := snd (make_shared "temp" tempMetadata w)).
  assert (Hwf1 : wf w1) by now apply wf_make_shared.
  assert (Hcs1 : contentStore w1 = contentStore w)
    by now apply contentStore_make_shared.
  destruct (ensured_live w1 Hwf1) as (a & s & Ha & Hs & Hfiles).
  assert (Hne : a <> nextAddress w).
  { destruct Hwf as [Hstatic Hfresh]. subst w1. revert Ha Hs.
    unfold ensured. cbn. destruct (initialized w) eqn:E; cbn.
    - intros Ha Hs. destruct (Hstatic eq_refl) as (b & Hb & Hlive).
      specialize (Hfresh b Hlive). rewrite Hb in Ha. injection Ha as <-. lia.
    - intros Ha _. injection Ha. lia. }
  exists (mkWorld (delete (nextAddress w) (heap (ensured w1)))
            (nextAddress (ensured w1)) (tempSource (ensured w1))
            (initialized (ensured w1)) (runtimeSources (ensured w1))
            ("Cleared all temporary assets" :: logged (ensured w1))).
  split; [|split; [|split]].
  - unfold clearTemporaryAssets. rewrite bind_eq.
    change (make_shared "temp" tempMetadata w)
      with (Returned (Some (nextAddress w)), w1).
    cbv beta iota. enter. reflexivity.
  - destruct (wf_ensured w1 Hwf1) as [Hstatic Hfresh].
    split; cbn [initialized tempSource heap nextAddress].
    + intros _. exists a. split; [exact Ha|].
      rewrite lookup_delete_ne by congruence. rewrite Hs. eauto.
    + intros b Hb. apply Hfresh.
      destruct (decide (nextAddress w = b)) as [<-|Hnb].
      * rewrite lookup_delete_eq in Hb. destruct Hb. discriminate.
      * now rewrite lookup_delete_ne in Hb.
  - unfold contentStore at 1. cbn [initialized tempSource heap].
    rewrite ensured_initialized, Ha, lookup_delete_ne, Hs by congruence.
    congruence.
  - intros Hinit. subst w1. unfold ensured. cbn. rewrite Hinit. cbn. auto.
Qed.

(** ** The content-store claims *)

(** C1. What the code does where the claim expects an emptied store: after
    a file was made at [/temp/x], [clearTemporaryAssets()] runs to its end
    and [hasTemporaryAsset("/temp/x")] still answers true; the file still
    reads back, and the source mounted at [/temp] is the one from before
    the call. *)
Theorem clearTemporaryAssets_keeps_assets :
  let before := snd (makeAssetFromBytes "/temp/x" "a" initialWorld) in
  let after := snd (clearTemporaryAssets before) in
  fst (clearTemporaryAssets before) = Returned tt /\
  fst (hasTemporaryAsset "/temp/x" after) = Returned true /\
  contentStore after !! "/temp/x" = Some (FileBytes (utf8Bytes "a")) /\
  tempSource after = tempSource before /\
  runtimeSources after !! "/temp" = Some (tempSource before).
Proof. vm_compute. repeat split. Qed.

Section StoreClaims.
Context {rt : Collaborators}.

(** C2, as amended.  A destination path that does not begin with [/temp/]
    makes [makeAsset], [makeAssetFromBytes] and [makeImageFromBytes] raise
    an error that names the prefix and the path, and nothing at all
    changes.  For a path that does begin with [/temp/] and a value that
    coerces to a string, to an image or to structured data, [makeAsset]
    returns and [hasTemporaryAsset] of that path then answers true. *)
Theorem makeAsset_namespace_validation (engine : LuaEngine) (path : string)
    (v : LuaValue) (bytes : string) (w : World) :
  wf w ->
  (beginsWith path "/temp/" = false ->
   makeAsset engine path v w =
     (Thrown (StarException
        ("Temporary asset path must start with '/temp/', got: " +:+ path)), w) /\
   makeAssetFromBytes path bytes w =
     (Thrown (StarException
        ("Temporary asset path must start with '/temp/', got: " +:+ path)), w) /\
   makeImageFromBytes path bytes w =
     (Thrown (StarException
        ("Temporary image path must start with '/temp/', got: " +:+ path)), w))
  /\
  (beginsWith path "/temp/" = true ->
   is_Some (luaMaybeTo_String engine v) \/
   is_Some (luaMaybeTo_Image engine v) \/
   is_Some (luaMaybeTo_Json engine v) ->
   exists w', makeAsset engine path v w = (Returned path, w') /\
   exists w'', hasTemporaryAsset path w' = (Returned true, w'')).
Proof.
  intros Hwf. split.
  - intros Hpre. split; [|split].
    + now apply makeAsset_bad_prefix.
    + now apply makeAssetFromBytes_bad_prefix.
    + now apply makeImageFromBytes_bad_prefix.
  - intros Hpre Hconv.
    assert (Hmade : exists f msg,
               makeAsset engine path v w = (Returned path, created path f msg w)).
    { destruct (luaMaybeTo_String engine v) as [str|] eqn:Hstr.
      { eexists _, _. eapply makeAsset_string; eassumption. }
      destruct (luaMaybeTo_Image engine v) as [image|] eqn:Himg.
      { eexists _, _. eapply makeAsset_image; eassumption. }
      destruct (luaMaybeTo_Json engine v) as [j|] eqn:Hjson.
      { eexists _, _. eapply makeAsset_json; eassumption. }
      destruct Hconv as [[? ?]|[[? ?]|[? ?]]]; discriminate. }
    destruct Hmade as (f & msg & Hmade).
    eexists. split; [exact Hmade|].
    eexists. rewrite hasTemporaryAsset_eq by now apply wf_created.
    rewrite contentStore_created, lookup_insert_eq by assumption.
    rewrite bool_decide_eq_true_2 by eauto. reflexivity.
Qed.

(** C3, as amended.  With a valid path, [makeAsset] probes the value in a
    fixed order and the first match decides the entry: a value that
    coerces to a string is stored as that string's bytes, whatever else it
    would convert to; otherwise one that coerces to an image is stored as
    the image; otherwise one that converts to structured data is stored as
    the bytes of its canonical text.  In these three cases the call returns
    the path.  A value that matches none makes the call raise, and the
    entries of the store stay as they were. *)
Theorem makeAsset_dispatch_order (engine : LuaEngine) (path : string)
    (v : LuaValue) (w : World) :
  wf w -> beginsWith path "/temp/" = true ->
  match luaMaybeTo_String engine v with
  | Some str =>
      exists w', makeAsset engine path v w = (Returned path, w') /\
        contentStore w' = <[path := FileBytes (utf8Bytes str)]> (contentStore w)
  | None =>
      match luaMaybeTo_Image engine v with
      | Some image =>
          exists w', makeAsset engine path v w = (Returned path, w') /\
            contentStore w' = <[path := FileImage image]> (contentStore w)
      | None =>
          match luaMaybeTo_Json engine v with
          | Some j =>
              exists w', makeAsset engine path v w = (Returned path, w') /\
                contentStore w'
                = <[path := FileBytes (utf8Bytes (Json_repr j))]> (contentStore w)
          | None =>
              exists e w', makeAsset engine path v w = (Thrown e, w') /\
                contentStore w' = contentStore w
          end
      end
  end.
Proof.
  intros Hwf Hpre.
  destruct (luaMaybeTo_String engine v) as [str|] eqn:Hstr.
  { eexists. split; [eapply makeAsset_string; eassumption|].
    now apply contentStore_created. }
  destruct (luaMaybeTo_Image engine v) as [image|] eqn:Himg.
  { eexists. split; [eapply makeAsset_image; eassumption|].
    now apply contentStore_created. }
  destruct (luaMaybeTo_Json engine v) as [j|] eqn:Hjson.
  { eexists. split; [eapply makeAsset_json; eassumption|].
    now apply contentStore_created. }
  eexists _, _. split; [now apply makeAsset_unconvertible|].
  now apply contentStore_ensured.
Qed.


Lemma zero_area_message_distinct (n : string) (e : Exception) :
  "Failed to load image: resulted in 0x0 size. Data size: " +:+ n +:+ " bytes"
  <> "Failed to create image from bytes: " +:+ what e.
Proof.
  intros Heq. cbv [String.append] in Heq. discriminate Heq.
Qed.

(** C5.  With a valid path, when the decoder yields an image of zero width
    or zero height, [makeImageFromBytes] raises its own error, which
    carries the number of input bytes and is not the wrapping of a decoder
    exception, and nothing changes in the store; when the image has an
    area, it is stored at the path and the path is returned.  (A decoder
    exception is passed on, or wrapped if it is not a [StarException].) *)
Theorem makeImageFromBytes_checks_area (path bytes : string) (w : World) :
  wf w -> beginsWith path "/temp/" = true ->
  match Image_readPng (utf8Bytes bytes) with
  | inr image =>
      if (width image =? 0)%N || (height image =? 0)%N then
        makeImageFromBytes path bytes w =
          (Thrown (StarException
             ("Failed to load image: resulted in 0x0 size. Data size: "
              +:+ pretty (utf8Size bytes) +:+ " bytes")), w) /\
        (forall e,
           "Failed to load image: resulted in 0x0 size. Data size: "
           +:+ pretty (utf8Size bytes) +:+ " bytes"
           <> "Failed to create image from bytes: " +:+ what e)
      else
        exists w', makeImageFromBytes path bytes w = (Returned path, w') /\
          contentStore w' = <[path := FileImage image]> (contentStore w)
  | inl e =>
      makeImageFromBytes path bytes w =
        (Thrown (if isStarException e then e
                 else StarException
                        ("Failed to create image from bytes: " +:+ what e)), w)
  end.
Proof.
  intros Hwf Hpre.
  destruct (Image_readPng (utf8Bytes bytes)) as [e|image] eqn:Hpng.
  - now apply makeImageFromBytes_decode_error.
  - destruct ((width image =? 0)%N || (height image =? 0)%N) eqn:Harea.
    + split; [now apply makeImageFromBytes_zero_area with image|].
      intros e. apply zero_area_message_distinct.
    + eexists. split; [eapply makeImageFromBytes_stored; eassumption|].
      now apply contentStore_created.
Qed.

(** C10.  For a path beginning with [/temp/] and any string [s],
    [makeAssetFromBytes(path, s)] returns, and [getTemporaryAsset(path)]
    then returns a present value equal to [s]. *)
Theorem makeAssetFromBytes_roundtrip (path s : string) (w : World) :
  wf w -> beginsWith path "/temp/" = true ->
  exists w', makeAssetFromBytes path s w = (Returned path, w') /\
  exists w'', getTemporaryAsset path w' = (Returned (Some s), w'').
Proof.
  intros Hwf Hpre. eexists. split; [eapply makeAssetFromBytes_eq; eassumption|].
  eexists. rewrite getTemporaryAsset_eq by now apply wf_created.
  rewrite contentStore_created, lookup_insert_eq by assumption.
  unfold String_of_bytes, utf8Bytes.
  now rewrite string_of_list_byte_of_string.
Qed.

End StoreClaims.

(** Witnesses and counterexamples for the content-store claims, on the
    sample runtime. *)

Lemma makeAsset_namespace_validation_witness :
  wf initialWorld /\ beginsWith "/temp/x" "/temp/" = true /\
  exists w', makeAsset Sample.engine "/temp/x" (Sample.LuaInt 3) initialWorld
             = (Returned "/temp/x", w') /\
  exists w'', hasTemporaryAsset "/temp/x" w' = (Returned true, w'').
Proof.
  split; [exact wf_initialWorld|]. split; [reflexivity|].
  apply (proj2 (makeAsset_namespace_validation Sample.engine "/temp/x"
                  (Sample.LuaInt 3) "bytes" initialWorld wf_initialWorld)).
  - reflexivity.
  - right. right. eexists. reflexivity.
Defined.

(** C2 as it stands fails: the path begins with [/temp/], yet [makeAsset]
    of a function value raises, and [hasTemporaryAsset] then answers
    false. *)
Lemma makeAsset_valid_path_may_raise :
  beginsWith "/temp/x" "/temp/" = true /\
  fst (makeAsset Sample.engine "/temp/x" (Sample.LuaFunction 0) initialWorld)
  = Thrown (LuaConversionException "Error converting LuaValue to type 'Json'") /\
  fst (hasTemporaryAsset "/temp/x"
         (snd (makeAsset Sample.engine "/temp/x" (Sample.LuaFunction 0)
                 initialWorld)))
  = Returned false.
Proof. vm_compute. repeat split. Qed.

Lemma makeAsset_dispatch_order_witness :
  exists w', makeAsset Sample.engine "/temp/s" (Sample.LuaString "abc") initialWorld
             = (Returned "/temp/s", w') /\
    contentStore w' = <["/temp/s" := FileBytes (utf8Bytes "abc")]> (contentStore initialWorld).
Proof.
  exact (makeAsset_dispatch_order Sample.engine "/temp/s" (Sample.LuaString "abc")
           initialWorld wf_initialWorld eq_refl).
Defined.

(** C3 as it stands fails: a function value matches none of the three
    candidates; the call does not return the path and stores no entry. *)
Lemma makeAsset_unmatched_value_raises :
  luaMaybeTo_String Sample.engine (Sample.LuaFunction 1) = None /\
  luaMaybeTo_Image Sample.engine (Sample.LuaFunction 1) = None /\
  fst (makeAsset Sample.engine "/temp/f" (Sample.LuaFunction 1) initialWorld)
  <> Returned "/temp/f" /\
  contentStore (snd (makeAsset Sample.engine "/temp/f" (Sample.LuaFunction 1)
                       initialWorld)) !! "/temp/f" = None.
Proof.
  split; [reflexivity|]. split; [reflexivity|]. split.
  - vm_compute. discriminate.
  - vm_compute. reflexivity.
Qed.


Lemma makeImageFromBytes_checks_area_witness :
  exists w', makeImageFromBytes (rt := Sample.runtime) "/temp/i" "abc" initialWorld = (Returned "/temp/i", w') /\
    contentStore w' = <["/temp/i" := FileImage (mkImage 97 98 ["c"%byte])]>
                        (contentStore initialWorld).
Proof.
  exact (makeImageFromBytes_checks_area (rt := Sample.runtime) "/temp/i" "abc" initialWorld
           wf_initialWorld eq_refl).
Defined.

Lemma makeAssetFromBytes_roundtrip_witness :
  exists w', makeAssetFromBytes "/temp/x" "hello" initialWorld = (Returned "/temp/x", w') /\
  exists w'', getTemporaryAsset (rt := Sample.runtime) "/temp/x" w' = (Returned (Some "hello"), w'').
Proof.
  exact (makeAssetFromBytes_roundtrip (rt := Sample.runtime) "/temp/x" "hello" initialWorld
           wf_initialWorld eq_refl).
Defined.

(** ** Every state a script can reach is well formed *)

Section Reachability.
Context {rt : Collaborators}.

Lemma removeTemporaryAsset_spec (path : string) (w : World) :
  wf w ->
  exists w', removeTemporaryAsset path w = (Returned tt, w') /\
             wf w' /\
             contentStore w' = delete path (contentStore w).
Proof.
  intros Hwf. destruct (ensured_live w Hwf) as (a & s & Ha & Hs & Hfiles).
  destruct (wf_ensured w Hwf) as [Hstatic Hfresh].
  set (w1 := mkWorld (<[a := snd (MemoryAssetSource.erase path s)]> (heap (ensured w)))
               (nextAddress (ensured w)) (Some a)
               (initialized (ensured w)) (runtimeSources (ensured w))
               (logged (ensured w))).
  assert (Hwf1 : wf w1).
  { split; cbn [w1 initialized tempSource heap nextAddress].
    - intros _. exists a. rewrite lookup_insert_eq. eauto.
    - intros b Hb. apply Hfresh.
      destruct (decide (a = b)) as [<-|Hne]; [eauto|].
      now rewrite lookup_insert_ne in Hb. }
  assert (Hcs1 : contentStore w1 = delete path (contentStore w)).
  { unfold contentStore at 1. cbn [w1 initialized tempSource heap].
    rewrite ensured_initialized, lookup_insert_eq. cbn. now rewrite Hfiles. }
  assert (Hrun : deref_mut (tempSource (ensured w)) (MemoryAssetSource.erase path)
                   (ensured w)
                 = (Returned (MemoryAssetSource.contains path s), w1)).
  { unfold deref_mut. rewrite Ha, Hs. reflexivity. }
  unfold removeTemporaryAsset. enter. rewrite bind_eq, Hrun.
  destruct (MemoryAssetSource.contains path s).
  - eexists. split; [reflexivity|]. split; [exact Hwf1|exact Hcs1].
  - eexists. split; [reflexivity|]. split; [exact Hwf1|exact Hcs1].
Qed.

Lemma worldAfter_wf (c : Callback) (w : World) : wf w -> wf (worldAfter c w).
Proof.
  intros Hwf. destruct c as [engine path v|path bytes|path bytes|path|path|path|path|];
    cbn [worldAfter].
  - destruct (beginsWith path "/temp/") eqn:Hpre;
      [|now rewrite makeAsset_bad_prefix].
    destruct (luaMaybeTo_String engine v) as [str|] eqn:Hstr.
    { erewrite makeAsset_string by eassumption. now apply wf_created. }
    destruct (luaMaybeTo_Image engine v) as [image|] eqn:Himg.
    { erewrite makeAsset_image by eassumption. now apply wf_created. }
    destruct (luaMaybeTo_Json engine v) as [j|] eqn:Hjson.
    { erewrite makeAsset_json by eassumption. now apply wf_created. }
    rewrite makeAsset_unconvertible by assumption. now apply wf_ensured.
  - destruct (beginsWith path "/temp/") eqn:Hpre;
      [|now rewrite makeAssetFromBytes_bad_prefix].
    rewrite makeAssetFromBytes_eq by assumption. now apply wf_created.
  - destruct (beginsWith path "/temp/") eqn:Hpre;
      [|now rewrite makeImageFromBytes_bad_prefix].
    destruct (Image_readPng (utf8Bytes bytes)) as [e|image] eqn:Hpng.
    { now erewrite makeImageFromBytes_decode_error by eassumption. }
    destruct ((width image =? 0)%N || (height image =? 0)%N) eqn:Harea.
    { now erewrite makeImageFromBytes_zero_area by eassumption. }
    erewrite makeImageFromBytes_stored by eassumption. now apply wf_created.
  - rewrite getTemporaryAsset_eq by assumption. now apply wf_ensured.
  - rewrite getTemporaryImage_eq by assumption. now apply wf_ensured.
  - rewrite hasTemporaryAsset_eq by assumption. now apply wf_ensured.
  - destruct (removeTemporaryAsset_spec path w Hwf) as (w' & -> & Hwf' & _).
    exact Hwf'.
  - destruct (clearTemporaryAssets_spec w Hwf) as (w' & -> & Hwf' & _).
    exact Hwf'.
Qed.

Lemma reachable_wf (w : World) : reachable w -> wf w.
Proof.
  induction 1 as [|c w _ IH]; [exact wf_initialWorld|now apply worldAfter_wf].
Qed.

(** In every well-formed state, a file that is in the store is still
    reported after [clearTemporaryAssets]. *)
Lemma clearTemporaryAssets_then_has (path : string) (w : World) :
  wf w -> is_Some (contentStore w !! path) ->
  exists w' w'', clearTemporaryAssets w = (Returned tt, w') /\
                 hasTemporaryAsset path w' = (Returned true, w'').
Proof.
  intros Hwf Hsome.
  destruct (clearTemporaryAssets_spec w Hwf) as (w' & Hrun & Hwf' & Hcs & _).
  exists w', (ensured w'). split; [exact Hrun|].
  rewrite hasTemporaryAsset_eq, Hcs by assumption.
  now rewrite bool_decide_eq_true_2.
Qed.

End Reachability.

(** ** The end-stack claims *)

Module ImGuiClaims.
Import ImGui.

(** The annotations of the table, read off the file. *)
Lemma conditionalOpeners_eq :
  conditionalOpeners =
  [("Begin", 1); ("BeginChild", 2); ("BeginChild_4", 2); ("BeginCombo", 5);
   ("TreeNode", 6); ("TreeNode_3", 6); ("BeginListBox", 7);
   ("BeginMenuBar", 8); ("BeginMainMenuBar", 9); ("BeginMenu", 10);
   ("BeginTooltip", 11); ("BeginItemTooltip", 12); ("BeginPopup", 13);
   ("BeginPopupModal", 13); ("BeginPopupContextItem", 13);
   ("BeginPopupContextWindow", 13); ("BeginPopupContextVoid", 13);
   ("BeginTable", 14); ("BeginTabBar", 15); ("BeginTabItem", 16);
   ("BeginDragDropSource", 17); ("BeginDragDropTarget", 18)].
Proof. reflexivity. Qed.

Lemma unconditionalOpeners_eq :
  unconditionalOpeners =
  [("PushStyleVar", 3); ("PushStyleVar_2", 3); ("BeginGroup", 4);
   ("TreePush", 6); ("BeginDisabled", 19)].
Proof. reflexivity. Qed.

(** Every binding that pops a slot is the closing function the table
    registers for that slot, and the other way round. *)
Lemma closers_eq : map (fun c => (snd c, fst c)) closers = END_STACK_OPTION.
Proof. reflexivity. Qed.






(** C7.  What the code does where the claim expects the shadow stack to
    mirror the native scopes: [PushStyleVarX], [PushStyleVarY] and a
    [TreeNodeEx] that returns true each open a native scope and push
    nothing; [PopStyleVar(2)] closes two native scopes and pops one shadow
    entry. *)
Theorem shadow_stack_misses_native_scopes :
  runCalls (call "PushStyleVarX" 1 false) emptyFrame []
  = (None, mkFrame [] ["PushStyleVarX"], [3]) /\
  runCalls (call "PushStyleVarY" 1 false) emptyFrame []
  = (None, mkFrame [] ["PushStyleVarY"], [3]) /\
  runCalls (call "TreeNodeEx" 1 true) emptyFrame []
  = (None, mkFrame [] ["TreeNodeEx"], [6]) /\
  runCalls (call "PushStyleVar" 1 false ++ call "PushStyleVar" 1 false
            ++ call "PopStyleVar" 2 false)%list emptyFrame []
  = (None, mkFrame [3] ["PushStyleVar"; "PushStyleVar"; "PopStyleVar"], []) /\
  (* the sibling bindings do push *)
  runCalls (call "PushStyleVar" 1 false) emptyFrame []
  = (None, mkFrame [3] ["PushStyleVar"], [3]) /\
  runCalls (call "TreeNode" 1 true) emptyFrame []
  = (None, mkFrame [6] ["TreeNode"], [6]).
Proof. repeat split. Qed.

(** Every slot that an opening binding pushes, 12 apart, is popped by a
    closing binding and has a closing function registered. *)
Lemma pushed_slots_have_closers (b : Binding) (slot : nat) :
  In b bindings -> opens b = Some slot -> slot <> 12 ->
  (exists c, In c bindings /\ closes c = Some slot) /\
  is_Some (closingFunction slot).
Proof.
  intros Hin Hopen Hne.
  assert (Hslots : In slot (omap opens bindings)).
  { apply list_elem_of_In, list_elem_of_omap. exists b.
    split; [now apply list_elem_of_In|exact Hopen]. }
  assert (Hall : forallb (fun s =>
                   Nat.eqb s 12 ||
                   (existsb (Nat.eqb s) (omap closes bindings) &&
                    match closingFunction s with Some _ => true | None => false end))
                   (omap opens bindings) = true)
    by (vm_compute; reflexivity).
  rewrite forallb_forall in Hall. specialize (Hall slot Hslots).
  apply orb_true_iff in Hall. destruct Hall as [H12|Hall].
  { apply Nat.eqb_eq in H12. contradiction. }
  apply andb_true_iff in Hall. destruct Hall as [Hc Hf]. split.
  - apply existsb_exists in Hc. destruct Hc as (s & Hs & Heq).
    apply Nat.eqb_eq in Heq. subst s.
    apply list_elem_of_In, list_elem_of_omap in Hs. destruct Hs as (c & Hc & Hcl).
    exists c. split; [now apply list_elem_of_In|exact Hcl].
  - destruct (closingFunction slot); [eauto|discriminate].
Qed.

(** C8.  What the code does where the claim expects a closing binding for
    every slot: [BeginItemTooltip] pushes slot 12; no binding of the table
    pops slot 12 and no closing function is registered for it;
    [EndTooltip] pops slot 11, so that after a [BeginItemTooltip] that
    returned true it fails on the mismatch and slot 12 stays on the
    stack. *)
Theorem slot_12_has_no_closer :
  opens <$> lookupBinding "BeginItemTooltip" = Some (Some 12) /\
  forallb (fun b => negb (bool_decide (closes b = Some 12))) bindings = true /\
  closingFunction 12 = None /\
  closes <$> lookupBinding "EndTooltip" = Some (Some 11) /\
  runCalls (call "BeginItemTooltip" 1 true ++ call "EndTooltip" 1 false)%list
    emptyFrame []
  = (Some (EndStackMismatch 11),
     mkFrame [12] ["BeginItemTooltip"; "EndTooltip"], []).
Proof. vm_compute. repeat split. Qed.

Lemma unwind_calls (stack : list nat) (calls : list string) :
  unwind stack calls = (calls ++ omap closingFunction stack)%list.
Proof.
  revert calls. induction stack as [|top rest IH]; intros calls.
  - cbn. now rewrite app_nil_r.
  - cbn [unwind]. rewrite IH. unfold ImEndStack. cbn [omap list_omap].
    destruct (closingFunction top) as [f|]; [|reflexivity].
    now rewrite <- app_assoc.
Qed.

(** C9.  What the code does where the claim expects the unwind to close
    every open scope: after [BeginItemTooltip] returned true, slot 12 is on
    the shadow stack; the forced unwind empties the stack, but [ImEndStack]
    has no case for slot 12, so it makes no call at all and [EndTooltip] is
    never invoked for the open tooltip, also not when the tooltip is open
    inside a window whose [End] the unwind does call.  For the sibling
    [BeginTooltip] the unwind calls [EndTooltip]; and in the scenario of
    [Begin] and then [TreeNode], both returning true and nothing closed, it
    calls [TreePop] and then [End]. *)
Theorem unwind_skips_item_tooltip :
  runCalls (call "BeginItemTooltip" 1 true) emptyFrame []
  = (None, mkFrame [12] ["BeginItemTooltip"], []) /\
  FrameBoundaryUnwind (mkFrame [12] ["BeginItemTooltip"])
  = mkFrame [] ["BeginItemTooltip"] /\
  (forall calls, ImEndStack 12 calls = calls) /\
  runCalls (call "Begin" 1 true ++ call "BeginItemTooltip" 1 true)%list emptyFrame []
  = (None, mkFrame [12; 1] ["Begin"; "BeginItemTooltip"], []) /\
  FrameBoundaryUnwind (mkFrame [12; 1] ["Begin"; "BeginItemTooltip"])
  = mkFrame [] ["Begin"; "BeginItemTooltip"; "End"] /\
  runCalls (call "BeginTooltip" 1 true) emptyFrame []
  = (None, mkFrame [11] ["BeginTooltip"], []) /\
  FrameBoundaryUnwind (mkFrame [11] ["BeginTooltip"])
  = mkFrame [] ["BeginTooltip"; "EndTooltip"] /\
  runCalls (call "Begin" 1 true ++ call "TreeNode" 1 true)%list emptyFrame []
  = (None, mkFrame [6; 1] ["Begin"; "TreeNode"], [6]) /\
  FrameBoundaryUnwind (mkFrame [6; 1] ["Begin"; "TreeNode"])
  = mkFrame [] ["Begin"; "TreeNode"; "TreePop"; "End"].
Proof. repeat split. Qed.

End ImGuiClaims.

(** * Further properties of the asset callbacks *)

Lemma ensured_idempotent (w : World) : ensured (ensured w) = ensured w.
Proof. unfold ensured at 1. now rewrite ensured_initialized. Qed.

Lemma clearTemporaryAssets_eq (w : World) :
  clearTemporaryAssets w = (Returned tt, cleared w).
Proof.
  unfold clearTemporaryAssets. rewrite bind_eq.
  change (make_shared "temp" tempMetadata w)
    with (Returned (Some (nextAddress w)), snd (make_shared "temp" tempMetadata w)).
  cbv beta iota. enter. reflexivity.
Qed.

Lemma removeTemporaryAsset_eq (path : string) (w : World) :
  wf w -> removeTemporaryAsset path w = (Returned tt, removed path w).
Proof.
  intros Hwf. destruct (ensured_live w Hwf) as (a & s & Ha & Hs & _).
  unfold removeTemporaryAsset, removed. enter. rewrite bind_eq.
  unfold deref_mut. cbv zeta. rewrite Ha, Hs.
  cbn [fst snd MemoryAssetSource.erase].
  destruct (MemoryAssetSource.contains path s); reflexivity.
Qed.

Lemma stored_statics (path : string) (f : AssetFile) (w : World) :
  tempSource (stored path f w) = tempSource w /\
  initialized (stored path f w) = initialized w /\
  runtimeSources (stored path f w) = runtimeSources w /\
  logged (stored path f w) = logged w.
Proof.
  unfold stored. destruct (tempSource w) as [a|] eqn:Ha; [|now rewrite Ha].
  destruct (heap w !! a); cbn; rewrite ?Ha; auto.
Qed.

Lemma created_statics (path : string) (f : AssetFile) (msg : string) (w : World) :
  tempSource (created path f msg w) = tempSource (ensured w) /\
  initialized (created path f msg w) = true /\
  runtimeSources (created path f msg w)
  = <["/temp" := tempSource (ensured w)]> (runtimeSources (ensured w)) /\
  logged (created path f msg w) = msg :: logged (ensured w).
Proof.
  destruct (stored_statics path f (ensured w)) as (Ht & Hi & Hr & Hl).
  unfold created. cbn [withRuntimeSource withLog tempSource initialized
                         runtimeSources logged].
  rewrite Ht, Hi, Hr, Hl, ensured_initialized. auto.
Qed.

Lemma removed_spec (path : string) (w : World) :
  wf w ->
  wf (removed path w) /\
  contentStore (removed path w) = delete path (contentStore w) /\
  tempSource (removed path w) = tempSource (ensured w) /\
  initialized (removed path w) = true /\
  runtimeSources (removed path w) = runtimeSources (ensured w) /\
  logged (removed path w)
  = ((if bool_decide (is_Some (contentStore w !! path))
      then ["Removed temporary asset: " +:+ path] else [])
     ++ logged (ensured w))%list.
Proof.
  intros Hwf. destruct (ensured_live w Hwf) as (a & s & Ha & Hs & Hfiles).
  destruct (wf_ensured w Hwf) as [Hstatic Hfresh].
  pose proof (ensured_initialized w) as Hinit.
  unfold removed. cbv zeta. rewrite Ha, Hs.
  assert (Hmsg : strf "Removed temporary asset: {}" [path]
                 = "Removed temporary asset: " +:+ path).
  { cbn [strf]. now rewrite strf_1. }
  rewrite Hmsg. unfold MemoryAssetSource.contains. rewrite Hfiles.
  set (w2 := mkWorld _ _ _ _ _ _).
  assert (Hwf2 : wf w2).
  { split; cbn [w2 initialized tempSource heap nextAddress].
    - intros _. exists a. rewrite lookup_insert_eq. eauto.
    - intros b Hb. apply Hfresh.
      destruct (decide (a = b)) as [<-|Hne]; [eauto|].
      now rewrite lookup_insert_ne in Hb. }
  assert (Hcs2 : contentStore w2 = delete path (contentStore w)).
  { unfold contentStore at 1. cbn [w2 initialized tempSource heap].
    rewrite Hinit, lookup_insert_eq. cbn. now rewrite Hfiles. }
  destruct (bool_decide (is_Some (contentStore w !! path))); cbn; auto 10.
Qed.

Lemma cleared_spec (w : World) :
  wf w -> initialized w = true ->
  cleared w = mkWorld (heap w) (S (nextAddress w)) (tempSource w) true
                (runtimeSources w) ("Cleared all temporary assets" :: logged w).
Proof.
  intros [_ Hfresh] Hinit. unfold cleared, ensured. cbn.
  rewrite Hinit. cbn. f_equal.
  apply delete_insert_id.
  destruct (heap w !! nextAddress w) eqn:E; [|reflexivity].
  assert (nextAddress w < nextAddress w) by (apply Hfresh; eauto). lia.
Qed.

Section StoreExtras.
Context {rt : Collaborators}.

(** X1.  [removeTemporaryAsset] takes any path, returns normally, erases the
    entry at that path and no other, and logs its line exactly when there
    was an entry; afterwards [hasTemporaryAsset] of the path answers
    false. *)
Theorem removeTemporaryAsset_erases (path : string) (w : World) :
  wf w ->
  exists w', removeTemporaryAsset path w = (Returned tt, w') /\
    contentStore w' = delete path (contentStore w) /\
    logged w'
    = ((if bool_decide (is_Some (contentStore w !! path))
        then ["Removed temporary asset: " +:+ path] else [])
       ++ logged (ensured w))%list /\
    exists w'', hasTemporaryAsset path w' = (Returned false, w'').
Proof.
  intros Hwf. destruct (removed_spec path w Hwf) as (Hwf' & Hcs & _ & _ & _ & Hlog).
  exists (removed path w). split; [now apply removeTemporaryAsset_eq|].
  split; [exact Hcs|]. split; [exact Hlog|].
  eexists. rewrite hasTemporaryAsset_eq, Hcs, lookup_delete_eq by assumption.
  rewrite bool_decide_eq_false_2; [reflexivity|]. intros [f Hf]. discriminate.
Qed.

(** X2.  An image made by [makeImageFromBytes] reads back through
    [getTemporaryImage] as the decoded image, whereas a path written by
    [makeAssetFromBytes] reads back through [getTemporaryImage] as absent:
    stored bytes are never decoded on reading. *)
Theorem image_reads_back (path bytes : string) (w : World) :
  wf w -> beginsWith path "/temp/" = true ->
  (forall image,
     Image_readPng (utf8Bytes bytes) = inr image ->
     (width image =? 0)%N || (height image =? 0)%N = false ->
     exists w', makeImageFromBytes path bytes w = (Returned path, w') /\
     exists w'', getTemporaryImage path w' = (Returned (Some image), w'')) /\
  (exists w', makeAssetFromBytes path bytes w = (Returned path, w') /\
   exists w'', getTemporaryImage path w' = (Returned None, w'')).
Proof.
  intros Hwf Hpre. split.
  - intros image Hpng Harea. eexists.
    split; [eapply makeImageFromBytes_stored; eassumption|].
    eexists. rewrite getTemporaryImage_eq by now apply wf_created.
    now rewrite contentStore_created, lookup_insert_eq.
  - eexists. split; [eapply makeAssetFromBytes_eq; eassumption|].
    eexists. rewrite getTemporaryImage_eq by now apply wf_created.
    now rewrite contentStore_created, lookup_insert_eq.
Qed.

(** X3.  What [makeAsset] stored reads back: a value that coerces to a
    string comes back from [getTemporaryAsset] as that string; a value
    that coerces to an image (and not to a string) comes back from
    [getTemporaryImage] as that image; a value that converts to structured
    data only comes back from [getTemporaryAsset] as its canonical text. *)
Theorem makeAsset_reads_back (engine : LuaEngine) (path : string)
    (v : LuaValue) (w : World) :
  wf w -> beginsWith path "/temp/" = true ->
  match luaMaybeTo_String engine v, luaMaybeTo_Image engine v,
        luaMaybeTo_Json engine v with
  | Some str, _, _ =>
      exists w', makeAsset engine path v w = (Returned path, w') /\
      exists w'', getTemporaryAsset path w' = (Returned (Some str), w'')
  | None, Some image, _ =>
      exists w', makeAsset engine path v w = (Returned path, w') /\
      exists w'', getTemporaryImage path w' = (Returned (Some image), w'')
  | None, None, Some j =>
      exists w', makeAsset engine path v w = (Returned path, w') /\
      exists w'', getTemporaryAsset path w' = (Returned (Some (Json_repr j)), w'')
  | None, None, None => True
  end.
Proof.
  intros Hwf Hpre.
  destruct (luaMaybeTo_String engine v) as [str|] eqn:Hstr.
  { eexists. split; [eapply makeAsset_string; eassumption|].
    eexists. rewrite getTemporaryAsset_eq by now apply wf_created.
    rewrite contentStore_created, lookup_insert_eq by assumption.
    unfold String_of_bytes, utf8Bytes.
    now rewrite string_of_list_byte_of_string. }
  destruct (luaMaybeTo_Image engine v) as [image|] eqn:Himg.
  { eexists. split; [eapply makeAsset_image; eassumption|].
    eexists. rewrite getTemporaryImage_eq by now apply wf_created.
    now rewrite contentStore_created, lookup_insert_eq. }
  destruct (luaMaybeTo_Json engine v) as [j|] eqn:Hjson; [|exact I].
  eexists. split; [eapply makeAsset_json; eassumption|].
  eexists. rewrite getTemporaryAsset_eq by now apply wf_created.
  rewrite contentStore_created, lookup_insert_eq by assumption.
  unfold String_of_bytes, utf8Bytes.
  now rewrite string_of_list_byte_of_string.
Qed.

(** X4.  A creating callback writes the entry at its own path only, and a
    second write to the same path replaces the first without trace: after
    [makeAssetFromBytes(path, s1)] and [makeAssetFromBytes(path, s2)] the
    store is the one from before with [s2] at [path]. *)
Theorem makeAssetFromBytes_last_write_wins (path s1 s2 : string) (w : World) :
  wf w -> beginsWith path "/temp/" = true ->
  exists w1 w2,
    makeAssetFromBytes path s1 w = (Returned path, w1) /\
    makeAssetFromBytes path s2 w1 = (Returned path, w2) /\
    (forall other, other <> path ->
       contentStore w1 !! other = contentStore w !! other) /\
    contentStore w2 = <[path := FileBytes (utf8Bytes s2)]> (contentStore w).
Proof.
  intros Hwf Hpre. eexists _, _.
  split; [eapply makeAssetFromBytes_eq; eassumption|].
  split; [eapply makeAssetFromBytes_eq; [now apply wf_created|assumption]|].
  split.
  - intros other Hne. rewrite contentStore_created by assumption.
    now rewrite lookup_insert_ne.
  - rewrite !contentStore_created by (try apply wf_created; assumption).
    apply insert_insert_eq.
Qed.

(** X5.  Making a file at a path that held nothing and removing it again
    gives back the store as it was. *)
Theorem make_then_remove (path s : string) (w : World) :
  wf w -> beginsWith path "/temp/" = true ->
  contentStore w !! path = None ->
  exists w1 w2,
    makeAssetFromBytes path s w = (Returned path, w1) /\
    removeTemporaryAsset path w1 = (Returned tt, w2) /\
    contentStore w2 = contentStore w.
Proof.
  intros Hwf Hpre Hnone. eexists _, _.
  split; [eapply makeAssetFromBytes_eq; eassumption|].
  assert (Hwf1 : wf (created path (FileBytes (utf8Bytes s))
                       (strf "Created temporary asset: {} ({} bytes)"
                          [path; pretty (String_size s)]) w))
    by now apply wf_created.
  split; [now apply removeTemporaryAsset_eq|].
  destruct (removed_spec path _ Hwf1) as (_ & -> & _).
  rewrite contentStore_created by assumption.
  now apply delete_insert_id.
Qed.

(** X6.  The reading callbacks take any path and agree with each other:
    [hasTemporaryAsset] answers true exactly when [getTemporaryAsset]
    returns a present value; both leave the same state behind, with the
    store's entries untouched, and asking again in that state changes
    nothing. *)
Theorem probes_agree (path : string) (w : World) :
  wf w ->
  exists (b : bool) (r : option string) (w' : World),
    hasTemporaryAsset path w = (Returned b, w') /\
    getTemporaryAsset path w = (Returned r, w') /\
    (b = true <-> is_Some r) /\
    contentStore w' = contentStore w /\
    hasTemporaryAsset path w' = (Returned b, w') /\
    getTemporaryAsset path w' = (Returned r, w').
Proof.
  intros Hwf. pose proof (wf_ensured w Hwf) as Hwf'.
  pose proof (contentStore_ensured w Hwf) as Hcs.
  eexists _, _, (ensured w).
  split; [now apply hasTemporaryAsset_eq|].
  split; [now apply getTemporaryAsset_eq|].
  split; [|split; [exact Hcs|split]].
  - destruct (contentStore w !! path) as [[b|i]|].
    + rewrite bool_decide_eq_true_2 by eauto. split; eauto.
    + rewrite bool_decide_eq_true_2 by eauto. split; eauto.
    + rewrite bool_decide_eq_false_2 by (intros [? ?]; discriminate).
      split; [discriminate|]. intros [? ?]. discriminate.
  - rewrite hasTemporaryAsset_eq, Hcs, ensured_idempotent by assumption.
    reflexivity.
  - rewrite getTemporaryAsset_eq, Hcs, ensured_idempotent by assumption.
    reflexivity.
Qed.

(** X7.  Once the store exists, [clearTemporaryAssets] changes nothing but
    the log: the heap of sources, the static pointer and the mounted
    sources are the ones from before the call.  Called before the store
    exists, it creates and mounts the store and logs both lines. *)
Theorem clearTemporaryAssets_only_logs (w : World) :
  wf w ->
  exists w', clearTemporaryAssets w = (Returned tt, w') /\
    if initialized w then
      heap w' = heap w /\
      tempSource w' = tempSource w /\
      runtimeSources w' = runtimeSources w /\
      logged w' = "Cleared all temporary assets" :: logged w
    else
      initialized w' = true /\
      runtimeSources w' !! "/temp" = Some (tempSource w') /\
      contentStore w' = ∅ /\
      logged w' = "Cleared all temporary assets"
                  :: "Initialized temporary asset source" :: logged w.
Proof.
  intros Hwf. exists (cleared w).
  split; [apply clearTemporaryAssets_eq|].
  destruct (initialized w) eqn:Hinit.
  - rewrite cleared_spec by assumption. cbn. auto.
  - unfold cleared, ensured, contentStore. cbn. rewrite Hinit. cbn.
    rewrite lookup_insert_eq, lookup_delete_ne, lookup_insert_eq by lia. auto.
Qed.

Lemma beginsWith_iff (path pre : string) :
  beginsWith path pre = true <-> exists rest, path = pre +:+ rest.
Proof.
  unfold beginsWith. revert path.
  induction pre as [|c pre IH]; intros path.
  - split; [intros _; exists path; reflexivity|intros _; now destruct path].
  - destruct path as [|d path]; cbn [String.prefix].
    + split; [discriminate|intros [rest Hrest]; discriminate].
    + destruct (ascii_dec c d) as [->|Hne].
      * rewrite IH. split; intros [rest Hrest]; exists rest.
        -- change (String d path = String d (pre +:+ rest)). now rewrite Hrest.
        -- change (String d path = String d (pre +:+ rest)) in Hrest.
           now injection Hrest.
      * split; [discriminate|]. intros [rest Hrest].
        change (String d path = String c (pre +:+ rest)) in Hrest.
        injection Hrest as Hd _. congruence.
Qed.

(** X8.  The paths [makeAssetFromBytes] accepts are exactly the prefix
    [/temp/] followed by anything, the empty rest included: such a call
    returns its path, and a call with any other path raises and leaves
    the state as it was. *)
Theorem makeAssetFromBytes_accepts_prefixed (path s : string) (w : World) :
  wf w ->
  ((exists rest, path = "/temp/" +:+ rest) ->
   exists w', makeAssetFromBytes path s w = (Returned path, w')) /\
  ((forall rest, path <> "/temp/" +:+ rest) ->
   exists e, makeAssetFromBytes path s w = (Thrown e, w)).
Proof.
  intros Hwf. split.
  - intros Hrest. apply beginsWith_iff in Hrest.
    eexists. eapply makeAssetFromBytes_eq; eassumption.
  - intros Hnot. eexists. apply makeAssetFromBytes_bad_prefix.
    destruct (beginsWith path "/temp/") eqn:Hpre; [|reflexivity].
    apply beginsWith_iff in Hpre. destruct Hpre as [rest Hrest].
    now destruct (Hnot rest).
Qed.

(** X9.  Where a failing call stops decides whether the store comes into
    being.  Before the store exists, [makeAsset] with a valid path and a
    value that converts to nothing raises after it created and mounted the
    (still empty) store; [makeImageFromBytes] with bytes that do not decode,
    or decode to an image without area, raises and leaves the state as it
    was, store not created. *)
Theorem failure_and_lazy_creation (engine : LuaEngine) (path : string)
    (v : LuaValue) (bytes : string) (w : World) :
  initialized w = false -> beginsWith path "/temp/" = true ->
  (luaMaybeTo_String engine v = None ->
   luaMaybeTo_Image engine v = None ->
   luaMaybeTo_Json engine v = None ->
   exists e w', makeAsset engine path v w = (Thrown e, w') /\
     initialized w' = true /\
     runtimeSources w' !! "/temp" = Some (tempSource w') /\
     contentStore w' = ∅) /\
  (match Image_readPng (utf8Bytes bytes) with
   | inl _ => True
   | inr image => (width image =? 0)%N || (height image =? 0)%N = true
   end ->
   exists e, makeImageFromBytes path bytes w = (Thrown e, w)).
Proof.
  intros Hinit Hpre. split.
  - intros Hstr Himg Hjson. eexists _, _.
    split; [now apply makeAsset_unconvertible|].
    unfold ensured, contentStore. rewrite Hinit. cbn.
    rewrite !lookup_insert_eq. auto.
  - destruct (Image_readPng (utf8Bytes bytes)) as [e|image] eqn:Hpng; intros Hbad.
    + eexists. eapply makeImageFromBytes_decode_error; eassumption.
    + eexists. eapply makeImageFromBytes_zero_area; eassumption.
Qed.

End StoreExtras.

(** ** What holds in every state a script can reach *)

Section ReachableExtras.
Context {rt : Collaborators}.

(** Whatever the callback and however it ends, the state it leaves behind
    is one of five. *)
Lemma worldAfter_cases (c : Callback) (w : World) :
  wf w ->
  worldAfter c w = w \/
  worldAfter c w = ensured w \/
  (exists path f rest, beginsWith path "/temp/" = true /\
     worldAfter c w = created path f (String "C" rest) w) \/
  (exists path, worldAfter c w = removed path w) \/
  worldAfter c w = cleared w.
Proof.
  intros Hwf.
  destruct c as [engine path v|path bytes|path bytes|path|path|path|path|];
    cbn [worldAfter].
  - destruct (beginsWith path "/temp/") eqn:Hpre;
      [|left; now rewrite makeAsset_bad_prefix].
    destruct (luaMaybeTo_String engine v) as [str|] eqn:Hstr.
    { right. right. left. erewrite makeAsset_string by eassumption.
      cbn [strf snd]. eauto 6. }
    destruct (luaMaybeTo_Image engine v) as [image|] eqn:Himg.
    { right. right. left. erewrite makeAsset_image by eassumption.
      cbn [strf snd]. eauto 6. }
    destruct (luaMaybeTo_Json engine v) as [j|] eqn:Hjson.
    { right. right. left. erewrite makeAsset_json by eassumption.
      cbn [strf snd]. eauto 6. }
    right. left. now rewrite makeAsset_unconvertible.
  - destruct (beginsWith path "/temp/") eqn:Hpre;
      [|left; now rewrite makeAssetFromBytes_bad_prefix].
    right. right. left. rewrite makeAssetFromBytes_eq by assumption.
    cbn [strf snd]. eauto 6.
  - destruct (beginsWith path "/temp/") eqn:Hpre;
      [|left; now rewrite makeImageFromBytes_bad_prefix].
    destruct (Image_readPng (utf8Bytes bytes)) as [e|image] eqn:Hpng.
    { left. now erewrite makeImageFromBytes_decode_error by eassumption. }
    destruct ((width image =? 0)%N || (height image =? 0)%N) eqn:Harea.
    { left. now erewrite makeImageFromBytes_zero_area by eassumption. }
    right. right. left. erewrite makeImageFromBytes_stored by eassumption.
    cbn [strf snd]. eauto 6.
  - right. left. now rewrite getTemporaryAsset_eq.
  - right. left. now rewrite getTemporaryImage_eq.
  - right. left. now rewrite hasTemporaryAsset_eq.
  - right. right. right. left. exists path. now rewrite removeTemporaryAsset_eq.
  - right. right. right. right. now rewrite clearTemporaryAssets_eq.
Qed.

(** X10.  Once the store exists, no callback replaces it:
    after any call, [clearTemporaryAssets] included and failing calls
    included, the static pointer is the one from before and the source
    mounted at [/temp] is the one from before. *)
Theorem store_is_never_replaced (c : Callback) (w : World) :
  wf w -> initialized w = true ->
  runtimeSources w !! "/temp" = Some (tempSource w) ->
  initialized (worldAfter c w) = true /\
  tempSource (worldAfter c w) = tempSource w /\
  runtimeSources (worldAfter c w) !! "/temp" = Some (tempSource w).
Proof.
  intros Hwf Hinit Hmount.
  assert (Hens : ensured w = w) by (unfold ensured; now rewrite Hinit).
  destruct (worldAfter_cases c w Hwf)
    as [ -> | [ -> | [(path & f & rest & Hpre & ->)|[(path & ->)| -> ]]]].
  - auto.
  - rewrite Hens. auto.
  - destruct (created_statics path f (String "C" rest) w) as (Ht & Hi & Hr & _).
    rewrite Ht, Hi, Hr, Hens, lookup_insert_eq. auto.
  - destruct (removed_spec path w Hwf) as (_ & _ & Ht & Hi & Hr & _).
    rewrite Ht, Hi, Hr, Hens. auto.
  - rewrite cleared_spec by assumption. cbn. auto.
Qed.

Lemma cleared_fresh (w : World) :
  initialized w = false ->
  initialized (cleared w) = true /\
  runtimeSources (cleared w) !! "/temp" = Some (tempSource (cleared w)) /\
  logged (cleared w)
  = (["Cleared all temporary assets"; "Initialized temporary asset source"]
     ++ logged w)%list.
Proof.
  intros Hinit. unfold cleared, ensured. cbn. rewrite Hinit. cbn.
  rewrite lookup_insert_eq. auto.
Qed.

(** X11.  In every state a script can reach, the store is either not yet
    created, and then nothing at all has happened to the state, or it is
    created and is the source mounted at [/temp]. *)
Theorem reachable_store_is_mounted (w : World) :
  reachable w ->
  if initialized w
  then runtimeSources w !! "/temp" = Some (tempSource w)
  else w = initialWorld.
Proof.
  induction 1 as [|c w Hreach IH]; [reflexivity|].
  pose proof (reachable_wf w Hreach) as Hwf.
  destruct (initialized w) eqn:Hinit.
  - destruct (store_is_never_replaced c w Hwf Hinit IH) as (-> & -> & ->).
    reflexivity.
  - subst w.
    destruct (worldAfter_cases c initialWorld Hwf)
      as [ -> | [ -> | [(path & f & rest & Hpre & ->)|[(path & ->)| -> ]]]].
    + reflexivity.
    + reflexivity.
    + destruct (created_statics path f (String "C" rest) initialWorld)
        as (Ht & Hi & Hr & _).
      rewrite Hi, Ht, Hr. now rewrite lookup_insert_eq.
    + destruct (removed_spec path initialWorld Hwf) as (_ & _ & Ht & Hi & Hr & _).
      rewrite Hi, Ht, Hr. reflexivity.
    + destruct (cleared_fresh initialWorld eq_refl) as (-> & -> & _).
      reflexivity.
Qed.

Lemma count_initLine_ensured (w : World) :
  count_occ string_dec (logged (ensured w)) initLine
  = if initialized w then count_occ string_dec (logged w) initLine
    else S (count_occ string_dec (logged w) initLine).
Proof.
  unfold ensured. destruct (initialized w); [reflexivity|].
  cbn [logged]. now rewrite count_occ_cons_eq.
Qed.

(** X12.  The store is created at most once: in every state a script can
    reach, the line [Initialized temporary asset source] is in the log once
    if the store exists and not at all if it does not. *)
Theorem store_is_created_once (w : World) :
  reachable w ->
  count_occ string_dec (logged w) "Initialized temporary asset source"
  = if initialized w then 1 else 0.
Proof.
  fold initLine.
  induction 1 as [|c w Hreach IH]; [reflexivity|].
  pose proof (reachable_wf w Hreach) as Hwf.
  pose proof (count_initLine_ensured w) as Hens.
  rewrite IH in Hens.
  assert (Hens1 : count_occ string_dec (logged (ensured w)) initLine = 1)
    by (destruct (initialized w); exact Hens).
  destruct (worldAfter_cases c w Hwf)
    as [ -> | [ -> | [(path & f & rest & Hpre & ->)|[(path & ->)| -> ]]]].
  - exact IH.
  - now rewrite ensured_initialized.
  - destruct (created_statics path f (String "C" rest) w) as (_ & -> & _ & ->).
    rewrite count_occ_cons_neq by discriminate. exact Hens1.
  - destruct (removed_spec path w Hwf) as (_ & _ & _ & -> & _ & ->).
    destruct (bool_decide (is_Some (contentStore w !! path))); [|exact Hens1].
    cbn [app]. rewrite count_occ_cons_neq by discriminate. exact Hens1.
  - destruct (initialized w) eqn:Hinit.
    + rewrite cleared_spec by assumption. cbn [logged initialized].
      rewrite count_occ_cons_neq by discriminate. exact IH.
    + destruct (cleared_fresh w Hinit) as (-> & _ & ->).
      cbn [app]. rewrite count_occ_cons_neq by discriminate.
      rewrite count_occ_cons_eq by reflexivity. now rewrite IH.
Qed.

(** X13.  The store keeps to its namespace: in every state a script can
    reach, every path that has an entry begins with [/temp/].  The reading
    and removing callbacks take any path, but outside the namespace there
    is never anything to find. *)
Theorem store_keeps_to_its_namespace (w : World) :
  reachable w ->
  forall path, is_Some (contentStore w !! path) -> beginsWith path "/temp/" = true.
Proof.
  induction 1 as [|c w Hreach IH]; intros p Hp.
  { cbn in Hp. rewrite lookup_empty in Hp. now destruct Hp. }
  pose proof (reachable_wf w Hreach) as Hwf.
  destruct (worldAfter_cases c w Hwf)
    as [Heq|[Heq|[(path & f & rest & Hpre & Heq)|[(path & Heq)|Heq]]]];
    rewrite Heq in Hp.
  - now apply IH.
  - rewrite contentStore_ensured in Hp by assumption. now apply IH.
  - rewrite contentStore_created in Hp by assumption.
    destruct (decide (path = p)) as [<-|Hne]; [exact Hpre|].
    rewrite lookup_insert_ne in Hp by assumption. now apply IH.
  - destruct (removed_spec path w Hwf) as (_ & Hcs & _). rewrite Hcs in Hp.
    destruct (decide (path = p)) as [<-|Hne].
    + rewrite lookup_delete_eq in Hp. now destruct Hp.
    + rewrite lookup_delete_ne in Hp by assumption. now apply IH.
  - destruct (clearTemporaryAssets_spec w Hwf) as (w' & Hrun & _ & Hcs & _).
    rewrite clearTemporaryAssets_eq in Hrun. injection Hrun as <-.
    rewrite Hcs in Hp. now apply IH.
Qed.

End ReachableExtras.

(** * Further properties of the ImGui bindings *)

Module ScriptExtras.
Import ImGui Scripts.

Lemma closingFunction_in (slot : nat) (f : string) :
  closingFunction slot = Some f -> In (slot, f) END_STACK_OPTION.
Proof.
  unfold closingFunction.
  destruct (find _ END_STACK_OPTION) as [[s g]|] eqn:Hfind; [|discriminate].
  intros [= <-]. apply find_some in Hfind. destruct Hfind as [Hin Heq].
  apply Nat.eqb_eq in Heq. cbn in Heq. now subst s.
Qed.

Lemma closerOf_closingFunction (slot : nat) (f : string) :
  closingFunction slot = Some f ->
  exists b, closerOf slot = Some b /\ In b bindings /\
            closes b = Some slot /\ callee b = f.
Proof.
  intros Hf. apply closingFunction_in in Hf.
  assert (Hall : forallb (fun o =>
                   match closerOf (fst o) with
                   | Some b => bool_decide (closes b = Some (fst o))
                               && String.eqb (callee b) (snd o)
                   | None => false
                   end) END_STACK_OPTION = true)
    by (vm_compute; reflexivity).
  rewrite forallb_forall in Hall. specialize (Hall _ Hf). cbn [fst snd] in Hall.
  destruct (closerOf slot) as [b|] eqn:Hb; [|discriminate].
  apply andb_true_iff in Hall. destruct Hall as [Hc Hn].
  apply bool_decide_eq_true in Hc. apply String.eqb_eq in Hn.
  exists b. split; [reflexivity|]. split; [|auto].
  unfold closerOf in Hb. now apply find_some in Hb.
Qed.

(** X14.  The function the forced unwind calls for a slot is the native
    function of the binding that pops that slot: a binding annotated
    [POP_END_STACK(slot)] calls the function registered by
    [END_STACK_OPTION(slot, _)], and every registered function is the
    callee of such a binding. *)
Theorem unwind_uses_the_closing_binding :
  (forall b slot,
     In b bindings -> closes b = Some slot ->
     closingFunction slot = Some (callee b)) /\
  (forall slot f,
     closingFunction slot = Some f ->
     exists b, In b bindings /\ closes b = Some slot /\ callee b = f).
Proof.
  split.
  - intros b slot Hin Hc.
    assert (Hall : forallb (fun b =>
                     match closes b with
                     | Some s => bool_decide (closingFunction s = Some (callee b))
                     | None => true
                     end) bindings = true)
      by (vm_compute; reflexivity).
    rewrite forallb_forall in Hall. specialize (Hall b Hin).
    rewrite Hc in Hall. now apply bool_decide_eq_true in Hall.
  - intros slot f Hf.
    destruct (closerOf_closingFunction slot f Hf) as (b & _ & Hin & Hc & Hn).
    eauto.
Qed.

Lemma runCalls_app (s1 s2 : list Call) (fr : Frame) (open : list nat) :
  runCalls (s1 ++ s2) fr open =
  match runCalls s1 fr open with
  | (None, fr', open') => runCalls s2 fr' open'
  | failed => failed
  end.
Proof.
  revert fr open. induction s1 as [|c s1 IH]; intros fr open; [reflexivity|].
  cbn [app runCalls]. destruct (invoke (target c) (ret c) fr) as [fr'|[e fr']].
  - apply IH.
  - reflexivity.
Qed.

Lemma invoke_pushes (c : Call) (fr : Frame) :
  closes (target c) = None ->
  invoke (target c) (ret c) fr =
  inl (mkFrame (match pushes c with
                | Some slot => slot :: endStack fr
                | None => endStack fr
                end) (nativeCalls fr ++ [callee (target c)])).
Proof.
  unfold closes, pushes, invoke, Open.
  destruct (endStackMacro (target c)) as [[slot|slot|slot]|]; try discriminate;
    intros _; [now destruct (ret c)|reflexivity|reflexivity].
Qed.

(** X15.  A script in which every opened scope is closed again by the
    binding that pops its slot, in the order of nesting, runs without an
    end-stack error and leaves the shadow stack exactly as it found it,
    whatever was on it. *)
Theorem nested_script_is_balanced (script : list Call) :
  nested script ->
  forall fr open,
  exists calls open',
    runCalls script fr open = (None, mkFrame (endStack fr) calls, open').
Proof.
  induction 1 as [|c Hp Hc|o c slot inner Ho Hc _ IH|s1 s2 _ IH1 _ IH2];
    intros fr open.
  - destruct fr. eexists _, _. reflexivity.
  - cbn [runCalls]. rewrite invoke_pushes, Hp by assumption.
    eexists _, _. reflexivity.
  - assert (Hoc : closes (target o) = None).
    { unfold pushes in Ho. unfold closes.
      destruct (endStackMacro (target o)) as [[?|?|?]|]; try reflexivity;
        discriminate. }
    change (o :: inner ++ [c])%list with ([o] ++ inner ++ [c])%list.
    rewrite runCalls_app. cbn [runCalls].
    rewrite invoke_pushes, Ho by assumption.
    rewrite runCalls_app.
    destruct (IH (mkFrame (slot :: endStack fr)
                    (nativeCalls fr ++ [callee (target o)])) (nativeScopes o open))
      as (calls & open' & ->).
    cbn [runCalls endStack]. unfold closes in Hc. unfold invoke.
    destruct (endStackMacro (target c)) as [[?|?|s]|]; try discriminate.
    injection Hc as ->. cbn [endStack Close]. rewrite Nat.eqb_refl.
    eexists _, _. reflexivity.
  - rewrite runCalls_app. destruct (IH1 fr open) as (calls1 & open1 & ->).
    destruct (IH2 (mkFrame (endStack fr) calls1) open1) as (calls2 & open2 & ->).
    eexists _, _. reflexivity.
Qed.

(** X16.  For a stack on which every slot has a closing function, the
    forced unwind does what the script would have done by closing its
    scopes itself, innermost first: the same native calls in the same
    order, and an empty shadow stack. *)
Theorem unwind_equals_closing_by_hand (stack : list nat) (calls : list string)
    (open : list nat) :
  Forall (fun slot => is_Some (closingFunction slot)) stack ->
  exists open',
    runCalls (closingScript stack) (mkFrame stack calls) open
    = (None, FrameBoundaryUnwind (mkFrame stack calls), open').
Proof.
  intros Hall. revert calls open.
  induction Hall as [|slot rest [f Hf] _ IH]; intros calls open.
  - eexists. reflexivity.
  - destruct (closerOf_closingFunction slot f Hf) as (b & Hb & _ & Hc & Hn).
    unfold closingScript. cbn [omap list_omap]. rewrite Hb. cbn [fmap option_fmap option_map].
    cbn [runCalls target ret]. unfold closes in Hc. unfold invoke.
    destruct (endStackMacro b) as [[?|?|s]|]; try discriminate.
    injection Hc as ->. cbn [endStack Close nativeCalls]. rewrite Nat.eqb_refl.
    destruct (IH (calls ++ [callee b])%list
                (nativeScopes (mkCall b 1 false) open)) as (open' & Hrun).
    exists open'. unfold closingScript in Hrun. rewrite Hrun.
    unfold FrameBoundaryUnwind. cbn [endStack nativeCalls unwind].
    unfold ImEndStack. rewrite Hf, Hn. reflexivity.
Qed.

(** X17.  As long as a script does not call [BeginItemTooltip], every entry
    its bound calls leave on the shadow stack has a closing function, at
    every point and also when the script stopped on an error; the forced
    unwind then makes one closing call for each open entry. *)
Theorem stack_stays_closable (script : list Call) (fr : Frame) (open : list nat) :
  Forall (fun c => In (target c) bindings /\
                   name (target c) <> "BeginItemTooltip") script ->
  Forall closable (endStack fr) ->
  let fr' := snd (fst (runCalls script fr open)) in
  Forall closable (endStack fr') /\
  length (nativeCalls (FrameBoundaryUnwind fr'))
  = length (nativeCalls fr') + length (endStack fr').
Proof.
  intros Hscript Hfr.
  assert (Hinv : Forall closable (endStack (snd (fst (runCalls script fr open))))).
  { revert fr open Hfr.
    induction Hscript as [|c rest [Hin Hname] _ IH]; intros fr open Hfr;
      [exact Hfr|].
    assert (Hpush : forall slot, opens (target c) = Some slot -> closable slot).
    { intros slot Hopen.
      destruct (decide (slot = 12)) as [->|Hne].
      - exfalso. apply Hname.
        assert (Hall : forallb (fun b =>
                         negb (bool_decide (opens b = Some 12))
                         || String.eqb (name b) "BeginItemTooltip") bindings = true)
          by (vm_compute; reflexivity).
        rewrite forallb_forall in Hall. specialize (Hall _ Hin).
        rewrite bool_decide_eq_true_2 in Hall by assumption.
        now apply String.eqb_eq in Hall.
      - now destruct (ImGuiClaims.pushed_slots_have_closers (target c) slot Hin Hopen Hne). }
    cbn [runCalls]. unfold invoke. unfold opens in Hpush.
    destruct (endStackMacro (target c)) as [[slot|slot|slot]|].
    + apply IH. cbn [endStack]. unfold Open.
      destruct (ret c); [constructor; [now apply Hpush|exact Hfr]|exact Hfr].
    + apply IH. cbn [endStack]. constructor; [now apply Hpush|exact Hfr].
    + destruct (Close slot (endStack fr)) as [stack|] eqn:Hclose.
      * apply IH. cbn [endStack]. unfold Close in Hclose.
        destruct (endStack fr) as [|top below]; [discriminate|].
        destruct (Nat.eqb top slot); [|discriminate].
        injection Hclose as <-. now inversion Hfr.
      * exact Hfr.
    + apply IH. exact Hfr. }
  split; [exact Hinv|].
  cbv zeta. destruct (snd (fst (runCalls script fr open))) as [stack calls].
  cbn [endStack nativeCalls FrameBoundaryUnwind] in *.
  rewrite ImGuiClaims.unwind_calls, length_app. f_equal.
  induction Hinv as [|slot rest [f Hf] _ IH]; [reflexivity|].
  cbn [omap list_omap]. rewrite Hf. cbn [length]. now rewrite IH.
Qed.

End ScriptExtras.

Module MarshalExtras.
Import ImGui Marshal.

(** The table the end-stack properties are stated on is what the blocks
    give when only name, native call and annotation are kept. *)
Lemma bindings_from_blocks : omap toBinding blocks = bindings.
Proof. vm_compute. reflexivity. Qed.

Lemma blocks_wellShaped : forallb wellShaped blocks = true.
Proof. vm_compute. reflexivity. Qed.

Lemma wellShaped_inv (b : Block) :
  In b blocks ->
  exists s, shape b = Some s /\
    passed (call s) = map snd (declared s) /\
    (onDrawList (call s) = true <-> opening b = IMGUI_FUNCTION_DRAW_LIST) /\
    writeBacks s = omap writeBackFor (declared s) /\
    pushes s = pushesFor (returnType (call s)) /\
    (forall slot, annotation s = Some (IF_RET_ADD_END_STACK slot) ->
                  returnType (call s) = Some "bool").
Proof.
  intros Hin. pose proof blocks_wellShaped as Hall.
  rewrite forallb_forall in Hall. specialize (Hall b Hin).
  unfold wellShaped in Hall. destruct (shape b) as [s|]; [|discriminate].
  repeat (apply andb_true_iff in Hall; destruct Hall as [Hall ?]).
  exists s. split; [reflexivity|].
  repeat match goal with
         | H : bool_decide _ = true |- _ => apply bool_decide_eq_true in H
         end.
  split; [assumption|]. split.
  - match goal with
    | H : Bool.eqb _ _ = true |- _ => apply Bool.eqb_prop in H; rewrite H
    end.
    apply bool_decide_eq_true.
  - split; [assumption|]. split; [assumption|].
    intros slot Hann.
    match goal with
    | H : match annotation s with _ => _ end = true |- _ =>
        rewrite Hann in H; now apply bool_decide_eq_true in H
    end.
Qed.

(** X18.  Every block of the file is written in one order: its argument
    macros, one native call, at most one end-stack annotation, the pushes
    of the result, the write-backs.  The call is given exactly the
    arguments the block declares, in the order they are declared, and a
    block registered for the draw list, and no other, calls through the
    draw list. *)
Theorem blocks_pass_what_they_declare (b : Block) :
  In b blocks ->
  exists s, shape b = Some s /\
    passed (call s) = map snd (declared s) /\
    (onDrawList (call s) = true <-> opening b = IMGUI_FUNCTION_DRAW_LIST).
Proof.
  intros Hin. destruct (wellShaped_inv b Hin) as (s & Hs & Hp & Hd & _).
  eauto.
Qed.

(** X19.  Output arguments are written back, all of them and nothing else:
    after the call and the pushes of the result, a block has one write-back
    for each pointer argument it declares, of the pointer's kind and under
    its name, in the order of declaration. *)
Theorem write_backs_match_pointer_arguments (b : Block) (s : Shape) :
  In b blocks -> shape b = Some s ->
  writeBacks s = omap writeBackFor (declared s).
Proof.
  intros Hin Hs. destruct (wellShaped_inv b Hin) as (s' & Hs' & _ & _ & Hw & _).
  congruence.
Qed.

(** X20.  What a block pushes as its result is decided by the return type of
    its native call: nothing for a call without result, one boolean for
    [bool], one string for [const char*], [ret.x] and [ret.y] for [ImVec2],
    the four components for [ImVec4], and one number for every other type;
    and an [IF_RET_ADD_END_STACK] annotation only follows a call that
    returns [bool]. *)
Theorem pushes_follow_return_type (b : Block) (s : Shape) :
  In b blocks -> shape b = Some s ->
  pushes s = pushesFor (returnType (call s)) /\
  (forall slot, annotation s = Some (IF_RET_ADD_END_STACK slot) ->
                returnType (call s) = Some "bool").
Proof.
  intros Hin Hs.
  destruct (wellShaped_inv b Hin) as (s' & Hs' & _ & _ & _ & Hp & Ha).
  assert (s' = s) by congruence. subst s'. auto.
Qed.

Lemma enums_wellFormed :
  forallb enumWellFormed enums = true /\
  bool_decide (NoDup (map fst enums)) = true.
Proof. vm_compute. split; reflexivity. Qed.

(** X21.  No enum is registered twice; within an enum no two constants are
    given the same script-visible name, so that a name finds one constant;
    and the name of a constant is its C name without the [ImGui<Enum>_]
    prefix. *)
Theorem enum_names_are_unambiguous :
  NoDup (map fst enums) /\
  forall e items,
    In (e, items) enums ->
    NoDup (map snd items) /\
    forall c n, In (c, n) items ->
      c = "ImGui" +:+ e +:+ "_" +:+ n /\ enumConstant e n = Some c.
Proof.
  destruct enums_wellFormed as [Hall Hnd].
  apply bool_decide_eq_true in Hnd. split; [exact Hnd|].
  intros e items Hin. rewrite forallb_forall in Hall.
  pose proof (Hall _ Hin) as He. unfold enumWellFormed in He.
  cbn [fst snd] in He. apply andb_true_iff in He. destruct He as [Hd Hn].
  apply bool_decide_eq_true in Hd. split; [exact Hd|].
  intros c n Hcn. rewrite forallb_forall in Hn.
  pose proof (Hn _ Hcn) as Hc. cbn [fst snd] in Hc. apply String.eqb_eq in Hc.
  split; [exact Hc|].
  unfold enumConstant.
  assert (Hfind : find (fun x => String.eqb (fst x) e) enums = Some (e, items)).
  { clear -Hin Hnd. induction enums as [|[e' items'] rest IH]; [destruct Hin|].
    cbn [find fst]. cbn [map fst] in Hnd. inversion Hnd as [|? ? Hnot Hnd']; subst.
    destruct Hin as [[= -> ->]|Hin].
    - now rewrite String.eqb_refl.
    - destruct (String.eqb e' e) eqn:E.
      + apply String.eqb_eq in E. subst e'. exfalso. apply Hnot.
        apply list_elem_of_In. apply (in_map fst) in Hin. exact Hin.
      + now apply IH. }
  rewrite Hfind.
  assert (Hitem : find (fun i => String.eqb (snd i) n) items = Some (c, n)).
  { clear -Hcn Hd. induction items as [|[c' n'] rest IH]; [destruct Hcn|].
    cbn [find snd]. cbn [map snd] in Hd. inversion Hd as [|? ? Hnot Hd']; subst.
    destruct Hcn as [[= -> ->]|Hcn].
    - now rewrite String.eqb_refl.
    - destruct (String.eqb n' n) eqn:E.
      + apply String.eqb_eq in E. subst n'. exfalso. apply Hnot.
        apply list_elem_of_In. apply (in_map snd) in Hcn. exact Hcn.
      + now apply IH. }
  now rewrite Hitem.
Qed.

(** X22.  A script-visible name reaches one block: among the blocks
    registered with [IMGUI_FUNCTION] no name is used twice, nor among those
    registered for the draw list, so that looking a binding up by its name
    finds that binding. *)
Theorem binding_names_are_unambiguous :
  NoDup (map (fun b => (registration b, name b)) bindings) /\
  forall b, In b bindings -> registration b = IMGUI_FUNCTION ->
            lookupBinding (name b) = Some b.
Proof.
  split.
  - assert (Hnd : bool_decide
                    (NoDup (map (fun b => (registration b, name b)) bindings))
                  = true) by (vm_compute; reflexivity).
    now apply bool_decide_eq_true in Hnd.
  - intros b Hin Hreg.
    assert (Hall : forallb (fun b =>
                     match registration b with
                     | IMGUI_FUNCTION =>
                         bool_decide (lookupBinding (name b) = Some b)
                     | IMGUI_FUNCTION_DRAW_LIST => true
                     end) bindings = true)
      by (vm_compute; reflexivity).
    rewrite forallb_forall in Hall. specialize (Hall b Hin).
    rewrite Hreg in Hall. now apply bool_decide_eq_true in Hall.
Qed.

End MarshalExtras.

(** * The further properties at work on the sample runtime *)

Module ExtraWitnesses.
Import ImGui Scripts Sample.

Lemma world_reachable : reachable Sample.world.
Proof.
  exact (reachable_call
           (call_makeAssetFromBytes "/temp/x" "a") initialWorld reachable_initial).
Qed.

Lemma world_wf : wf Sample.world.
Proof. exact (reachable_wf Sample.world world_reachable). Qed.

Lemma removeTemporaryAsset_erases_witness :
  exists w', removeTemporaryAsset "/temp/x" Sample.world = (Returned tt, w') /\
    contentStore w' = delete "/temp/x" (contentStore Sample.world) /\
    logged w'
    = ((if bool_decide (is_Some (contentStore Sample.world !! "/temp/x"))
        then ["Removed temporary asset: " +:+ "/temp/x"] else [])
       ++ logged (ensured Sample.world))%list /\
    exists w'', hasTemporaryAsset "/temp/x" w' = (Returned false, w'').
Proof. exact (removeTemporaryAsset_erases "/temp/x" Sample.world world_wf). Defined.

Lemma image_reads_back_witness :
  exists w', makeImageFromBytes "/temp/i" "abc" initialWorld
             = (Returned "/temp/i", w') /\
  exists w'', getTemporaryImage "/temp/i" w'
              = (Returned (Some (mkImage 97 98 ["c"%byte])), w'').
Proof.
  exact (proj1 (image_reads_back "/temp/i" "abc"
                  initialWorld wf_initialWorld eq_refl)
           (mkImage 97 98 ["c"%byte]) eq_refl eq_refl).
Defined.

Lemma makeAsset_reads_back_witness :
  exists w', makeAsset Sample.engine "/temp/s" (Sample.LuaString "abc") initialWorld
             = (Returned "/temp/s", w') /\
  exists w'', getTemporaryAsset "/temp/s" w'
              = (Returned (Some "abc"), w'').
Proof.
  exact (makeAsset_reads_back Sample.engine "/temp/s" (Sample.LuaString "abc")
           initialWorld wf_initialWorld eq_refl).
Defined.

Lemma makeAssetFromBytes_last_write_wins_witness :
  exists w1 w2,
    makeAssetFromBytes "/temp/x" "a" initialWorld = (Returned "/temp/x", w1) /\
    makeAssetFromBytes "/temp/x" "b" w1 = (Returned "/temp/x", w2) /\
    (forall other, other <> "/temp/x" ->
       contentStore w1 !! other = contentStore initialWorld !! other) /\
    contentStore w2 = <["/temp/x" := FileBytes (utf8Bytes "b")]> (contentStore initialWorld).
Proof.
  exact (makeAssetFromBytes_last_write_wins "/temp/x" "a" "b" initialWorld
           wf_initialWorld eq_refl).
Defined.

Lemma make_then_remove_witness :
  exists w1 w2,
    makeAssetFromBytes "/temp/y" "b" Sample.world = (Returned "/temp/y", w1) /\
    removeTemporaryAsset "/temp/y" w1 = (Returned tt, w2) /\
    contentStore w2 = contentStore Sample.world.
Proof.
  refine (make_then_remove "/temp/y" "b" Sample.world world_wf eq_refl _).
  vm_compute. reflexivity.
Defined.

Lemma probes_agree_witness :
  exists (b : bool) (r : option string) (w' : World),
    hasTemporaryAsset "/temp/x" Sample.world = (Returned b, w') /\
    getTemporaryAsset "/temp/x" Sample.world = (Returned r, w') /\
    (b = true <-> is_Some r) /\
    contentStore w' = contentStore Sample.world /\
    hasTemporaryAsset "/temp/x" w' = (Returned b, w') /\
    getTemporaryAsset "/temp/x" w' = (Returned r, w').
Proof. exact (probes_agree "/temp/x" Sample.world world_wf). Defined.

Lemma clearTemporaryAssets_only_logs_witness :
  exists w', clearTemporaryAssets Sample.world = (Returned tt, w') /\
    heap w' = heap Sample.world /\
    tempSource w' = tempSource Sample.world /\
    runtimeSources w' = runtimeSources Sample.world /\
    logged w' = "Cleared all temporary assets" :: logged Sample.world.
Proof. exact (clearTemporaryAssets_only_logs Sample.world world_wf). Defined.

Lemma failure_and_lazy_creation_witness :
  exists e w', makeAsset Sample.engine "/temp/f" (Sample.LuaFunction 0) initialWorld
               = (Thrown e, w') /\
     initialized w' = true /\
     runtimeSources w' !! "/temp" = Some (tempSource w') /\
     contentStore w' = ∅.
Proof.
  exact (proj1 (failure_and_lazy_creation Sample.engine "/temp/f"
                  (Sample.LuaFunction 0) "a" initialWorld eq_refl eq_refl)
           eq_refl eq_refl eq_refl).
Defined.

Lemma store_is_never_replaced_witness :
  initialized (worldAfter call_clearTemporaryAssets Sample.world)
  = true /\
  tempSource (worldAfter call_clearTemporaryAssets Sample.world)
  = tempSource Sample.world /\
  runtimeSources (worldAfter call_clearTemporaryAssets Sample.world)
    !! "/temp"
  = Some (tempSource Sample.world).
Proof.
  exact (store_is_never_replaced call_clearTemporaryAssets
           Sample.world world_wf eq_refl eq_refl).
Defined.

Lemma reachable_store_is_mounted_witness :
  runtimeSources Sample.world !! "/temp" = Some (tempSource Sample.world).
Proof. exact (reachable_store_is_mounted Sample.world world_reachable). Defined.

Lemma store_is_created_once_witness :
  count_occ string_dec (logged Sample.world) "Initialized temporary asset source" = 1.
Proof. exact (store_is_created_once Sample.world world_reachable). Defined.

Lemma store_keeps_to_its_namespace_witness :
  beginsWith "/temp/x" "/temp/" = true.
Proof.
  refine (store_keeps_to_its_namespace Sample.world world_reachable "/temp/x" _).
  vm_compute. eauto.
Defined.

Lemma makeAssetFromBytes_accepts_prefixed_witness :
  exists w', makeAssetFromBytes "/temp/" "s" initialWorld = (Returned "/temp/", w').
Proof.
  refine (proj1 (makeAssetFromBytes_accepts_prefixed "/temp/" "s" initialWorld
                   wf_initialWorld) _).
  exists EmptyString. reflexivity.
Defined.

Lemma bEnd_in : In bEnd bindings.
Proof. do 11 right. left. reflexivity. Qed.

Lemma bTreePop_in : In bTreePop bindings.
Proof. do 147 right. left. reflexivity. Qed.

Lemma bBegin_in : In bBegin bindings.
Proof. do 10 right. left. reflexivity. Qed.

Lemma unwind_uses_the_closing_binding_witness :
  closingFunction 1 = Some "End".
Proof.
  exact (proj1 ScriptExtras.unwind_uses_the_closing_binding bEnd 1 bEnd_in eq_refl).
Defined.

Lemma nested_script_is_balanced_witness :
  exists calls open',
    runCalls [mkCall bBegin 1 true; mkCall bTreeNode 1 true; mkCall bBullet 1 false;
              mkCall bTreePop 1 false; mkCall bEnd 1 false]
      (mkFrame [13] ["BeginPopup"]) []
    = (None, mkFrame [13] calls, open').
Proof.
  refine (ScriptExtras.nested_script_is_balanced _ _ (mkFrame [13] ["BeginPopup"]) []).
  apply (nested_scope (mkCall bBegin 1 true) (mkCall bEnd 1 false) 1
           [mkCall bTreeNode 1 true; mkCall bBullet 1 false; mkCall bTreePop 1 false]);
    [reflexivity|reflexivity|].
  apply (nested_scope (mkCall bTreeNode 1 true) (mkCall bTreePop 1 false) 6
           [mkCall bBullet 1 false]); [reflexivity|reflexivity|].
  apply nested_plain; reflexivity.
Defined.

Lemma unwind_equals_closing_by_hand_witness :
  exists open',
    runCalls (closingScript [6; 1]) (mkFrame [6; 1] ["Begin"; "TreeNode"]) [6]
    = (None, FrameBoundaryUnwind (mkFrame [6; 1] ["Begin"; "TreeNode"]), open').
Proof.
  refine (ScriptExtras.unwind_equals_closing_by_hand [6; 1] ["Begin"; "TreeNode"] [6] _).
  repeat constructor; vm_compute; eauto.
Defined.

Lemma stack_stays_closable_witness :
  let fr' := snd (fst (runCalls [mkCall bBegin 1 true; mkCall bBegin 1 true;
                                 mkCall bTreePop 1 false] emptyFrame [])) in
  Forall closable (endStack fr') /\
  length (nativeCalls (FrameBoundaryUnwind fr'))
  = length (nativeCalls fr') + length (endStack fr').
Proof.
  refine (ScriptExtras.stack_stays_closable
            [mkCall bBegin 1 true; mkCall bBegin 1 true; mkCall bTreePop 1 false]
            emptyFrame [] _ _); [|constructor].
  constructor; [split; [exact bBegin_in|discriminate]|].
  constructor; [split; [exact bBegin_in|discriminate]|].
  constructor; [split; [exact bTreePop_in|discriminate]|].
  constructor.
Defined.

Lemma beginBlock_in : In Marshal.beginBlock Marshal.blocks.
Proof. do 10 right. left. reflexivity. Qed.

Lemma blocks_pass_what_they_declare_witness :
  exists s, Marshal.shape Marshal.beginBlock = Some s /\
    Marshal.passed (Marshal.call s) = map snd (Marshal.declared s) /\
    (Marshal.onDrawList (Marshal.call s) = true <->
     Marshal.opening Marshal.beginBlock = IMGUI_FUNCTION_DRAW_LIST).
Proof.
  exact (MarshalExtras.blocks_pass_what_they_declare Marshal.beginBlock beginBlock_in).
Defined.

Lemma write_backs_match_pointer_arguments_witness :
  Marshal.writeBacks Marshal.beginShape
  = omap Marshal.writeBackFor (Marshal.declared Marshal.beginShape).
Proof.
  exact (MarshalExtras.write_backs_match_pointer_arguments Marshal.beginBlock
           Marshal.beginShape beginBlock_in eq_refl).
Defined.

Lemma pushes_follow_return_type_witness :
  Marshal.pushes Marshal.beginShape
  = Marshal.pushesFor (Marshal.returnType (Marshal.call Marshal.beginShape)) /\
  (forall slot,
     Marshal.annotation Marshal.beginShape = Some (IF_RET_ADD_END_STACK slot) ->
     Marshal.returnType (Marshal.call Marshal.beginShape) = Some "bool").
Proof.
  exact (MarshalExtras.pushes_follow_return_type Marshal.beginBlock
           Marshal.beginShape beginBlock_in eq_refl).
Defined.

Lemma enum_names_are_unambiguous_witness :
  "ImGuiTableRowFlags_Headers" = "ImGui" +:+ "TableRowFlags" +:+ "_" +:+ "Headers" /\
  Marshal.enumConstant "TableRowFlags" "Headers" = Some "ImGuiTableRowFlags_Headers".
Proof.
  refine (proj2 (proj2 MarshalExtras.enum_names_are_unambiguous "TableRowFlags"
                   [("ImGuiTableRowFlags_None", "None");
                    ("ImGuiTableRowFlags_Headers", "Headers")] _)
            "ImGuiTableRowFlags_Headers" "Headers" _).
  - do 27 right. left. reflexivity.
  - right. left. reflexivity.
Defined.

Lemma binding_names_are_unambiguous_witness :
  lookupBinding "Begin" = Some bBegin.
Proof.
  exact (proj2 MarshalExtras.binding_names_are_unambiguous bBegin bBegin_in eq_refl).
Defined.

End ExtraWitnesses.
